(** * MEAnalyzer (MEA.py): the container decoding engine, embedded and verified

    The development follows src/MEA.py.  Python integers are unbounded and are
    modelled by [Z]; a [bytes] object is the list of its byte values; the
    fields of a ctypes structure are read at their byte offsets from the
    little-endian image.  Text rendered by [format] and by the [%] operator is
    a list of characters. *)

From Stdlib Require Import ZArith List Lia Bool Ascii.
From Stdlib Require String.
From Stdlib Require DecimalString.
Import String.StringSyntax.
Import ListNotations.
Local Open Scope string_scope.
Local Open Scope Z_scope.

(** ** Python primitives used by the engine *)

Module Py.

Definition bytes := list Z.

Definition len {A : Type} (l : list A) : Z := Z.of_nat (length l).

(** Index normalisation of a slice bound: a negative bound counts from the
    end, and every bound is clamped to [0, len]. *)
Definition norm_index (n i : Z) : Z :=
  if i <? 0 then Z.max 0 (i + n) else Z.min i n.

(** [s[a:b]] *)
Definition slice {A : Type} (s : list A) (a b : Z) : list A :=
  let lo := norm_index (len s) a in
  let hi := norm_index (len s) b in
  firstn (Z.to_nat (hi - lo)) (skipn (Z.to_nat lo) s).

(** [s[a:]] *)
Definition slice_from {A : Type} (s : list A) (a : Z) : list A :=
  skipn (Z.to_nat (norm_index (len s) a)) s.

(** [s[:b]] *)
Definition slice_to {A : Type} (s : list A) (b : Z) : list A :=
  firstn (Z.to_nat (norm_index (len s) b)) s.

(** [s[i]] for a non-negative index; [None] stands for IndexError. *)
Definition index {A : Type} (s : list A) (i : Z) : option A :=
  if i <? 0 then nth_error s (Z.to_nat (i + len s)) else nth_error s (Z.to_nat i).

(** [sum(data)] *)
Definition sum (data : list Z) : Z := fold_left Z.add data 0.

(** [int.from_bytes(data, 'little')] *)
Fixpoint int_from_bytes_little (data : bytes) : Z :=
  match data with
  | [] => 0
  | b :: t => b + 256 * int_from_bytes_little t
  end.

(** Binary digits of a positive number, most significant first. *)
Fixpoint bin_pos (p : positive) : list ascii :=
  match p with
  | xH => ["1"%char]
  | xO q => bin_pos q ++ ["0"%char]
  | xI q => bin_pos q ++ ["1"%char]
  end.

(** [format(x, '032b')]: the digits, zero-padded to the width 32; the sign of
    a negative number comes before the padding. *)
Definition format_032b (x : Z) : list ascii :=
  match x with
  | Z0 => repeat "0"%char 32
  | Zpos p => repeat "0"%char (32 - length (bin_pos p)) ++ bin_pos p
  | Zneg p => "-"%char :: repeat "0"%char (31 - length (bin_pos p)) ++ bin_pos p
  end.

Definition digit2 (c : ascii) : option Z :=
  if Ascii.eqb c "0"%char then Some 0
  else if Ascii.eqb c "1"%char then Some 1
  else None.

Fixpoint int2_from (acc : Z) (s : list ascii) : option Z :=
  match s with
  | [] => Some acc
  | c :: t =>
      match digit2 c with
      | Some d => int2_from (2 * acc + d) t
      | None => None
      end
  end.

(** [int(s, 2)] on a string of binary digits; [None] stands for ValueError
    (an empty string or a character that is no binary digit). *)
Definition int2 (s : list ascii) : option Z :=
  match s with
  | [] => None
  | _ => int2_from 0 s
  end.

End Py.

(** ** $CPD entry attribute word (ext_anl, lines 1943-1946) *)

Module CpdAttr.

(** [cpd_off_attr = format(cpd_entry_hdr.OffsetAttrib, '032b')] *)
Definition cpd_off_attr (OffsetAttrib : Z) : list ascii :=
  Py.format_032b OffsetAttrib.

(** [cpd_mod_off = int(cpd_off_attr[7:], 2)] *)
Definition cpd_mod_off (OffsetAttrib : Z) : option Z :=
  Py.int2 (Py.slice_from (cpd_off_attr OffsetAttrib) 7).

(** [cpd_mod_huff = int(cpd_off_attr[6], 2)] *)
Definition cpd_mod_huff (OffsetAttrib : Z) : option Z :=
  match Py.index (cpd_off_attr OffsetAttrib) 6 with
  | Some c => Py.int2 [c]
  | None => None
  end.

(** [cpd_mod_res = int(cpd_off_attr[:6], 2)] *)
Definition cpd_mod_res (OffsetAttrib : Z) : option Z :=
  Py.int2 (Py.slice_to (cpd_off_attr OffsetAttrib) 6).

End CpdAttr.

(** ** $CPD checksum (cpd_chk, lines 1723-1729) *)

Module CpdChk.

(** [cpd_chk(cpd_data)]; [None] stands for the IndexError of
    [cpd_data[0xB]] on a buffer shorter than twelve bytes.  In
    [0x100 - cpd_sum & 0xFF] the subtraction binds tighter than [&]. *)
Definition cpd_chk (cpd_data : Py.bytes) : option bool :=
  match Py.index cpd_data 0xB with
  | None => None
  | Some cpd_chk_byte =>
      let cpd_sum := Py.sum cpd_data - cpd_chk_byte in
      let cpd_chk_calc := Z.land (Z.land (0x100 - cpd_sum) 0xFF) 0xFF in
      Some (if cpd_chk_byte =? cpd_chk_calc then true else false)
  end.

(** The sum the specification words: every directory byte but the one at
    offset 0xB. *)
Definition sum_except_chk (cpd_data : Py.bytes) : Z :=
  Py.sum (firstn 11 cpd_data) + Py.sum (skipn 12 cpd_data).

Definition spec_accepts (cpd_data : Py.bytes) (chk : Z) : bool :=
  Z.land (0x100 - sum_except_chk cpd_data) 0xFF =? chk.

End CpdChk.

(** ** hashlib: SHA-1 and SHA-256 (FIPS 180-4), which [sha_256], [sha_1] and
    [rsa_sig_val] call.  Words are integers below 2^32. *)

Module Hashlib.

Definition w32 (x : Z) : Z := x mod 2 ^ 32.
Definition add32 (x y : Z) : Z := w32 (x + y).
Definition rotr (x n : Z) : Z :=
  w32 (Z.lor (Z.shiftr x n) (Z.shiftl x (32 - n))).
Definition rotl (x n : Z) : Z := rotr x (32 - n).
Definition not32 (x : Z) : Z := 2 ^ 32 - 1 - x.

(** Big-endian word of four bytes, and back. *)
Definition be32 (b0 b1 b2 b3 : Z) : Z :=
  ((b0 * 256 + b1) * 256 + b2) * 256 + b3.
Definition be32_bytes (w : Z) : list Z :=
  [(w / 2 ^ 24) mod 256; (w / 2 ^ 16) mod 256; (w / 2 ^ 8) mod 256; w mod 256].

Fixpoint be_words (data : list Z) (n : nat) : list Z :=
  match n with
  | O => []
  | S n' =>
      match data with
      | b0 :: b1 :: b2 :: b3 :: t => be32 b0 b1 b2 b3 :: be_words t n'
      | _ => []
      end
  end.

(** Message padding: 0x80, zero bytes up to 56 modulo 64, then the bit length
    on eight big-endian bytes. *)
Definition pad (msg : list Z) : list Z :=
  let l := Z.of_nat (length msg) in
  let k := (55 - l) mod 64 in
  let bits := 8 * l in
  msg ++ [0x80] ++ repeat 0 (Z.to_nat k)
      ++ be32_bytes ((bits / 2 ^ 32) mod 2 ^ 32) ++ be32_bytes (bits mod 2 ^ 32).

Fixpoint blocks (data : list Z) (n : nat) : list (list Z) :=
  match n with
  | O => []
  | S n' => firstn 64 data :: blocks (skipn 64 data) n'
  end.

Definition padded_blocks (msg : list Z) : list (list Z) :=
  let p := pad msg in blocks p (length p / 64).

Definition word (w : list Z) (t : nat) : Z := nth t w 0.

(** *** SHA-256 *)

(** The first 64 primes; the round constants are the first 32 bits of the
    fractional parts of their cube roots, the initial state those of the
    square roots of the first eight. *)
Definition primes64 : list Z :=
  [2; 3; 5; 7; 11; 13; 17; 19; 23; 29; 31; 37; 41; 43; 47; 53; 59; 61; 67; 71; 73; 79;
   83; 89; 97; 101; 103; 107; 109; 113; 127; 131; 137; 139; 149; 151; 157; 163; 167;
   173; 179; 181; 191; 193; 197; 199; 211; 223; 227; 229; 233; 239; 241; 251; 257; 263;
   269; 271; 277; 281; 283; 293; 307; 311].

(** Integer cube root below 2^bits, one bit at a time from the top. *)
Fixpoint icbrt_bits (bits : nat) (n r : Z) : Z :=
  match bits with
  | O => r
  | S b =>
      let c := r + 2 ^ Z.of_nat b in
      icbrt_bits b n (if c * c * c <=? n then c else r)
  end.

Definition frac_cbrt32 (p : Z) : Z := w32 (icbrt_bits 36 (p * 2 ^ 96) 0).
Definition frac_sqrt32 (p : Z) : Z := w32 (Z.sqrt (p * 2 ^ 64)).

Definition K256 : list Z := Eval vm_compute in map frac_cbrt32 primes64.

Definition ssig0 (x : Z) : Z := Z.lxor (Z.lxor (rotr x 7) (rotr x 18)) (Z.shiftr x 3).
Definition ssig1 (x : Z) : Z := Z.lxor (Z.lxor (rotr x 17) (rotr x 19)) (Z.shiftr x 10).
Definition bsig0 (x : Z) : Z := Z.lxor (Z.lxor (rotr x 2) (rotr x 13)) (rotr x 22).
Definition bsig1 (x : Z) : Z := Z.lxor (Z.lxor (rotr x 6) (rotr x 11)) (rotr x 25).
Definition ch (x y z : Z) : Z := Z.lxor (Z.land x y) (Z.land (not32 x) z).
Definition maj (x y z : Z) : Z :=
  Z.lxor (Z.lxor (Z.land x y) (Z.land x z)) (Z.land y z).

(** Message schedule: [n] more words after the ones in [w]. *)
Fixpoint schedule256 (w : list Z) (n : nat) : list Z :=
  match n with
  | O => w
  | S n' =>
      let t := length w in
      let x := add32 (add32 (ssig1 (word w (t - 2))) (word w (t - 7)))
                     (add32 (ssig0 (word w (t - 15))) (word w (t - 16))) in
      schedule256 (w ++ [x]) n'
  end.

Record state256 : Type := St256 {
  sa : Z; sb : Z; sc : Z; sd : Z; se : Z; sf : Z; sg : Z; sh : Z }.

Definition round256 (s : state256) (kw : Z * Z) : state256 :=
  let (k, w) := kw in
  let t1 := add32 (add32 (add32 (sh s) (bsig1 (se s))) (add32 (ch (se s) (sf s) (sg s)) k)) w in
  let t2 := add32 (bsig0 (sa s)) (maj (sa s) (sb s) (sc s)) in
  St256 (add32 t1 t2) (sa s) (sb s) (sc s) (add32 (sd s) t1) (se s) (sf s) (sg s).

Definition compress256 (h : state256) (block : list Z) : state256 :=
  let w := schedule256 (be_words block 16) 48 in
  let s := fold_left round256 (combine K256 w) h in
  St256 (add32 (sa h) (sa s)) (add32 (sb h) (sb s)) (add32 (sc h) (sc s))
        (add32 (sd h) (sd s)) (add32 (se h) (se s)) (add32 (sf h) (sf s))
        (add32 (sg h) (sg s)) (add32 (sh h) (sh s)).

Definition init256 : state256 :=
  Eval vm_compute in
    St256 (frac_sqrt32 2) (frac_sqrt32 3) (frac_sqrt32 5) (frac_sqrt32 7)
          (frac_sqrt32 11) (frac_sqrt32 13) (frac_sqrt32 17) (frac_sqrt32 19).

(** [hashlib.sha256(data).digest()] *)
Definition sha256 (data : list Z) : list Z :=
  let s := fold_left compress256 (padded_blocks data) init256 in
  be32_bytes (sa s) ++ be32_bytes (sb s) ++ be32_bytes (sc s) ++ be32_bytes (sd s)
    ++ be32_bytes (se s) ++ be32_bytes (sf s) ++ be32_bytes (sg s) ++ be32_bytes (sh s).

(** *** SHA-1 *)

Fixpoint schedule1 (w : list Z) (n : nat) : list Z :=
  match n with
  | O => w
  | S n' =>
      let t := length w in
      let x := rotl (Z.lxor (Z.lxor (word w (t - 3)) (word w (t - 8)))
                            (Z.lxor (word w (t - 14)) (word w (t - 16)))) 1 in
      schedule1 (w ++ [x]) n'
  end.

Record state1 : Type := St1 { ha : Z; hb : Z; hc : Z; hd : Z; he : Z }.

Definition f1 (t : nat) (b c d : Z) : Z :=
  if (t <? 20)%nat then Z.lor (Z.land b c) (Z.land (not32 b) d)
  else if (t <? 40)%nat then Z.lxor (Z.lxor b c) d
  else if (t <? 60)%nat then Z.lor (Z.lor (Z.land b c) (Z.land b d)) (Z.land c d)
  else Z.lxor (Z.lxor b c) d.

Definition k1 (t : nat) : Z :=
  if (t <? 20)%nat then 0x5a827999
  else if (t <? 40)%nat then 0x6ed9eba1
  else if (t <? 60)%nat then 0x8f1bbcdc
  else 0xca62c1d6.

Definition round1 (s : state1) (tw : nat * Z) : state1 :=
  let (t, w) := tw in
  let tmp := add32 (add32 (add32 (rotl (ha s) 5) (f1 t (hb s) (hc s) (hd s)))
                          (add32 (he s) w)) (k1 t) in
  St1 tmp (ha s) (rotl (hb s) 30) (hc s) (hd s).

Definition compress1 (h : state1) (block : list Z) : state1 :=
  let w := schedule1 (be_words block 16) 64 in
  let s := fold_left round1 (combine (seq 0 80) w) h in
  St1 (add32 (ha h) (ha s)) (add32 (hb h) (hb s)) (add32 (hc h) (hc s))
      (add32 (hd h) (hd s)) (add32 (he h) (he s)).

Definition init1 : state1 :=
  St1 0x67452301 0xefcdab89 0x98badcfe 0x10325476 0xc3d2e1f0.

(** [hashlib.sha1(data).digest()] *)
Definition sha1 (data : list Z) : list Z :=
  let s := fold_left compress1 (padded_blocks data) init1 in
  be32_bytes (ha s) ++ be32_bytes (hb s) ++ be32_bytes (hc s) ++ be32_bytes (hd s)
    ++ be32_bytes (he s).

End Hashlib.

(** ** Hexadecimal text: the [%X] and [%0.8X] conversions, [int(s, 16)],
    [hexdigest()] and [upper()] *)

Module Hex.

Definition upper_digits : list ascii :=
  ["0"; "1"; "2"; "3"; "4"; "5"; "6"; "7"; "8"; "9"; "A"; "B"; "C"; "D"; "E"; "F"]%char.
Definition lower_digits : list ascii :=
  ["0"; "1"; "2"; "3"; "4"; "5"; "6"; "7"; "8"; "9"; "a"; "b"; "c"; "d"; "e"; "f"]%char.

Definition hexc (d : Z) : ascii := nth (Z.to_nat d) upper_digits "?"%char.
Definition hexc_lower (d : Z) : ascii := nth (Z.to_nat d) lower_digits "?"%char.

(** Hexadecimal digits of a non-negative number, most significant first;
    [fuel] bounds the number of digits. *)
Fixpoint hex_digits (fuel : nat) (v : Z) : list Z :=
  match fuel with
  | O => [v mod 16]
  | S f => if v <? 16 then [v] else hex_digits f (v / 16) ++ [v mod 16]
  end.

Definition digits_of (v : Z) : list Z := hex_digits (Z.to_nat (Z.log2 v)) v.

(** ['%X' % v] *)
Definition fmt_X (v : Z) : list ascii :=
  if v <? 0 then "-"%char :: map hexc (digits_of (- v))
  else map hexc (digits_of v).

(** ['%0.8X' % v]: at least eight digits. *)
Definition fmt_08X (v : Z) : list ascii :=
  if v <? 0 then "-"%char :: repeat "0"%char (8 - length (digits_of (- v)))
                  ++ map hexc (digits_of (- v))
  else repeat "0"%char (8 - length (digits_of v)) ++ map hexc (digits_of v).

Fixpoint find_digit (c : ascii) (l : list ascii) (i : Z) : option Z :=
  match l with
  | [] => None
  | x :: t => if Ascii.eqb c x then Some i else find_digit c t (i + 1)
  end.

Definition digit16 (c : ascii) : option Z :=
  match find_digit c upper_digits 0 with
  | Some d => Some d
  | None => find_digit c lower_digits 0
  end.

Fixpoint int16_from (acc : Z) (s : list ascii) : option Z :=
  match s with
  | [] => Some acc
  | c :: t =>
      match digit16 c with
      | Some d => int16_from (16 * acc + d) t
      | None => None
      end
  end.

(** [int(s, 16)] on a string of hexadecimal digits; [None] stands for
    ValueError. *)
Definition int16 (s : list ascii) : option Z :=
  match s with
  | [] => None
  | _ => int16_from 0 s
  end.

(** [bytes.hex()] / [hexdigest()] of a digest: two lower-case digits a byte. *)
Definition hexdigest (digest : list Z) : list ascii :=
  flat_map (fun b => [hexc_lower (b / 16); hexc_lower (b mod 16)]) digest.

(** [str.upper()] on the characters a digest holds. *)
Definition upper_char (c : ascii) : ascii :=
  match find_digit c lower_digits 0 with
  | Some d => hexc d
  | None => c
  end.
Definition upper (s : list ascii) : list ascii := map upper_char s.

Definition text_eqb (s1 s2 : list ascii) : bool :=
  if list_eq_dec ascii_dec s1 s2 then true else false.

End Hex.

(** ** RSA signature validation (rsa_sig_val, lines 1732-1755) *)

Module Rsa.

(** The fields of [MN2_Manifest] that [rsa_sig_val] reads. *)
Record manifest_key : Type := MkKey {
  HeaderLength : Z;          (* 0x04, in dwords *)
  Size : Z;                  (* 0x18, in dwords *)
  RsaPubKey : list Z;        (* 0x80, 64 dwords *)
  RsaPubExp : Z;             (* 0x180 *)
  RsaSig : list Z            (* 0x184, 64 dwords *)
}.

(** [int(''.join('%0.8X' % int.from_bytes(struct.pack('<I', val), 'little')
         for val in reversed(words)), 16)] *)
Definition words_to_int (words : list Z) : option Z :=
  Hex.int16 (flat_map Hex.fmt_08X (rev words)).

(** [pow(b, e, m)] for a non-negative exponent and a positive modulus, by
    repeated squaring. *)
Fixpoint pow_mod_pos (b : Z) (e : positive) (m : Z) : Z :=
  match e with
  | xH => b mod m
  | xO e' => let r := pow_mod_pos b e' m in (r * r) mod m
  | xI e' => let r := pow_mod_pos b e' m in (r * r mod m * (b mod m)) mod m
  end.

(** [None] stands for the exceptions of [pow]: a zero modulus (ValueError);
    the exponent, an unsigned field, is never negative. *)
Definition py_pow (b e m : Z) : option Z :=
  if m =? 0 then None
  else match e with
       | Z0 => Some (1 mod m)
       | Zpos p => Some (pow_mod_pos b p m)
       | Zneg _ => None
       end.

Inductive sig_result : Type :=
| SigChecked (valid : bool) (dec_hash rsa_hash : list ascii) (* [v, dec, sha, False] *)
| SigError                                                   (* [False, 0, 0, True] *)
| SigUnset                                                   (* [False, -1, -1, True] *)
| SigRaised.                                                 (* exception before [try] *)

Definition uses_sha1 (variant : String.string) (major : Z) : bool :=
  (String.eqb variant "ME" && (major <? 6)) || (String.eqb variant "SPS" && (major <? 2)).

(** [rsa_sig_val(man_hdr_struct, check_start)], with the globals [reading],
    [variant] and [major] as arguments. *)
Definition rsa_sig_val (reading : Py.bytes) (variant : String.string) (major : Z)
    (man_hdr_struct : manifest_key) (check_start : Z) : sig_result :=
  let man_hdr := HeaderLength man_hdr_struct * 4 in
  let man_size := Size man_hdr_struct * 4 in
  let man_pexp := RsaPubExp man_hdr_struct in
  match words_to_int (RsaPubKey man_hdr_struct), words_to_int (RsaSig man_hdr_struct) with
  | Some man_pkey, Some man_sign =>
      match py_pow man_sign man_pexp man_pkey with
      | None => SigError
      | Some dec =>
          let dec_sign := Hex.fmt_X dec in
          let data := Py.slice reading check_start (check_start + 0x80)
                      ++ Py.slice reading (check_start + man_hdr) (check_start + man_size) in
          if uses_sha1 variant major then
            let dec_hash := Py.slice_from dec_sign (-40) in
            let rsa_hash := Hex.upper (Hex.hexdigest (Hashlib.sha1 data)) in
            SigChecked (Hex.text_eqb dec_hash rsa_hash) dec_hash rsa_hash
          else
            let dec_hash := Py.slice_from dec_sign (-64) in
            let rsa_hash := Hex.upper (Hex.hexdigest (Hashlib.sha256 data)) in
            SigChecked (Hex.text_eqb dec_hash rsa_hash) dec_hash rsa_hash
      end
  | _, _ => SigRaised
  end.

(** The hashed message and the numbers the specification speaks of. *)
Definition signed_data (reading : Py.bytes) (k : manifest_key) (check_start : Z) : Py.bytes :=
  Py.slice reading check_start (check_start + 0x80)
    ++ Py.slice reading (check_start + HeaderLength k * 4) (check_start + Size k * 4).

(** Little-endian number of a list of dwords. *)
Fixpoint le_words (words : list Z) : Z :=
  match words with
  | [] => 0
  | w :: t => w + 2 ^ 32 * le_words t
  end.

(** Big-endian number of a digest. *)
Definition digest_int (digest : list Z) : Z :=
  fold_left (fun acc b => 256 * acc + b) digest 0.

End Rsa.

(** ** Digit lists: the values used to reason about rendered text *)

Module Digits.

(** Value of a digit string, as [int2_from] accumulates it. *)
Fixpoint bits_val (acc : Z) (s : list bool) : Z :=
  match s with
  | [] => acc
  | b :: t => bits_val (2 * acc + Z.b2z b) t
  end.

Definition bitc (b : bool) : ascii := if b then "1"%char else "0"%char.

Fixpoint bits_pos (p : positive) : list bool :=
  match p with
  | xH => [true]
  | xO q => bits_pos q ++ [false]
  | xI q => bits_pos q ++ [true]
  end.

(** The 32 digits of a 32-bit word. *)
Definition bits32 (w : Z) : list bool :=
  match w with
  | Zpos p => repeat false (32 - length (bits_pos p)) ++ bits_pos p
  | _ => repeat false 32
  end.

(** Value of a list of hexadecimal digits, most significant first. *)
Fixpoint dval_from (acc : Z) (ds : list Z) : Z :=
  match ds with
  | [] => acc
  | d :: t => dval_from (16 * acc + d) t
  end.

Definition dval (ds : list Z) : Z := dval_from 0 ds.

Definition digits_ok (ds : list Z) : Prop := Forall (fun d => 0 <= d < 16) ds.

Definition byte_digits (digest : list Z) : list Z :=
  flat_map (fun b => [b / 16; b mod 16]) digest.

Definition bytes_ok (data : list Z) : Prop := Forall (fun b => 0 <= b < 256) data.

Definition words_ok (ws : list Z) : Prop := Forall (fun w => 0 <= w < 2 ^ 32) ws.

End Digits.

(** ** ctypes structures (get_struct, lines 1416-1434) *)

Module Struct.

(** What [get_struct] does: it returns the structure filled from
    [str_[off:off + struct_len]], or takes the error branch, which appends
    the out-of-bounds message to [err_stor], prints the errors and calls
    [mea_exit(1)]. *)
Inductive gs_result : Type :=
| Fit (data : Py.bytes)
| OutOfBounds (off : Z).

Definition get_struct (str_ : Py.bytes) (off : Z) (struct_len : Z) (file_end : Z)
    : gs_result :=
  let str_data := Py.slice str_ off (off + struct_len) in
  let fit_len := Z.min (Py.len str_data) struct_len in
  if (off >? file_end) || (fit_len <? struct_len) then OutOfBounds off
  else Fit str_data.

(** Field access at a byte offset of the structure. *)
Definition field (data : Py.bytes) (off n : Z) : Py.bytes :=
  firstn (Z.to_nat n) (skipn (Z.to_nat off) data).

Definition u8 (data : Py.bytes) (off : Z) : Z := Py.int_from_bytes_little (field data off 1).
Definition u16 (data : Py.bytes) (off : Z) : Z := Py.int_from_bytes_little (field data off 2).
Definition u32 (data : Py.bytes) (off : Z) : Z := Py.int_from_bytes_little (field data off 4).

Definition u32_array (data : Py.bytes) (off : Z) (n : nat) : list Z :=
  map (fun i => u32 data (off + 4 * Z.of_nat i)) (seq 0 n).

Fixpoint until_nul (data : Py.bytes) : Py.bytes :=
  match data with
  | [] => []
  | b :: t => if b =? 0 then [] else b :: until_nul t
  end.

(** A [char * n] field reads as the bytes before the first NUL. *)
Definition chars (data : Py.bytes) (off n : Z) : Py.bytes :=
  until_nul (field data off n).

(** Sizes of the structures, from their [_fields_] ([_pack_ = 1]). *)
Definition sizeof_FPT_Header : Z := 0x20.
Definition sizeof_MN2_Manifest : Z := 0x284.
Definition sizeof_CPD_Header : Z := 0x10.
Definition sizeof_CPD_Entry : Z := 0x18.
Definition sizeof_CPD_Ext_03 : Z := 0x58.

(** [MN2_Manifest] fields read by [rsa_sig_val]. *)
Definition manifest_key_of (mn2 : Py.bytes) : Rsa.manifest_key :=
  Rsa.MkKey (u32 mn2 0x04) (u32 mn2 0x18)
            (u32_array mn2 0x80 64) (u32 mn2 0x180) (u32_array mn2 0x184 64).

End Struct.

(** The eight digits that ['%0.8X'] gives a dword. *)
Definition word_digits (w : Z) : list Z :=
  repeat 0 (8 - length (Hex.digits_of w)) ++ Hex.digits_of w.

(** ** A manifest whose decrypted signature is its own digest, unpadded *)

Module RsaExample.

(** An $MN2 manifest (0x284 bytes) followed by sixteen protected bytes: public
    exponent 17, a 2048-bit modulus, and a signature whose 17th power
    modulo the key is the SHA-256 digest of the signed bytes itself. *)
Definition manifest_image : Py.bytes :=
  [4; 0; 0; 0; 161; 0; 0; 0; 0; 0; 1; 0; 1; 0; 0; 0; 134; 128; 0; 0; 21; 3; 23; 32; 165; 0; 0;
   0; 36; 77; 78; 50; 0; 0; 0; 0; 11; 0; 8; 0; 50; 0; 97; 13; 0; 0; 0; 0; 0; 0; 0; 0; 0; 0; 0;
   0; 0; 0; 0; 0; 0; 0; 0; 0; 0; 0; 0; 0; 0; 0; 0; 0; 0; 0; 0; 0; 0; 0; 0; 0; 0; 0; 0; 0; 0;
   0; 0; 0; 0; 0; 0; 0; 0; 0; 0; 0; 0; 0; 0; 0; 0; 0; 0; 0; 0; 0; 0; 0; 0; 0; 0; 0; 0; 0; 0;
   0; 0; 0; 0; 0; 64; 0; 0; 0; 62; 0; 0; 0; 171; 52; 59; 224; 136; 229; 110; 61; 215; 138; 66;
   107; 131; 28; 29; 221; 95; 137; 109; 81; 47; 202; 237; 47; 43; 22; 113; 54; 145; 213; 199;
   133; 87; 149; 116; 94; 15; 164; 73; 207; 126; 82; 60; 16; 16; 137; 155; 239; 120; 123; 134;
   165; 33; 16; 105; 127; 237; 16; 74; 152; 61; 62; 165; 64; 136; 168; 7; 20; 249; 252; 79;
   12; 136; 16; 217; 119; 161; 15; 148; 49; 153; 168; 234; 87; 139; 60; 57; 98; 93; 141; 208;
   151; 144; 33; 31; 147; 105; 251; 124; 118; 74; 209; 53; 200; 127; 253; 87; 85; 69; 222;
   237; 126; 124; 82; 68; 203; 229; 33; 3; 144; 22; 101; 105; 254; 206; 79; 103; 52; 191; 108;
   177; 224; 133; 218; 91; 108; 79; 158; 18; 139; 150; 131; 46; 25; 98; 237; 26; 172; 148;
   250; 226; 245; 45; 101; 203; 99; 36; 204; 245; 173; 148; 226; 46; 22; 118; 85; 146; 178;
   87; 79; 129; 247; 118; 184; 242; 60; 96; 227; 161; 146; 200; 224; 124; 124; 172; 0; 212;
   24; 167; 161; 20; 157; 193; 111; 36; 154; 127; 157; 12; 194; 243; 71; 57; 174; 169; 51;
   234; 152; 202; 117; 127; 26; 206; 191; 75; 6; 15; 193; 214; 127; 30; 28; 87; 227; 125; 216;
   124; 66; 116; 28; 142; 161; 193; 87; 201; 51; 95; 91; 25; 182; 243; 122; 136; 125; 42; 154;
   37; 107; 17; 85; 44; 20; 0; 111; 148; 169; 17; 0; 0; 0; 68; 155; 130; 33; 197; 246; 167;
   73; 147; 16; 106; 111; 73; 165; 195; 208; 86; 249; 147; 126; 34; 212; 151; 140; 91; 205;
   133; 47; 163; 195; 228; 207; 46; 32; 66; 5; 55; 66; 200; 124; 132; 157; 171; 113; 131; 151;
   13; 115; 173; 101; 118; 210; 212; 38; 10; 172; 81; 203; 110; 7; 170; 90; 33; 75; 23; 125;
   44; 239; 59; 225; 91; 128; 26; 66; 85; 194; 99; 79; 214; 3; 238; 84; 96; 99; 117; 149; 60;
   92; 39; 54; 127; 200; 32; 143; 215; 222; 43; 25; 233; 95; 204; 100; 135; 80; 133; 51; 158;
   247; 252; 72; 234; 139; 97; 68; 125; 208; 38; 5; 17; 247; 191; 236; 144; 241; 185; 120; 29;
   115; 84; 122; 183; 226; 235; 130; 162; 16; 73; 45; 150; 26; 101; 104; 193; 228; 212; 58;
   124; 247; 144; 219; 248; 5; 33; 169; 156; 127; 81; 43; 96; 204; 217; 99; 73; 225; 54; 250;
   119; 185; 7; 119; 161; 90; 14; 9; 19; 226; 35; 184; 206; 149; 243; 172; 44; 102; 252; 15;
   195; 205; 125; 86; 174; 53; 46; 40; 58; 22; 170; 59; 150; 73; 160; 76; 224; 114; 253; 160;
   159; 38; 243; 244; 136; 234; 221; 141; 65; 27; 198; 154; 235; 195; 136; 228; 91; 65; 26;
   45; 134; 249; 84; 45; 145; 215; 170; 226; 18; 179; 244; 83; 164; 54; 174; 184; 18; 198; 20;
   1; 120; 57; 238; 191; 31; 162; 205; 131; 139; 49; 1; 2; 3; 4; 5; 6; 7; 8; 9; 10; 11; 12;
   13; 14; 15; 16].

End RsaExample.

(** The elements [0] and [3] of the list [rsa_sig_val] returns. *)
Definition sig_valid (r : Rsa.sig_result) : bool :=
  match r with Rsa.SigChecked v _ _ => v | _ => false end.
Definition sig_error (r : Rsa.sig_result) : bool :=
  match r with Rsa.SigError | Rsa.SigUnset => true | _ => false end.

(** Decidable form of [words_ok]. *)
Definition words_okb (ws : list Z) : bool :=
  forallb (fun w => (0 <=? w) && (w <? 2 ^ 32)) ws.

(** ** Module attributes: the rows of [cpd_mod_attr] and [cpd_ext_attr] *)

Module Attr.

(** Element [7] of a row: the number 0 (hash unknown), the microcode checksum,
    or the expected hash as upper-case hexadecimal text. *)
Inductive hash_val : Type :=
| HashInt (z : Z)
| HashText (s : list ascii).

Record mod_attr : Type := MkAttr {
  mod_name : String.string;        (* [0] *)
  mod_comp : Z;                    (* [1] 0 none, 1 Huffman, 2 LZMA *)
  mod_encr : Z;                    (* [2] *)
  mod_start : Z;                   (* [3] *)
  mod_size_comp : Z;               (* [4] *)
  mod_size_uncomp : Z;             (* [5] *)
  mod_empty : Z;                   (* [6] *)
  mod_hash : hash_val;             (* [7] *)
  cpd_pname : String.string;       (* [8] *)
  ext_inid : Z;                    (* [9] *)
  mn2_sigs : Rsa.sig_result;       (* [10] *)
  cpd_poffset : Z;                 (* [11] *)
  cpd_pvalid : bool                (* [12] *)
}.

End Attr.

(** ** Removal of the missing IBBP modules (ext_anl, lines 2169-2176) *)

Module Ibbp.

Import Attr.

Definition ibbp_bpm : list String.string := ["IBBL"; "IBB"; "OBB"].

(** [for mod_index in range(len(cpd_mod_attr)) :
       if cpd_mod_attr[mod_index][0] == ibbp : ibbp_del.append(mod_index)] *)
Fixpoint name_indices (ibbp : String.string) (cpd_mod_attr : list mod_attr)
    (mod_index : nat) : list nat :=
  match cpd_mod_attr with
  | [] => []
  | row :: t =>
      if String.eqb (mod_name row) ibbp
      then mod_index :: name_indices ibbp t (S mod_index)
      else name_indices ibbp t (S mod_index)
  end.

(** [for ibbp in ibbp_bpm : if ibbp not in ibbp_all : ...], from an empty
    [ibbp_del]. *)
Definition ibbp_del_of (ibbp_all : list String.string) (cpd_mod_attr : list mod_attr)
    : list nat :=
  flat_map (fun ibbp =>
              if existsb (String.eqb ibbp) ibbp_all then []
              else name_indices ibbp cpd_mod_attr 0) ibbp_bpm.

(** [del l[i]]; [None] stands for IndexError. *)
Definition py_del {A : Type} (l : list A) (i : nat) : option (list A) :=
  if (i <? length l)%nat then Some (firstn i l ++ skipn (S i) l) else None.

(** [for mod_index in ibbp_del : del cpd_mod_attr[mod_index]] *)
Fixpoint del_each {A : Type} (ibbp_del : list nat) (l : list A) : option (list A) :=
  match ibbp_del with
  | [] => Some l
  | mod_index :: t =>
      match py_del l mod_index with
      | Some l' => del_each t l'
      | None => None
      end
  end.

(** Lines 2169-2176; [None] stands for an uncaught IndexError. *)
Definition remove_missing_ibbp (ibbp_all : list String.string)
    (cpd_mod_attr : list mod_attr) : option (list mod_attr) :=
  if (0 <? length ibbp_all)%nat
  then del_each (ibbp_del_of ibbp_all cpd_mod_attr) cpd_mod_attr
  else Some cpd_mod_attr.

(** The row that Extension 0x13 appends for a boot-chain module whose hash the
    consolidated metadata declares (line 2074-2076), and the row of another
    data module. *)
Definition declared_row (name : String.string) (hash : list ascii) : mod_attr :=
  MkAttr name 0 0 0 0 0 0 (HashText hash) "IBBP" 0 Rsa.SigUnset 0 true.

Definition data_row (name : String.string) (start size : Z) : mod_attr :=
  MkAttr name 0 0 start size size 0 (HashInt 0) "IBBP" 0 Rsa.SigUnset 0 true.

Definition names (rows : list mod_attr) : list String.string := map mod_name rows.

End Ibbp.

(** ** Storing and validating an LZMA module (mod_anl, lines 2234-2286 and
    2417-2444) *)

Module ModAnl.

Import Attr.

Definition bytes_eqb (a b : Py.bytes) : bool :=
  if list_eq_dec Z.eq_dec a b then true else false.



(** [b'\xFF' * n]: empty when [n] is not positive. *)
Definition ff_times (n : Z) : Py.bytes := repeat 0xFF (Z.to_nat n).



(** Removal of the three zero bytes of the LZMA header (lines 2270-2271). *)
Definition strip_header_zeroes (mod_data : Py.bytes) : Py.bytes :=
  if bytes_eqb (firstn 5 mod_data) [0x36; 0x00; 0x40; 0x00; 0x00]
     && bytes_eqb (Py.slice mod_data 0xE 0x11) [0x00; 0x00; 0x00]
  then Py.slice_to mod_data 0xE ++ Py.slice_from mod_data 0x11
  else mod_data.




End ModAnl.

(** ** Uncharted $CPD partitions after the last $FPT entry (main loop, lines
    3476-3526) *)

Module Walk.

Import Struct.

Definition tag_CPD : Py.bytes := [0x24; 0x43; 0x50; 0x44].   (* b'$CPD' *)
Definition tag_MN2 : Py.bytes := [0x24; 0x4D; 0x4E; 0x32].   (* b'$MN2' *)
Definition dot_met : Py.bytes := [0x2E; 0x6D; 0x65; 0x74].   (* b'.met' *)
Definition dot_man : Py.bytes := [0x2E; 0x6D; 0x61; 0x6E].   (* b'.man' *)

Definition bytes_eqb (a b : Py.bytes) : bool :=
  if list_eq_dec Z.eq_dec a b then true else false.

Fixpoint starts_with (needle hay : Py.bytes) : bool :=
  match needle, hay with
  | [], _ => true
  | _ :: _, [] => false
  | x :: n', y :: h' => (x =? y) && starts_with n' h'
  end.

(** [needle in hay] on bytes objects. *)
Fixpoint contains (needle hay : Py.bytes) : bool :=
  starts_with needle hay ||
  match hay with
  | [] => false
  | _ :: h' => contains needle h'
  end.

(** The variables of the main loop that the walk reads and writes. *)
Record state : Type := MkState {
  p_end_last : Z;
  p_end_last_cont : Z;
  cpd_offset_last : Z;
  cpd_end_last : Z;
  fpt_in_id : option Z;                        (* [''] or ['%0.4X' % InstanceID] *)
  fpt_part_all : list (Py.bytes * Z * Z * option Z)
}.

Inductive scan_result : Type :=
| ScanDone (cpd_offset_last cpd_end_last : Z)
| ScanExit (off : Z)        (* get_struct out of bounds: mea_exit(1) *)
| ScanRaised.               (* int(..., 2) refused the text: never on a dword *)

(** [for entry in range(1, cpd_num, 2)], [n] entries still to visit. *)
Fixpoint entry_scan (reading : Py.bytes) (file_end p : Z) (n : nat) (entry : Z)
    (off_last end_last : Z) : scan_result :=
  match n with
  | O => ScanDone off_last end_last
  | S n' =>
      match get_struct reading (p + 0x10 + entry * 0x18) sizeof_CPD_Entry file_end with
      | OutOfBounds o => ScanExit o
      | Fit cpd_entry_hdr =>
          match CpdAttr.cpd_mod_off (u32 cpd_entry_hdr 0x0C) with
          | None => ScanRaised
          | Some cpd_mod_off =>
              let cpd_entry_name := chars cpd_entry_hdr 0x00 12 in
              if negb (contains dot_met cpd_entry_name)
                 && negb (contains dot_man cpd_entry_name)
              then
                let cpd_entry_offset := cpd_mod_off in
                let cpd_entry_size := u32 cpd_entry_hdr 0x10 in
                if cpd_entry_offset >? off_last
                then entry_scan reading file_end p n' (entry + 2)
                       cpd_entry_offset (cpd_entry_offset + cpd_entry_size)
                else entry_scan reading file_end p n' (entry + 2) off_last end_last
              else ScanDone off_last end_last
          end
      end
  end.

(** Number of elements of [range(1, cpd_num, 2)]. *)
Definition odd_count (cpd_num : Z) : nat := Z.to_nat (cpd_num / 2).

Inductive step_result : Type :=
| Stop (s : state)          (* the [while] test fails, or [break] *)
| Next (s : state)          (* the body ran to its end *)
| Exit (off : Z)            (* get_struct out of bounds: mea_exit(1) *)
| Raised.

(** One test and one body of
    [while reading[p_end_last:p_end_last + 0x4] == b'$CPD']. *)
Definition walk_step (me11_mod_extr : bool) (reading : Py.bytes) (file_end : Z)
    (s : state) : step_result :=
  let p := p_end_last s in
  if negb (bytes_eqb (Py.slice reading p (p + 0x4)) tag_CPD) then Stop s
  else
    match get_struct reading p sizeof_CPD_Header file_end with
    | OutOfBounds o => Exit o
    | Fit cpd_hdr =>
        let cpd_num := u32 cpd_hdr 0x04 in
        let cpd_tag := chars cpd_hdr 0x0C 4 in
        let mn2_start := p + 0x10 + cpd_num * 0x18 in
        match get_struct reading mn2_start sizeof_MN2_Manifest file_end with
        | OutOfBounds o => Exit o
        | Fit mn2_hdr =>
            if bytes_eqb (chars mn2_hdr 0x1C 4) tag_MN2 then
              let man_len := u32 mn2_hdr 0x04 * 4 in
              match get_struct reading (mn2_start + man_len) sizeof_CPD_Ext_03 file_end with
              | OutOfBounds o => Exit o
              | Fit cpd_ext_03 =>
                  let in_id := Some (u32 cpd_ext_03 0x3C) in
                  if bytes_eqb (chars cpd_ext_03 0x08 4) (chars cpd_hdr 0x0C 4) then
                    let cont := u32 cpd_ext_03 0x0C in
                    match entry_scan reading file_end p (odd_count cpd_num) 1
                            (cpd_offset_last s) (cpd_end_last s) with
                    | ScanExit o => Exit o
                    | ScanRaised => Raised
                    | ScanDone off_last end_last =>
                        let fpt_off_start := p in
                        let p' := p + Z.max cont end_last in
                        Next (MkState p' cont off_last end_last in_id
                                (if me11_mod_extr
                                 then fpt_part_all s ++ [(cpd_tag, fpt_off_start, p', in_id)]
                                 else fpt_part_all s))
                    end
                  else Stop (MkState p (p_end_last_cont s) (cpd_offset_last s)
                               (cpd_end_last s) in_id (fpt_part_all s))
              end
            else Stop s
        end
    end.

(** The loop, for at most [fuel] tests; [None]: still running. *)
Fixpoint walk_loop (me11_mod_extr : bool) (reading : Py.bytes) (file_end : Z)
    (fuel : nat) (s : state) : option step_result :=
  match fuel with
  | O => None
  | S fuel' =>
      match walk_step me11_mod_extr reading file_end s with
      | Next s' => walk_loop me11_mod_extr reading file_end fuel' s'
      | r => Some r
      end
  end.

(** The state in which the main loop reaches the walk for its first
    partition: the running maxima still hold their initial 0. *)
Definition start (p : Z) : state := MkState p 0 0 0 None [].

(** *** What the specification words *)

(** Offset and size of the entries the scan looks at: the odd-indexed ones,
    up to the first whose name holds [.met] or [.man]. *)
Fixpoint scanned (reading : Py.bytes) (p : Z) (n : nat) (entry : Z) : list (Z * Z) :=
  match n with
  | O => []
  | S n' =>
      let e := Py.slice reading (p + 0x10 + entry * 0x18) (p + 0x10 + entry * 0x18 + 0x18) in
      let name := chars e 0x00 12 in
      if negb (contains dot_met name) && negb (contains dot_man name)
      then (u32 e 0x0C mod 2 ^ 25, u32 e 0x10) :: scanned reading p n' (entry + 2)
      else []
  end.

Definition max_offset (l : list (Z * Z)) : Z := fold_right Z.max 0 (map fst l).

(** End of the entry that starts last (the first of them, on a tie); 0 when
    no scanned entry starts beyond offset 0. *)
Definition last_entry_end (l : list (Z * Z)) : Z :=
  match find (fun e => fst e =? max_offset l) l with
  | Some (o, sz) => if 0 <? o then o + sz else 0
  | None => 0
  end.

(** Offset and size of every non-metadata entry of the directory at [p]. *)
Fixpoint all_entries (reading : Py.bytes) (p : Z) (n : nat) (entry : Z) : list (Z * Z) :=
  match n with
  | O => []
  | S n' =>
      let e := Py.slice reading (p + 0x10 + entry * 0x18) (p + 0x10 + entry * 0x18 + 0x18) in
      let name := chars e 0x00 12 in
      if negb (contains dot_met name) && negb (contains dot_man name)
      then (u32 e 0x0C mod 2 ^ 25, u32 e 0x10) :: all_entries reading p n' (entry + 1)
      else all_entries reading p n' (entry + 1)
  end.

Definition max_end (l : list (Z * Z)) : Z :=
  fold_right Z.max 0 (map (fun e => fst e + snd e) l).

(** [PartitionSize] of the Extension 0x03 that follows the manifest of the
    directory at [p]. *)
Definition partition_size (reading : Py.bytes) (p : Z) : Z :=
  let cpd_num := u32 (Py.slice reading p (p + 0x10)) 0x04 in
  let mn2_start := p + 0x10 + cpd_num * 0x18 in
  let man_len := u32 (Py.slice reading mn2_start (mn2_start + 0x284)) 0x04 * 4 in
  u32 (Py.slice reading (mn2_start + man_len) (mn2_start + man_len + 0x58)) 0x0C.

Definition num_modules (reading : Py.bytes) (p : Z) : Z :=
  u32 (Py.slice reading p (p + 0x10)) 0x04.

End Walk.

(** ** Images used to exercise the walk *)

Module Images.

Definition le32 (w : Z) : Py.bytes :=
  [w mod 256; (w / 2 ^ 8) mod 256; (w / 2 ^ 16) mod 256; (w / 2 ^ 24) mod 256].

Definition ascii_bytes (s : String.string) : Py.bytes :=
  map (fun c => Z.of_nat (nat_of_ascii c)) (String.list_ascii_of_string s).

(** A name in a [char * n] field, NUL padded. *)
Definition name_field (s : String.string) (n : nat) : Py.bytes :=
  ascii_bytes s ++ repeat 0 (n - length (ascii_bytes s)).

(** [CPD_Header]: tag, NumModules, versions, length, checksum, name. *)
Definition cpd_header (name : String.string) (num : Z) : Py.bytes :=
  Walk.tag_CPD ++ le32 num ++ [1; 1; 0x10; 0] ++ name_field name 4.

(** [CPD_Entry]: name, offset/attribute dword, size, reserved. *)
Definition cpd_entry (name : String.string) (off_attr size : Z) : Py.bytes :=
  name_field name 12 ++ le32 off_attr ++ le32 size ++ le32 0.

(** [MN2_Manifest] of 0x284 bytes with HeaderLength 0xA1 and an unset key. *)
Definition manifest : Py.bytes :=
  le32 4 ++ le32 0xA1 ++ le32 0x10000 ++ le32 0 ++ le32 0x8086 ++ repeat 0 8
    ++ Walk.tag_MN2 ++ repeat 0 (0x284 - 0x20).

(** [CPD_Ext_03]: tag, size, partition name, partition size, then the hash,
    VCN, versions, instance id, flags and reserved words. *)
Definition ext_03 (name : String.string) (partition_size inst : Z) : Py.bytes :=
  le32 3 ++ le32 0x58 ++ name_field name 4 ++ le32 partition_size
    ++ repeat 0 (0x3C - 0x10) ++ le32 inst ++ repeat 0 (0x58 - 0x40).

(** A partition made of a manifest entry only, whose Extension 0x03 declares
    the partition size 0, after 0x100 bytes of padding. *)
Definition stuck_image : Py.bytes :=
  repeat 0xFF 0x100
    ++ cpd_header "LOCL" 1 ++ cpd_entry "LOCL.man" 0x28 0x2DC
    ++ manifest ++ ext_03 "LOCL" 0 1.

(** A partition whose metadata entries sit at the odd indices: manifest,
    [A.met], [A]; the module [A] spans 0x400..0x600 and Extension 0x03 declares
    the partition size 0x100. *)
Definition odd_metadata_image : Py.bytes :=
  cpd_header "WCOD" 3 ++ cpd_entry "WCOD.man" 0x58 0x2DC
    ++ cpd_entry "A.met" 0x334 0x60 ++ cpd_entry "A" 0x400 0x200
    ++ manifest ++ ext_03 "WCOD" 0x100 2.

(** A partition whose modules sit at the odd indices: manifest, [A],
    [A.met], [B]: [A] spans 0x400..0x500, [B] spans 0x500..0x900, and
    Extension 0x03 declares the partition size 0x100. *)
Definition two_module_image : Py.bytes :=
  cpd_header "WCOD" 4 ++ cpd_entry "WCOD.man" 0x70 0x2DC
    ++ cpd_entry "A" 0x400 0x100 ++ cpd_entry "A.met" 0x34C 0x60
    ++ cpd_entry "B" 0x500 0x400
    ++ manifest ++ ext_03 "WCOD" 0x100 2.

End Images.

(** Decidable form of [bytes_ok]. *)
Definition bytes_okb (data : list Z) : bool :=
  forallb (fun b => (0 <=? b) && (b <? 256)) data.

(** The running maximum of the entry scan, as a fold over the scanned
    entries. *)
Definition scan_fold (l : list (Z * Z)) (acc : Z * Z) : Z * Z :=
  fold_left (fun acc e => if fst e >? fst acc then (fst e, fst e + snd e) else acc) l acc.

Definition entry_end (e : option (Z * Z)) : Z :=
  match e with Some (o, sz) => o + sz | None => 0 end.

(** ** The main loop over the input files (lines 2718-5034), up to the first
    structure read of an image that holds a manifest anchor and a $FPT *)

Module Batch.

(** How a piece of the loop body ends: it falls through with a value, it runs
    [continue] (next input file), or [sys.exit] is raised, which nothing in
    the loop catches. *)
Inductive flow (A : Type) : Type :=
| Ret (a : A)
| NextFile
| SysExit (code : Z).
Arguments Ret {A} a.
Arguments NextFile {A}.
Arguments SysExit {A} code.

Definition bind {A B : Type} (m : flow A) (k : A -> flow B) : flow B :=
  match m with
  | Ret a => k a
  | NextFile => NextFile
  | SysExit c => SysExit c
  end.

(** [mea_exit(code)] (lines 1513-1517): stops colorama, may wait for the
    enter key, and calls [sys.exit(code)] in every mode. *)
Definition mea_exit {A : Type} (code : Z) : flow A := SysExit code.

(** [get_struct] with its error branch (lines 1422-1430): the message is
    stored and printed, the file is copied to the check folder (-check) or
    closed, and [mea_exit(1)] is called. *)
Definition get_struct {A : Type} (str_ : Py.bytes) (off struct_len file_end : Z)
    (k : Py.bytes -> flow A) : flow A :=
  match Struct.get_struct str_ off struct_len file_end with
  | Struct.Fit data => k data
  | Struct.OutOfBounds _ => mea_exit 1
  end.

(** Byte patterns of the regular expressions: a byte, any byte ([.] with
    DOTALL), or one byte of a class. *)
Inductive pat_item : Type :=
| Byte (b : Z)
| AnyByte
| OneOf (l : list Z).

Definition item_matches (it : pat_item) (b : Z) : bool :=
  match it with
  | Byte x => x =? b
  | AnyByte => true
  | OneOf l => existsb (Z.eqb b) l
  end.

Fixpoint match_here (pat : list pat_item) (data : Py.bytes) : bool :=
  match pat, data with
  | [], _ => true
  | _ :: _, [] => false
  | it :: pat', b :: data' => item_matches it b && match_here pat' data'
  end.

(** [re.search]: start of the leftmost match of one of the alternatives. *)
Fixpoint search_from (alts : list (list pat_item)) (data : Py.bytes) (i : Z) : option Z :=
  if existsb (fun pat => match_here pat data) alts then Some i
  else match data with
       | [] => None
       | _ :: data' => search_from alts data' (i + 1)
       end.

Definition search (alts : list (list pat_item)) (data : Py.bytes) : option Z :=
  search_from alts data 0.

(** [re.finditer] for a pattern of fixed length [n]: the starts of the
    matches, which do not overlap.  [skip] bytes of a match remain to pass. *)
Fixpoint finditer_from (pat : list pat_item) (n : nat) (data : Py.bytes) (i : Z)
    (skip : nat) : list Z :=
  match data with
  | [] => []
  | _ :: data' =>
      match skip with
      | S k => finditer_from pat n data' (i + 1) k
      | O =>
          if match_here pat data
          then i :: finditer_from pat n data' (i + 1) (n - 1)
          else finditer_from pat n data' (i + 1) 0
      end
  end.

Definition finditer (pat : list pat_item) (data : Py.bytes) : list Z :=
  finditer_from pat (length pat) data 0 0.

(** [\x00\x24\x4D((\x4E\x32)|(\x41\x4E))]: .$MN2 or .$MAN *)
Definition man_pat : list (list pat_item) :=
  [[Byte 0x00; Byte 0x24; Byte 0x4D; Byte 0x4E; Byte 0x32];
   [Byte 0x00; Byte 0x24; Byte 0x4D; Byte 0x41; Byte 0x4E]].

(** [TekoaApp] and [ProvisionServer] (AMT 1.x) *)
Definition tekoa_pat : list (list pat_item) :=
  [map Byte [0x54; 0x65; 0x6B; 0x6F; 0x61; 0x41; 0x70; 0x70]].
Definition provision_pat : list (list pat_item) :=
  [map Byte [0x50; 0x72; 0x6F; 0x76; 0x69; 0x73; 0x69; 0x6F; 0x6E; 0x53; 0x65; 0x72;
             0x76; 0x65; 0x72]].

(** [\x24\x46\x50\x54.\x00\x00\x00]: $FPT *)
Definition fpt_pat : list pat_item :=
  [Byte 0x24; Byte 0x46; Byte 0x50; Byte 0x54; AnyByte; Byte 0x00; Byte 0x00; Byte 0x00].

(** [\xAA\x55([\x00\xAA])\x00.\x00\x01\x00]: BPDT header *)
Definition bpdt_pat : list pat_item :=
  [Byte 0xAA; Byte 0x55; OneOf [0x00; 0xAA]; Byte 0x00; AnyByte; Byte 0x00; Byte 0x01;
   Byte 0x00].

Definition tag_FPT : Py.bytes := [0x24; 0x46; 0x50; 0x54].

(** [while reading[start + stride:start + stride + 4] == b'$FPT' :
       start += stride] (lines 3114-3126); every turn moves [start] up by
    [stride], so the length of the image bounds the turns. *)
Fixpoint skip_copies (reading : Py.bytes) (stride : Z) (fuel : nat) (start : Z) : Z :=
  match fuel with
  | O => start
  | S fuel' =>
      if Walk.bytes_eqb (Py.slice reading (start + stride) (start + stride + 4)) tag_FPT
      then skip_copies reading stride fuel' (start + stride)
      else start
  end.

Definition fpt_start (reading : Py.bytes) (first : Z) : Z :=
  let fuel := length reading in
  skip_copies reading 0x1000 fuel
    (skip_copies reading 0x2100 fuel (skip_copies reading 0x100 fuel first)).

Section MainLoop.

(** The parts of the loop body that are not spelled out; each may fall
    through, run [continue] or exit.  [St] stands for the variables they
    share. *)
Variable St : Type.
Variable st0 : St.
Variable no_manifest_branch : Py.bytes -> flow unit.          (* lines 2891-2985 *)
Variable bpdt_body : Py.bytes -> St -> Z -> flow St.          (* lines 3001-3100 *)
Variable after_fpt_header : Py.bytes -> St -> Z -> Py.bytes -> flow unit. (* 3130-5030 *)
Variable without_fpt : Py.bytes -> St -> flow unit.           (* lines 3224-5030 *)
Variable amt1_analysis : Py.bytes -> flow unit.               (* AMT 1.x, me1_match found *)

(** [for ifwi_bpdt in range(len(bpdt_matches))] *)
Fixpoint bpdt_loop (reading : Py.bytes) (matches : list Z) (st : St) : flow St :=
  match matches with
  | [] => Ret st
  | m :: rest => bind (bpdt_body reading st m) (bpdt_loop reading rest)
  end.

(** The body of [for file_in in source] on an existing file. *)
Definition analyse (reading : Py.bytes) : flow unit :=
  let file_end := Py.len reading in
  let man_match_store := search man_pat reading in
  let me1_match :=
    match man_match_store with
    | Some _ => None
    | None => search tekoa_pat reading
    end in
  let man_match :=
    match man_match_store with
    | Some m => Some m
    | None => match me1_match with
              | Some _ => search provision_pat reading
              | None => None
              end
    end in
  match man_match with
  | None => no_manifest_branch reading
  | Some _ =>
      match me1_match with
      | Some _ => amt1_analysis reading
      | None =>
          let fpt_matches := finditer fpt_pat reading in
          let bpdt_matches := finditer bpdt_pat reading in
          bind (bpdt_loop reading bpdt_matches st0) (fun st =>
            match fpt_matches with
            | first :: _ =>
                let start_fw_start_match := fpt_start reading first in
                get_struct reading start_fw_start_match Struct.sizeof_FPT_Header file_end
                  (fun fpt_hdr => after_fpt_header reading st start_fw_start_match fpt_hdr)
            | [] => without_fpt reading st
            end)
      end
  end.

(** The analysis of an image ends without an exit of the process. *)
Definition no_exit (f : Py.bytes) : Prop := forall c, analyse f <> SysExit c.

(** The run: the images whose analysis was entered, in order, and the exit
    code; after the last file comes [mea_exit(0)]. *)
Fixpoint main_loop (source : list Py.bytes) : list Py.bytes * Z :=
  match source with
  | [] => ([], 0)
  | file_in :: rest =>
      match analyse file_in with
      | SysExit code => ([file_in], code)
      | _ => let (visited, code) := main_loop rest in (file_in :: visited, code)
      end
  end.

End MainLoop.

(** An image cut right after a $FPT signature: a manifest anchor, then the
    eight signature bytes of a $FPT header and nothing more. *)
Definition truncated_image : Py.bytes :=
  [0x00; 0x24; 0x4D; 0x4E; 0x32; 0x24; 0x46; 0x50; 0x54; 0x01; 0x00; 0x00; 0x00].

End Batch.

(** ** Extensions of a manifest or metadata entry (ext_anl, lines 1955-2091)

    A [str] is modelled by its UTF-8 encoding; [bytes.decode('utf-8')] checks
    the encoding and raises UnicodeDecodeError when it is not valid. *)

Module Ext.

Import Struct.

Definition is_cont (b : Z) : bool := (0x80 <=? b) && (b <=? 0xBF).
Definition between (lo b hi : Z) : bool := (lo <=? b) && (b <=? hi).

(** Well-formed UTF-8 (no overlong forms, no surrogates, at most U+10FFFF),
    as the strict decoder demands. *)
Fixpoint utf8_valid (s : Py.bytes) : bool :=
  match s with
  | [] => true
  | b0 :: t =>
      if b0 <? 0x80 then utf8_valid t
      else if between 0xC2 b0 0xDF then
        match t with
        | b1 :: t1 => is_cont b1 && utf8_valid t1
        | _ => false
        end
      else if between 0xE0 b0 0xEF then
        match t with
        | b1 :: b2 :: t2 =>
            (if b0 =? 0xE0 then between 0xA0 b1 0xBF
             else if b0 =? 0xED then between 0x80 b1 0x9F
             else is_cont b1)
            && is_cont b2 && utf8_valid t2
        | _ => false
        end
      else if between 0xF0 b0 0xF4 then
        match t with
        | b1 :: b2 :: b3 :: t3 =>
            (if b0 =? 0xF0 then between 0x90 b1 0xBF
             else if b0 =? 0xF4 then between 0x80 b1 0x8F
             else is_cont b1)
            && is_cont b2 && is_cont b3 && utf8_valid t3
        | _ => false
        end
      else false
  end.

(** How a step of the analysis ends. *)
Inductive res (A : Type) : Type :=
| Ok (a : A)
| Exit1 (off : Z)               (* get_struct out of bounds: error, mea_exit(1) *)
| DecodeErr (name : Py.bytes)   (* uncaught UnicodeDecodeError *)
| Fuel.                         (* the model ran out of fuel *)
Arguments Ok {A} a.
Arguments Exit1 {A} off.
Arguments DecodeErr {A} name.
Arguments Fuel {A}.

Definition bind {A B : Type} (m : res A) (k : A -> res B) : res B :=
  match m with
  | Ok a => k a
  | Exit1 o => Exit1 o
  | DecodeErr n => DecodeErr n
  | Fuel => Fuel
  end.

Notation "x <- m ;; k" := (bind m (fun x => k))
  (at level 61, m at next level, right associativity).

(** [name.decode('utf-8')] *)
Definition decode (name : Py.bytes) : res Py.bytes :=
  if utf8_valid name then Ok name else DecodeErr name.

Definition get_struct (reading : Py.bytes) (off struct_len file_end : Z) : res Py.bytes :=
  match Struct.get_struct reading off struct_len file_end with
  | Fit data => Ok data
  | OutOfBounds o => Exit1 o
  end.

(** [s[:-n]] on a str: the last [n] characters go, each with its
    continuation bytes. *)
Fixpoint drop_chars_rev (n : nat) (rev_s : Py.bytes) : Py.bytes :=
  match n with
  | O => rev_s
  | S n' =>
      match rev_s with
      | [] => []
      | b :: t => if is_cont b then drop_chars_rev n t else drop_chars_rev n' t
      end
  end.
Definition drop_last_chars (n : nat) (s : Py.bytes) : Py.bytes :=
  rev (drop_chars_rev n (rev s)).

Definition ends_with (suffix s : Py.bytes) : bool :=
  Walk.starts_with (rev suffix) (rev s).

Definition str_of (s : Py.bytes) : String.string :=
  String.string_of_list_ascii (map (fun b => ascii_of_nat (Z.to_nat b)) s).

(** [''.join('%0.8X' % int.from_bytes(struct.pack('<I', val), 'little')
            for val in reversed(words))] *)
Definition hash_le (words : list Z) : list ascii := flat_map Hex.fmt_08X (rev words).

(** [int.from_bytes(struct.pack('<I', val), 'big')] *)
Definition swap32 (val : Z) : Z :=
  ((val mod 256 * 256 + (val / 2 ^ 8) mod 256) * 256 + (val / 2 ^ 16) mod 256) * 256
  + (val / 2 ^ 24) mod 256.

(** [''.join('%0.8X' % int.from_bytes(struct.pack('<I', val), 'big')
            for val in words)] *)
Definition hash_be (words : list Z) : list ascii :=
  flat_map (fun val => Hex.fmt_08X (swap32 val)) words.

(** ['00' * n] and ['FF' * n] *)
Definition text_times (s : list ascii) (n : Z) : list ascii :=
  concat (repeat s (Z.to_nat n)).

(** [ext_tag_all]: 0x00-0x15 without 0x11, and 0x32. *)
Definition ext_tag_all : list Z := map Z.of_nat (seq 0 17 ++ seq 18 4 ++ [50%nat]).

(** [ctypes.sizeof] of the header structure [ext_dict] holds for a tag, and of
    its [_Mod] structure when there is one. *)
Definition ext_sizeof (tag : Z) : option Z :=
  if (0 <=? tag) && (tag <=? 0x10) then
    nth_error [0x40; 0x10; 0x0C; 0x58; 0x1C; 0x46; 0x08; 0x08; 0x08; 0x0C; 0x38; 0x08;
               0x30; 0x08; 0x24; 0x34; 0x60] (Z.to_nat tag)
  else if tag =? 0x12 then Some 0x1C
  else if tag =? 0x13 then Some 0xB4
  else if tag =? 0x14 then Some 0x148
  else if tag =? 0x15 then Some 0x34
  else if tag =? 0x32 then Some 0x10
  else None.

Definition mod_sizeof (tag : Z) : option Z :=
  if tag =? 0x00 then Some 0x0C else if tag =? 0x01 then Some 0x18
  else if tag =? 0x02 then Some 0x04 else if tag =? 0x03 then Some 0x34
  else if tag =? 0x06 then Some 0x10 else if tag =? 0x07 then Some 0x08
  else if tag =? 0x08 then Some 0x0C else if tag =? 0x09 then Some 0x18
  else if tag =? 0x0B then Some 0x08 else if tag =? 0x0D then Some 0x34
  else if tag =? 0x0E then Some 0x44 else if tag =? 0x0F then Some 0x34
  else if tag =? 0x12 then Some 0x38 else None.

(** The [char] fields that [ext_print] decodes, as (offset, length): of the
    header of a tag, and of its [_Mod] structure.  The structures are packed
    ([_pack_ = 1]), so in [CPD_Ext_01_Mod] the twelve bytes of [ModuleName]
    follow the four of [PartitionName] at 0x04 (lines 367-382; the comment
    beside the field gives another number). *)
Definition ext_text_fields (tag : Z) : list (Z * Z) :=
  if (tag =? 0x03) || (tag =? 0x0F) || (tag =? 0x32) then [(0x08, 4)] else [].

Definition mod_text_fields (tag : Z) : list (Z * Z) :=
  if tag =? 0x00 then [(0x00, 4)]
  else if tag =? 0x01 then [(0x00, 4); (0x04, 12)]
  else if (tag =? 0x03) || (tag =? 0x09) || (tag =? 0x0F) then [(0x00, 12)]
  else [].

(** [ext_print()] of a structure: the table is built unless the decoding of
    one of its text fields raises. *)
Fixpoint ext_print (data : Py.bytes) (fields : list (Z * Z)) : res unit :=
  match fields with
  | [] => Ok tt
  | (off, n) :: rest => _ <- decode (chars data off n) ;; ext_print data rest
  end.

(** Messages that [gen_msg] stores in [err_stor]. *)
Inductive message : Type :=
| ForcedBreakMsg (cpd_name entry_name : Py.bytes)
| UnimplementedMsg (ext_tag : Z) (cpd_name entry_name : Py.bytes).

(** What [ext_anl] knows about the entry when the loop starts. *)
Record context : Type := MkContext {
  reading : Py.bytes;
  file_end : Z;
  me11_mod_extr : bool;
  cpd_name : Py.bytes;
  cpd_entry_name : Py.bytes;
  cpd_entry_offset : Z;
  cpd_entry_size : Z;
  mn2_sigs : Rsa.sig_result;
  cpd_offset : Z;
  cpd_valid : bool
}.

(** The lists and variables the loop fills. *)
Record accum : Type := MkAccum {
  err_stor : list message;
  cpd_ext_hash : list (Py.bytes * Py.bytes * list ascii);
  cpd_mod_attr : list Attr.mod_attr;
  cpd_ext_attr : list Attr.mod_attr;
  cpd_ext_names : list Py.bytes;
  vcn : Z;
  in_id : Z;
  fw_sku_attr : option Z;        (* FWSKUAttrib, which fw_0C_* are cut from *)
  ext_print_temp : nat           (* number of tables stored *)
}.

Definition add_err (m : message) (a : accum) : accum :=
  MkAccum (err_stor a ++ [m]) (cpd_ext_hash a) (cpd_mod_attr a) (cpd_ext_attr a)
          (cpd_ext_names a) (vcn a) (in_id a) (fw_sku_attr a) (ext_print_temp a).
Definition add_hash (h : Py.bytes * Py.bytes * list ascii) (a : accum) : accum :=
  MkAccum (err_stor a) (cpd_ext_hash a ++ [h]) (cpd_mod_attr a) (cpd_ext_attr a)
          (cpd_ext_names a) (vcn a) (in_id a) (fw_sku_attr a) (ext_print_temp a).
Definition add_mod (r : Attr.mod_attr) (a : accum) : accum :=
  MkAccum (err_stor a) (cpd_ext_hash a) (cpd_mod_attr a ++ [r]) (cpd_ext_attr a)
          (cpd_ext_names a) (vcn a) (in_id a) (fw_sku_attr a) (ext_print_temp a).
Definition add_ext (r : Attr.mod_attr) (n : Py.bytes) (a : accum) : accum :=
  MkAccum (err_stor a) (cpd_ext_hash a) (cpd_mod_attr a) (cpd_ext_attr a ++ [r])
          (cpd_ext_names a ++ [n]) (vcn a) (in_id a) (fw_sku_attr a) (ext_print_temp a).
Definition set_vcn (v : Z) (a : accum) : accum :=
  MkAccum (err_stor a) (cpd_ext_hash a) (cpd_mod_attr a) (cpd_ext_attr a)
          (cpd_ext_names a) v (in_id a) (fw_sku_attr a) (ext_print_temp a).
Definition set_in_id (i : Z) (a : accum) : accum :=
  MkAccum (err_stor a) (cpd_ext_hash a) (cpd_mod_attr a) (cpd_ext_attr a)
          (cpd_ext_names a) (vcn a) i (fw_sku_attr a) (ext_print_temp a).
Definition set_sku (w : Z) (a : accum) : accum :=
  MkAccum (err_stor a) (cpd_ext_hash a) (cpd_mod_attr a) (cpd_ext_attr a)
          (cpd_ext_names a) (vcn a) (in_id a) (Some w) (ext_print_temp a).
Definition add_table (a : accum) : accum :=
  MkAccum (err_stor a) (cpd_ext_hash a) (cpd_mod_attr a) (cpd_ext_attr a)
          (cpd_ext_names a) (vcn a) (in_id a) (fw_sku_attr a) (S (ext_print_temp a)).

(** A loop body run at most [p] times: [More] asks for another turn, [Stop]
    ends the loop.  The fuel is a binary number, so a loop bounded by a 32-bit
    length still evaluates. *)
Inductive iter_res (S R : Type) : Type :=
| More (s : S)
| Stop (r : R).
Arguments More {S R} s.
Arguments Stop {S R} r.

Fixpoint iter_pos {S R : Type} (p : positive) (f : S -> iter_res S R) (s : S)
    : iter_res S R :=
  match p with
  | xH => f s
  | xO p' =>
      match iter_pos p' f s with
      | More s' => iter_pos p' f s'
      | Stop r => Stop r
      end
  | xI p' =>
      match f s with
      | More s' =>
          match iter_pos p' f s' with
          | More s'' => iter_pos p' f s''
          | Stop r => Stop r
          end
      | Stop r => Stop r
      end
  end.

(** One test and one body of
    [while cpd_mod_offset < limit : <body> ; cpd_mod_offset += mod_length]. *)
Definition mod_turn (body : Z -> accum -> res accum) (mod_length limit : Z)
    (s : Z * accum) : iter_res (Z * accum) (res accum) :=
  let (cpd_mod_offset, a) := s in
  if cpd_mod_offset <? limit then
    match body cpd_mod_offset a with
    | Ok a' => More (cpd_mod_offset + mod_length, a')
    | Exit1 o => Stop (Exit1 o)
    | DecodeErr n => Stop (DecodeErr n)
    | Fuel => Stop Fuel
    end
  else Stop (Ok a).

(** Every structure has a positive size, so the distance to the limit bounds
    the turns of the loop. *)
Definition mod_loop_run (body : Z -> accum -> res accum) (mod_length limit : Z)
    (cpd_mod_offset : Z) (a : accum) : res accum :=
  match iter_pos (Z.to_pos (limit - cpd_mod_offset + 1)) (mod_turn body mod_length limit)
                 (cpd_mod_offset, a) with
  | Stop r => r
  | More _ => Fuel
  end.

Definition dot_met : Py.bytes := Walk.dot_met.

(** Lines 1989-2006: the tables printed with -unp86. *)
Definition print_block (c : context) (ext_tag cpd_ext_offset cpd_ext_size : Z)
    (a : accum) : res accum :=
  if me11_mod_extr c then
    match ext_sizeof ext_tag with
    | None => Ok a
    | Some ext_length =>
        ext_hdr_p <- get_struct (reading c) cpd_ext_offset ext_length (file_end c) ;;
        _ <- ext_print ext_hdr_p (ext_text_fields ext_tag) ;;
        let a := add_table a in
        match mod_sizeof ext_tag with
        | None => Ok a
        | Some mod_length =>
            mod_loop_run
              (fun cpd_mod_offset a =>
                 mod_hdr_p <- get_struct (reading c) cpd_mod_offset mod_length (file_end c) ;;
                 _ <- ext_print mod_hdr_p (mod_text_fields ext_tag) ;;
                 Ok (add_table a))
              mod_length (cpd_ext_offset + cpd_ext_size) (cpd_ext_offset + ext_length) a
        end
    end
  else Ok a.

(** The metadata hashes of Extensions 0x03 and 0x0F (lines 2013-2023 and
    2050-2060). *)
Definition met_hashes (c : context) (hdr_len cpd_ext_offset cpd_ext_size : Z)
    (a : accum) : res accum :=
  mod_loop_run
    (fun cpd_mod_offset a =>
       mod_hdr_p <- get_struct (reading c) cpd_mod_offset 0x34 (file_end c) ;;
       name <- decode (chars mod_hdr_p 0x00 12) ;;
       let met_name := name ++ dot_met in
       let met_name := if ends_with (dot_met ++ dot_met) met_name
                       then drop_last_chars 4 met_name else met_name in
       let met_hash := hash_le (u32_array mod_hdr_p 0x14 8) in
       Ok (add_hash (cpd_name c, met_name, met_hash) a))
    0x34 (cpd_ext_offset + cpd_ext_size) (cpd_ext_offset + hdr_len) a.

Definition row (name : Py.bytes) (comp encr start size_comp size_uncomp empty : Z)
    (hash : Attr.hash_val) (c : context) (inid : Z) : Attr.mod_attr :=
  Attr.MkAttr (str_of name) comp encr start size_comp size_uncomp empty hash
              (str_of (cpd_name c)) inid (mn2_sigs c) (cpd_offset c) (cpd_valid c).

(** Lines 2008-2076: what each tag of structural weight adds. *)
Definition dispatch (c : context) (ext_tag cpd_ext_offset cpd_ext_size : Z)
    (a : accum) : res accum :=
  if ext_tag =? 3 then
    ext_hdr <- get_struct (reading c) cpd_ext_offset 0x58 (file_end c) ;;
    let a := set_in_id (u32 ext_hdr 0x3C) (set_vcn (u32 ext_hdr 0x30) a) in
    met_hashes c 0x58 cpd_ext_offset cpd_ext_size a
  else if ext_tag =? 10 then
    ext_hdr <- get_struct (reading c) cpd_ext_offset 0x38 (file_end c) ;;
    name <- decode (cpd_entry_name c) ;;
    Ok (add_mod (row (drop_last_chars 4 name) (u8 ext_hdr 0x08) (u8 ext_hdr 0x09) 0
                     (u32 ext_hdr 0x10) (u32 ext_hdr 0x0C) 0
                     (Attr.HashText (hash_le (u32_array ext_hdr 0x18 8))) c 0) a)
  else if ext_tag =? 12 then
    ext_hdr <- get_struct (reading c) cpd_ext_offset 0x30 (file_end c) ;;
    Ok (set_sku (Py.int_from_bytes_little (field ext_hdr 0x28 8)) a)
  else if ext_tag =? 15 then
    ext_hdr <- get_struct (reading c) cpd_ext_offset 0x34 (file_end c) ;;
    let a := set_vcn (u32 ext_hdr 0x0C) a in
    met_hashes c 0x34 cpd_ext_offset cpd_ext_size a
  else if ext_tag =? 16 then
    ext_hdr <- get_struct (reading c) cpd_ext_offset 0x60 (file_end c) ;;
    name <- decode (cpd_entry_name c) ;;
    Ok (add_mod (row (drop_last_chars 4 name) 0 0 0 (u32 ext_hdr 0x20) (u32 ext_hdr 0x20) 0
                     (Attr.HashText (hash_be (u32_array ext_hdr 0x28 8))) c 0) a)
  else if ext_tag =? 19 then
    ext_hdr <- get_struct (reading c) cpd_ext_offset 0xB4 (file_end c) ;;
    let declared (name : String.string) (hash_off size_off : Z) (a : accum) : accum :=
      let h := hash_be (u32_array ext_hdr hash_off 8) in
      let n := u32 ext_hdr size_off in
      if Hex.text_eqb h (text_times ["0"; "0"]%char n)
         || Hex.text_eqb h (text_times ["F"; "F"]%char n)
      then a
      else add_mod (Attr.MkAttr name 0 0 0 0 0 0 (Attr.HashText h) (str_of (cpd_name c)) 0
                                (mn2_sigs c) (cpd_offset c) (cpd_valid c)) a in
    Ok (declared "OBB" 0x64 0x60 (declared "IBB" 0x3C 0x38 (declared "IBBL" 0x14 0x10 a)))
  else Ok a.

Record loop_state : Type := MkLoop {
  loop_break : Z;
  ext_tag : Z;
  cpd_ext_offset : Z;
  acc : accum
}.

Inductive loop_end : Type :=
| EndReached        (* [break] at the end of the entry *)
| ForcedBreak.      (* more than 100 turns: error and [break] *)

Inductive turn : Type :=
| Again (s : loop_state)
| Done (e : loop_end) (loop_break : Z) (a : accum).

Definition tag_at (c : context) (off : Z) : Z :=
  Py.int_from_bytes_little (Py.slice (reading c) off (off + 0x4)).

(** One turn of [while True] (lines 1970-2089). *)
Definition ext_turn (c : context) (s : loop_state) : res turn :=
  let loop_break := loop_break s + 1 in
  if loop_break >? 100 then
    cname <- decode (cpd_entry_name c) ;;
    Ok (Done ForcedBreak loop_break (add_err (ForcedBreakMsg (cpd_name c) cname) (acc s)))
  else
    let cpd_ext_offset := cpd_ext_offset s in
    tag_acc <-
      (if existsb (Z.eqb (ext_tag s)) ext_tag_all then Ok (ext_tag s, acc s)
       else
         cname <- decode (cpd_entry_name c) ;;
         Ok (tag_at c cpd_ext_offset,
             add_err (UnimplementedMsg (ext_tag s) (cpd_name c) cname) (acc s))) ;;
    let ext_tag := fst tag_acc in
    let cpd_ext_size :=
      Py.int_from_bytes_little (Py.slice (reading c) (cpd_ext_offset + 0x4)
                                         (cpd_ext_offset + 0x8)) in
    a <- print_block c ext_tag cpd_ext_offset cpd_ext_size (snd tag_acc) ;;
    a <- dispatch c ext_tag cpd_ext_offset cpd_ext_size a ;;
    let cpd_ext_offset := cpd_ext_offset + cpd_ext_size in
    if cpd_ext_offset + 1 >? cpd_entry_offset c + cpd_entry_size c then
      let ext_data := Py.slice (reading c) (cpd_entry_offset c)
                               (cpd_entry_offset c + cpd_entry_size c) in
      let ext_empty :=
        if Walk.bytes_eqb ext_data (ModAnl.ff_times (cpd_entry_size c))
           || (cpd_entry_offset c >? file_end c) then 1 else 0 in
      name <- decode (cpd_entry_name c) ;;
      Ok (Done EndReached loop_break
            (add_ext (row name 0 0 (cpd_entry_offset c) (cpd_entry_size c)
                          (cpd_entry_size c) ext_empty (Attr.HashInt 0) c (in_id a))
                     (drop_last_chars 4 name) a))
    else
      Ok (Again (MkLoop loop_break (tag_at c cpd_ext_offset) cpd_ext_offset a)).

(** The loop, for at most [fuel] turns. *)
Fixpoint ext_loop (fuel : nat) (c : context) (s : loop_state) : res (loop_end * Z * accum) :=
  match fuel with
  | O => Fuel
  | S fuel' =>
      t <- ext_turn c s ;;
      match t with
      | Again s' => ext_loop fuel' c s'
      | Done e n a => Ok (e, n, a)
      end
  end.

(** The loop as [ext_anl] enters it: [loop_break = 0], the tag read at the
    first extension.  101 turns are all it can take. *)
Definition ext_scan (c : context) (cpd_ext_offset : Z) (a : accum) : res (loop_end * Z * accum) :=
  ext_loop 101 c (MkLoop 0 (tag_at c cpd_ext_offset) cpd_ext_offset a).

Definition empty_accum : accum := MkAccum [] [] [] [] [] (-1) (-1) None 0.

End Ext.

(** A step ends well when it neither runs out of fuel nor reports a decoding
    error for a well-formed name. *)
Definition good {A : Type} (r : Ext.res A) : Prop :=
  match r with
  | Ext.Fuel => False
  | Ext.DecodeErr name => Ext.utf8_valid name = false
  | _ => True
  end.


Definition context_of (reading : Py.bytes) (extr : bool) (name : String.string)
    (size : Z) : Ext.context :=
  Ext.MkContext reading (Py.len reading) extr (Images.ascii_bytes "FTPR")
                (Images.ascii_bytes name) 0 size Rsa.SigUnset 0 true.

Section ExtSpec.

Import Ext.



End ExtSpec.

(** ** More Python built-ins: [range] with a step, [join], slices of text *)

Module Builtin.

(** [range(0, stop, step)] for a positive [step]. *)
Definition range_step (stop step : Z) : list Z :=
  map (fun k => step * Z.of_nat k) (seq 0 (Z.to_nat ((stop + step - 1) / step))).

(** [[s[i:i + n] for i in range(0, len(s), n)]] *)
Definition chunks {A : Type} (n : Z) (s : list A) : list (list A) :=
  map (fun i => Py.slice s i (i + n)) (range_step (Py.len s) n).

(** [sep.join(parts)] *)
Definition join {A : Type} (sep : list A) (parts : list (list A)) : list A :=
  match parts with
  | [] => []
  | p :: rest => p ++ flat_map (fun q => sep ++ q) rest
  end.

(** A string literal as text. *)
Definition text (s : String.string) : list ascii := String.list_ascii_of_string s.

(** [s.replace(' ', '')] *)
Definition without_spaces (s : list ascii) : list ascii :=
  filter (fun c => negb (Ascii.eqb c " "%char)) s.

End Builtin.

(** ** Microcode checksum (mc_chk32, lines 1528-1535) *)

Module McChk.

(** [mc_chk32(data)]; in [-chk32 & 0xFFFFFFFF] the unary minus binds tighter
    than [&]. *)
Definition mc_chk32 (data : Py.bytes) : Z :=
  let chk32 :=
    fold_left (fun chk32 idx =>
                 let chkbt := Py.int_from_bytes_little (Py.slice data idx (idx + 4)) in
                 chk32 + chkbt)
              (Builtin.range_step (Py.len data) 4) 0 in
  Z.land (- chk32) 0xFFFFFFFF.

(** The sum of the little-endian dwords of a buffer; a last group of fewer
    than four bytes counts as a shorter little-endian number. *)
Fixpoint dword_sum (data : Py.bytes) : Z :=
  match data with
  | b0 :: b1 :: b2 :: b3 :: t =>
      Py.int_from_bytes_little [b0; b1; b2; b3] + dword_sum t
  | _ => Py.int_from_bytes_little data
  end.

End McChk.

(** ** The KROD block (str_split_as_bytes, krod_anl, krod_fit_sku; lines
    1578-1579 and 2502-2532) *)

Module Krod.

(** [str_split_as_bytes(input_bytes)] *)
Definition str_split_as_bytes (input_bytes : list ascii) : list ascii :=
  Builtin.join [" "%char] (Builtin.chunks 2 input_bytes).

(** [krod_fit_sku(start_sku_match)], with the global [reading] as an
    argument.  [binascii.b2a_hex(...).decode('utf-8').upper()] is the
    upper-case hexadecimal text of the bytes. *)
Definition krod_fit_sku (reading : Py.bytes) (start_sku_match : Z) : list ascii :=
  let sku_check := Py.slice reading (start_sku_match - 0x100) start_sku_match in
  let sku_check := Hex.upper (Hex.hexdigest sku_check) in
  str_split_as_bytes sku_check.

(** [KROD] *)
Definition krod_pat : list Batch.pat_item :=
  map Batch.Byte [0x4B; 0x52; 0x4F; 0x44].

(** [krod_anl()], with the globals [reading] and [fw_type] as arguments:
    the SKU text cut before the last KROD tag, and the spans of the tags
    before it. *)
Definition krod_anl (reading : Py.bytes) (fw_type : String.string)
    : list ascii * list (Z * Z) :=
  let me11_sku_match := Batch.finditer krod_pat reading in
  if negb (String.eqb fw_type "Update") then
    let me11_sku_ranges := map (fun i => (i, i + 4)) me11_sku_match in
    match me11_sku_ranges with
    | [] => (Builtin.text "NaN", [])
    | _ :: _ =>
        let start_sku_match := fst (last me11_sku_ranges (0, 0)) in
        (krod_fit_sku reading start_sku_match, removelast me11_sku_ranges)
    end
  else (Builtin.text "NaN", []).

(** The two upper-case digits of a byte. *)
Definition byte_text (b : Z) : list ascii := [Hex.hexc (b / 16); Hex.hexc (b mod 16)].

End Krod.

(** ** Text helpers: [str.upper()], [str(int)] *)

Module Str.

(** [str.upper()] on ASCII text: the letters a-z become A-Z and nothing
    else changes.  (Outside ASCII Python maps more characters; the engine
    applies it to hexadecimal and GUID text.) *)
Definition upper_char (c : ascii) : ascii :=
  let n := nat_of_ascii c in
  if ((97 <=? n) && (n <=? 122))%nat then ascii_of_nat (n - 32) else c.

Definition upper (s : list ascii) : list ascii := map upper_char s.

(** [str(n)], ['%s' % n] and ['%d' % n] for an int: its decimal digits,
    after a minus sign when it is negative. *)
Definition of_int (n : Z) : list ascii :=
  String.list_ascii_of_string (DecimalString.NilZero.string_of_int (Z.to_int n)).

(** [s.replace('-', '')] *)
Definition without_dashes (s : list ascii) : list ascii :=
  filter (fun c => negb (Ascii.eqb c "-"%char)) s.

(** ["%s.%s.%s.%s" % (a, b, c, d)] on four ints *)
Definition dotted4 (a b c d : Z) : list ascii :=
  of_int a ++ ["."%char] ++ of_int b ++ ["."%char] ++ of_int c ++ ["."%char] ++ of_int d.

End Str.

(** ** GUID text (switch_guid, lines 1680-1684) *)

Module Guid.

Definition switch_guid (guid : list ascii) : list ascii :=
  let vol := Py.slice guid 6 8 ++ Py.slice guid 4 6 ++ Py.slice guid 2 4
             ++ Py.slice_to guid 2 ++ ["-"%char]
             ++ Py.slice guid 10 12 ++ Py.slice guid 8 10 ++ ["-"%char] in
  let vol := vol ++ Py.slice guid 14 16 ++ Py.slice guid 12 14 ++ ["-"%char]
             ++ Py.slice guid 16 20 ++ ["-"%char] ++ Py.slice_from guid 20 in
  Str.upper vol.

End Guid.

(** ** Firmware type and its database code (fw_types, lines 1707-1720) *)

Module FwTypes.

(** [fw_types(fw_type)], with the global [variant] as an argument. *)
Definition fw_types (variant fw_type : String.string) : String.string * String.string :=
  if String.eqb variant "SPS"
     && (String.eqb fw_type "Region" || String.eqb fw_type "Region, Stock"
         || String.eqb fw_type "Region, Extracted")
  then ("Region", "EXTR")
  else if String.eqb fw_type "Region, Extracted" then (fw_type, "EXTR")
  else if String.eqb fw_type "Region, Stock" || String.eqb fw_type "Region"
  then (fw_type, "RGN")
  else if String.eqb fw_type "Update" then (fw_type, "UPD")
  else if String.eqb fw_type "Operational" then (fw_type, "OPR")
  else if String.eqb fw_type "Recovery" then (fw_type, "REC")
  else if String.eqb fw_type "Unknown" then (fw_type, "UNK")
  else (fw_type, "NaN").

(** The firmware types that have a database code. *)
Definition known_types : list String.string :=
  ["Region"; "Region, Stock"; "Region, Extracted"; "Update"; "Operational"; "Recovery";
   "Unknown"].

End FwTypes.

(** ** Command line options (class MEA_Param, lines 75-125) *)

Module Param.

Record MEA_Param : Type := MkParam {
  val : list String.string;
  help_scr : bool;
  skip_intro : bool;
  multi : bool;
  extr_mea : bool;
  print_msg : bool;
  alt_dir : bool;
  hid_find : bool;
  me11_mod_extr : bool;
  me11_mod_ext : bool;
  me11_mod_bug : bool;
  me11_sku_disp : bool;
  fpt_disp : bool;
  db_print_new : bool;
  enable_uf : bool;
  give_db_name : bool;
  mass_scan : bool
}.

Definition all : list String.string :=
  ["-?"; "-skip"; "-check"; "-extr"; "-msg"; "-hid"; "-adir"; "-unp86"; "-ext86"; "-bug86";
   "-dsku"; "-pdb"; "-enuf"; "-dbname"; "-mass"; "-dfpt"].

(** Windows only *)
Definition win : list String.string := ["-extr"; "-msg"; "-hid"; "-adir"].

(** [item in l] on a list of strings *)
Definition mem (item : String.string) (l : list String.string) : bool :=
  existsb (String.eqb item) l.

(** The object before the loop over [source]; [win32] stands for
    [mea_os == 'win32']. *)
Definition initial (win32 : bool) : MEA_Param :=
  MkParam (if win32 then all else filter (fun item => negb (mem item win)) all)
          false false false false false false false false false false false false false
          false false false.

(** The body of [for i in source]. *)
Definition step (win32 : bool) (p : MEA_Param) (i : String.string) : MEA_Param :=
  MkParam (val p)
    (if String.eqb i "-?" then true else help_scr p)
    (if String.eqb i "-skip" then true else skip_intro p)
    (if String.eqb i "-check" then true else multi p)
    (if win32 then if String.eqb i "-extr" then true else extr_mea p else extr_mea p)
    (if win32 then if String.eqb i "-msg" then true else print_msg p else print_msg p)
    (if win32 then if String.eqb i "-adir" then true else alt_dir p else alt_dir p)
    (if win32 then if String.eqb i "-hid" then true else hid_find p else hid_find p)
    (if String.eqb i "-unp86" then true else me11_mod_extr p)
    (if String.eqb i "-ext86" then true else me11_mod_ext p)
    (if String.eqb i "-bug86" then true else me11_mod_bug p)
    (if String.eqb i "-dsku" then true else me11_sku_disp p)
    (if String.eqb i "-dfpt" then true else fpt_disp p)
    (if String.eqb i "-pdb" then true else db_print_new p)
    (if String.eqb i "-enuf" then true else enable_uf p)
    (if String.eqb i "-dbname" then true else give_db_name p)
    (if String.eqb i "-mass" then true else mass_scan p).

(** The last statement of [__init__]. *)
Definition finish (p : MEA_Param) : MEA_Param :=
  MkParam (val p) (help_scr p)
    (if extr_mea p || print_msg p || mass_scan p || db_print_new p then true
     else skip_intro p)
    (multi p) (extr_mea p) (print_msg p) (alt_dir p) (hid_find p) (me11_mod_extr p)
    (me11_mod_ext p) (me11_mod_bug p) (me11_sku_disp p) (fpt_disp p) (db_print_new p)
    (enable_uf p) (give_db_name p) (mass_scan p).

(** [MEA_Param(source)] *)
Definition init (win32 : bool) (source : list String.string) : MEA_Param :=
  finish (fold_left (step win32) source (initial win32)).

End Param.

(** ** Manifest vendor check and the Fujitsu UMEM header (intel_id, lines
    2578-2585; fuj_umem_ver, lines 1666-1677) *)

Module Ident.

(** [int(binascii.b2a_hex(data[::-1]), 16)]; [None] stands for the
    ValueError that [int] raises on the empty text. *)
Definition int_hex_reversed (data : Py.bytes) : option Z :=
  Hex.int16 (Hex.hexdigest (rev data)).

(** [intel_id()], with the globals [reading] and [start_man_match] as
    arguments. *)
Definition intel_id (reading : Py.bytes) (start_man_match : Z) : String.string :=
  let intel_id := Py.slice reading (start_man_match - 0xB) (start_man_match - 0x9) in
  let intel_id := Hex.hexdigest (rev intel_id) in
  if negb (Hex.text_eqb intel_id (Builtin.text "8086")) then "continue"
  else "OK".

(** [fuj_umem_ver(me_fd_start)], with the global [reading] as an argument;
    [None] stands for an uncaught ValueError. *)
Definition fuj_umem_ver (reading : Py.bytes) (me_fd_start : Z) : option (list ascii) :=
  let rgn_fuj_hdr := Py.slice reading me_fd_start (me_fd_start + 0x4) in
  let rgn_fuj_hdr := Hex.upper (Hex.hexdigest rgn_fuj_hdr) in
  if Hex.text_eqb rgn_fuj_hdr (Builtin.text "554DC94D") then
    match int_hex_reversed (Py.slice reading (me_fd_start + 0xB) (me_fd_start + 0xD)) with
    | None => None
    | Some major =>
    match int_hex_reversed (Py.slice reading (me_fd_start + 0xD) (me_fd_start + 0xF)) with
    | None => None
    | Some minor =>
    match int_hex_reversed (Py.slice reading (me_fd_start + 0xF) (me_fd_start + 0x11)) with
    | None => None
    | Some hotfix =>
    match int_hex_reversed (Py.slice reading (me_fd_start + 0x11) (me_fd_start + 0x13)) with
    | None => None
    | Some build => Some (Str.dotted4 major minor hotfix build)
    end end end end
  else Some (Builtin.text "NaN").

(** The header of a Fujitsu compressed region: [UMEM] with 0xC9 for E. *)
Definition umem_tag : Py.bytes := [0x55; 0x4D; 0xC9; 0x4D].

End Ident.

(** ** More formatting and indexing *)

Module Fmt.

(** ['%0.<width>X' % v]: at least [width] digits. *)
Definition fmt_0X (width : nat) (v : Z) : list ascii :=
  if v <? 0 then "-"%char :: repeat "0"%char (width - length (Hex.digits_of (- v)))
                  ++ map Hex.hexc (Hex.digits_of (- v))
  else repeat "0"%char (width - length (Hex.digits_of v)) ++ map Hex.hexc (Hex.digits_of v).

(** ['0x%0.<width>X' % v] *)
Definition fmt_0x0X (width : nat) (v : Z) : list ascii :=
  "0"%char :: "x"%char :: fmt_0X width v.

(** [s[i]]; [None] stands for IndexError. *)
Definition getitem {A : Type} (s : list A) (i : Z) : option A :=
  if i <? 0 then
    if i + Py.len s <? 0 then None else nth_error s (Z.to_nat (i + Py.len s))
  else nth_error s (Z.to_nat i).

(** The digits that ['%0.<width>X'] gives a non-negative number. *)
Definition padded_digits (width : nat) (v : Z) : list Z :=
  repeat 0 (width - length (Hex.digits_of v)) ++ Hex.digits_of v.

End Fmt.

(** ** The $FPT header in the main loop: extra entries (lines 3213-3216),
    checksum (lines 3334-3357), size alignment (lines 3413-3417 and
    3528-3532) *)

Module Fpt.

(** [b'\xFF\xFF\xFF\xFF\xFF\xFF\xFF\xFF\xFF\xFF'] *)
Definition ff10 : Py.bytes := repeat 0xFF 10.

(** [while reading[fpt_step + 0x2:fpt_step + 0xC] != ff10 :
       fpt_num_diff += 1 ; fpt_step += 0x20],
    for at most [fuel] tests; [None]: still running. *)
Fixpoint extra_entries (reading : Py.bytes) (fuel : nat) (fpt_num_diff fpt_step : Z)
    : option (Z * Z) :=
  match fuel with
  | O => None
  | S fuel' =>
      if negb (Walk.bytes_eqb (Py.slice reading (fpt_step + 0x2) (fpt_step + 0xC)) ff10)
      then extra_entries reading fuel' (fpt_num_diff + 1) (fpt_step + 0x20)
      else Some (fpt_num_diff, fpt_step)
  end.

(** The firmware generations whose checksum leaves the ROM-bypass
    instructions out (line 3341). *)
Definition romb_excluded (variant : String.string) (major : Z) : bool :=
  (String.eqb variant "ME" && (major >=? 11))
  || (String.eqb variant "TXE" && (major >=? 3))
  || (String.eqb variant "SPS" && (major >=? 4)).

(** The generations whose checksum failure is ignored (line 3357). *)
Definition placeholder_checksum (variant : String.string) (major : Z) : bool :=
  (String.eqb variant "ME" && (major >=? 12))
  || (String.eqb variant "TXE" && (major >=? 3)).

(** Which of the three layouts of lines 3339-3345 applies: 1 when the
    pre-header is read and summed, 2 when it is read and left out, 3 for the
    old header without pre-header, 0 otherwise. *)
Definition layout (variant : String.string) (major fpt_version fpt_length : Z) : Z :=
  if (fpt_version =? 32) && (fpt_length =? 48) then 1
  else if (fpt_version =? 32) && (fpt_length =? 32) && romb_excluded variant major then 2
  else if (fpt_version =? 16) && (fpt_length =? 32) then 3
  else 0.

(** [fpt_start] and [fpt_chk_start] after lines 3335-3345. *)
Definition fpt_start_of (l start_fw_start_match : Z) : Z :=
  if l =? 3 then start_fw_start_match else start_fw_start_match - 0x10.
Definition fpt_chk_start_of (l : Z) : Z := if l =? 2 then 0x10 else 0x0.

Inductive chk_result : Type :=
| ChkExit (off : Z)                 (* get_struct out of bounds: mea_exit(1) *)
| ChkIndexError                     (* reading[start_fw_start_match + 0xB] *)
| ChkDone (fpt_chk_fail : bool).

(** Lines 3334-3357: [fpt_hdr] is the header read at
    [start_fw_start_match] (line 3128), [fpt_version] and [fpt_length] its
    fields [Version] and [Length] (lines 3133-3134); the result is
    [fpt_chk_fail]. *)
Definition fpt_checksum (reading : Py.bytes) (file_end : Z) (variant : String.string)
    (major start_fw_start_match : Z) (fpt_hdr : Py.bytes) : chk_result :=
  let fpt_version := Struct.u8 fpt_hdr 0x08 in
  let fpt_length := Struct.u8 fpt_hdr 0x0A in
  let l := layout variant major fpt_version fpt_length in
  let fpt_chk_start := fpt_chk_start_of l in
  match Fmt.getitem reading (start_fw_start_match + 0xB) with
  | None => ChkIndexError
  | Some fpt_chk_byte =>
      match (if (l =? 1) || (l =? 2)
             then Struct.get_struct reading (start_fw_start_match - 0x10) 0x10 file_end
             else Struct.Fit []) with
      | Struct.OutOfBounds o => ChkExit o
      | Struct.Fit _ =>
          let fpt_start := fpt_start_of l start_fw_start_match in
          let fpt_chk_file := Fmt.fmt_0x0X 2 (Struct.u8 fpt_hdr 0x0B) in
          let chk_sum :=
            Py.sum (Py.slice reading (fpt_start + fpt_chk_start)
                             (fpt_start + fpt_chk_start + fpt_length))
            - fpt_chk_byte in
          let fpt_chk_calc := Fmt.fmt_0x0X 2 (Z.land (Z.land (0x100 - chk_sum) 0xFF) 0xFF) in
          let fpt_chk_fail := negb (Hex.text_eqb fpt_chk_calc fpt_chk_file) in
          let fpt_chk_fail :=
            if fpt_chk_fail && placeholder_checksum variant major then false
            else fpt_chk_fail in
          ChkDone fpt_chk_fail
      end
  end.

(** Lines 3528-3532: the end of the engine region, aligned. *)
Definition eng_fw_end_uncharted (p_end_last : Z) : Z :=
  let mod_align := p_end_last mod 0x1000 in
  if mod_align >? 0 then p_end_last + 0x1000 - mod_align else p_end_last.

(** Lines 3413-3417, for the images whose last partition has no size. *)
Definition eng_fw_end_scanned (mod_end_max mod_end fpt_start : Z) : Z :=
  let mod_align := (mod_end_max - fpt_start) mod 0x1000 in
  if mod_align >? 0 then mod_end + 0x1000 - mod_align - fpt_start else mod_end.

End Fpt.

(** ** The directory behind a manifest (ext_anl, lines 1908-1915) *)

Module CpdScan.

(** [for offset in range(start, stop, -4)], [n] offsets still to visit:
    the first offset whose window holds [$CPD], less one; -1 when there is
    none. *)
Fixpoint scan_back (reading : Py.bytes) (n : nat) (offset : Z) : Z :=
  match n with
  | O => -1
  | S n' =>
      if Walk.contains Walk.tag_CPD (Py.slice reading (offset - 1) (offset - 1 + 4))
      then offset - 1
      else scan_back reading n' (offset - 4)
  end.

(** Number of elements of [range(start_man_match + 2, start_man_match - 0x1000, -4)]. *)
Definition back_count : nat := Z.to_nat ((0x1002 + 3) / 4).

(** [cpd_offset] after the scan, from its initial -1. *)
Definition cpd_offset_of (reading : Py.bytes) (start_man_match : Z) : Z :=
  scan_back reading back_count (start_man_match + 2).

End CpdScan.

(** ** The SKU attributes of Extension 0x0C (ext_anl, lines 2034-2044) *)

Module SkuAttr.

(** [fw_sku_attr = format(ext_hdr.FWSKUAttrib, '032b')]; the field is a
    64-bit one, and 32 is the least width of the text, not its width. *)
Definition fw_sku_attr (FWSKUAttrib : Z) : list ascii := Py.format_032b FWSKUAttrib.

(** [int(fw_sku_attr[a:b], 2)] *)
Definition cut (FWSKUAttrib a b : Z) : option Z :=
  Py.int2 (Py.slice (fw_sku_attr FWSKUAttrib) a b).

(** [int(fw_sku_attr[i], 2)]; [None] stands for an exception. *)
Definition bit (FWSKUAttrib i : Z) : option Z :=
  match Fmt.getitem (fw_sku_attr FWSKUAttrib) i with
  | Some c => Py.int2 [c]
  | None => None
  end.

Definition fw_0C_cse (w : Z) : option Z := cut w 28 32.
Definition fw_0C_sku1 (w : Z) : option Z := cut w 25 28.
Definition fw_0C_lbg (w : Z) : option Z := bit w 24.
Definition fw_0C_m3 (w : Z) : option Z := bit w 23.
Definition fw_0C_m0 (w : Z) : option Z := bit w 22.
Definition fw_0C_sku2 (w : Z) : option Z := cut w 20 22.
Definition fw_0C_sicl (w : Z) : option Z := cut w 16 20.
(** [int(fw_sku_attr[:16], 2)] *)
Definition fw_0C_res2 (w : Z) : option Z := Py.int2 (Py.slice_to (fw_sku_attr w) 16).

(** Number of digits of the text: 32, or more for a number of 2^32 or above. *)
Definition width (w : Z) : Z := Z.max 32 (Z.log2 w + 1).

End SkuAttr.

(** ** The signature and key of the recovery manifest (rsa_anl, lines
    2588-2595) *)

Module RsaAnl.

(** [sha_1(data)] (lines 1520-1521) and [sha_256(data)] (lines 1524-1525) *)
Definition sha_1 (data : Py.bytes) : list ascii := Hex.hexdigest (Hashlib.sha1 data).
Definition sha_256 (data : Py.bytes) : list ascii := Hex.hexdigest (Hashlib.sha256 data).

(** [rsa_anl()], with the globals [reading] and [end_man_match] as
    arguments. *)
Definition rsa_anl (reading : Py.bytes) (end_man_match : Z) : list ascii * list ascii :=
  let rsa_sig := Py.slice reading (end_man_match + 0x164) (end_man_match + 0x264) in
  let rsa_hash := Hex.upper (sha_1 rsa_sig) in
  let rsa_pkey := Py.slice reading (end_man_match + 0x60) (end_man_match + 0x70) in
  let rsa_pkey := Hex.upper (Hex.hexdigest rsa_pkey) in
  (rsa_hash, rsa_pkey).

(** A text of upper-case hexadecimal digits. *)
Definition upper_hex (s : list ascii) : Prop := Forall (fun c => In c Hex.upper_digits) s.

End RsaAnl.

(** ** What the extension loop does to the lists of [ext_anl] *)

Module ExtLists.

Import Ext.

(** A step keeps a relation between the lists before and after it. *)
Definition keeps (P : accum -> accum -> Prop) (a : accum) (r : res accum) : Prop :=
  match r with Ok a' => P a a' | _ => True end.

(** The rows and names of the manifest and metadata entries are the same. *)
Definition same_entries (a a' : accum) : Prop :=
  cpd_ext_attr a' = cpd_ext_attr a /\ cpd_ext_names a' = cpd_ext_names a.

(** Nothing stored before is dropped or changed: every list is the old one
    with more at its end. *)
Definition grown (a a' : accum) : Prop :=
  (exists l, err_stor a' = err_stor a ++ l) /\
  (exists l, cpd_ext_hash a' = cpd_ext_hash a ++ l) /\
  (exists l, cpd_mod_attr a' = cpd_mod_attr a ++ l) /\
  (exists l, cpd_ext_attr a' = cpd_ext_attr a ++ l) /\
  (exists l, cpd_ext_names a' = cpd_ext_names a ++ l).

(** The row of a finished entry (line 2084): its place, its size as both
    sizes, no hash yet, and the flag of an empty or missing entry. *)
Definition entry_row (c : context) (r : Attr.mod_attr) : Prop :=
  Attr.mod_name r = str_of (cpd_entry_name c) /\
  Attr.mod_start r = cpd_entry_offset c /\
  Attr.mod_size_comp r = cpd_entry_size c /\
  Attr.mod_size_uncomp r = cpd_entry_size c /\
  Attr.mod_hash r = Attr.HashInt 0 /\
  (Attr.mod_empty r = 1 \/ Attr.mod_empty r = 0) /\
  (Attr.mod_empty r = 1 <->
   Py.slice (reading c) (cpd_entry_offset c) (cpd_entry_offset c + cpd_entry_size c)
   = ModAnl.ff_times (cpd_entry_size c)
   \/ file_end c < cpd_entry_offset c).

End ExtLists.

(** ** The two adjustments of an LZMA module (mod_anl, lines 2270-2271 and
    2424-2425) *)

Module ModStore.

(** The header whose three zero bytes go: [b'\x36\x00\x40\x00\x00']. *)
Definition lzma_props : Py.bytes := [0x36; 0x00; 0x40; 0x00; 0x00].

(** [data_size_uncomp = len(mod_data)
     if data_size_uncomp != mod_size_uncomp :
       mod_data += b'\xFF' * (mod_size_uncomp - data_size_uncomp)] *)
Definition eof_padding (mod_data : Py.bytes) (mod_size_uncomp : Z) : Py.bytes :=
  let data_size_uncomp := Py.len mod_data in
  if negb (data_size_uncomp =? mod_size_uncomp)
  then mod_data ++ ModAnl.ff_times (mod_size_uncomp - data_size_uncomp)
  else mod_data.

End ModStore.

(** ** The flash descriptor (spi_fd_init, lines 1593-1607) *)

Module SpiFd.

(** [\xFF\xFF\xFF\xFF\x5A\xA5\xF0\x0F]: the signature after 16 bytes 0xFF
    (PCH), of which the pattern asks four. *)
Definition pch_pat : list Batch.pat_item :=
  map Batch.Byte [0xFF; 0xFF; 0xFF; 0xFF; 0x5A; 0xA5; 0xF0; 0x0F].

(** [\x5A\xA5\xF0\x0F.{172}\xFF{16}] with DOTALL: the signature first
    (ICH). *)
Definition ich_pat : list Batch.pat_item :=
  map Batch.Byte [0x5A; 0xA5; 0xF0; 0x0F] ++ repeat Batch.AnyByte 172
    ++ repeat (Batch.Byte 0xFF) 16.

Definition signature : Py.bytes := [0x5A; 0xA5; 0xF0; 0x0F].

(** [spi_fd_init()], with the global [reading] as an argument; the span of
    a match ends at its start plus the length of the pattern. *)
Definition spi_fd_init (reading : Py.bytes) : bool * Z * Z :=
  match Batch.search [pch_pat] reading with
  | Some start_fd_match =>
      let end_fd_match := start_fd_match + Py.len pch_pat in
      let start_substruct := 0xC in
      let end_substruct := 0x0 in
      (true, start_fd_match - start_substruct, end_fd_match - end_substruct)
  | None =>
      match Batch.search [ich_pat] reading with
      | Some start_fd_match =>
          let end_fd_match := start_fd_match + Py.len ich_pat in
          let start_substruct := 0x0 in
          let end_substruct := 0xBC - 0x10 in
          (true, start_fd_match - start_substruct, end_fd_match - end_substruct)
      | None => (false, 0, 0)
      end
  end.

End SpiFd.

(** ** Microcode entries: the row built by ext_anl (lines 2151-2160) and the
    verdict of mod_anl on an uncompressed module (lines 2253-2415) *)

Module Microcode.

Import Attr.







End Microcode.

(** * Theorems *)

Import Digits.

Section BinaryDigits.

Lemma bin_pos_bits p : Py.bin_pos p = map bitc (bits_pos p).
Proof.
  induction p; simpl; rewrite ?IHp, ?map_app; reflexivity.
Qed.

Lemma int2_from_bits s : forall acc,
  Py.int2_from acc (map bitc s) = Some (bits_val acc s).
Proof.
  induction s as [|b t IH]; intros acc; simpl; [reflexivity|].
  destruct b; simpl; apply IH.
Qed.

Lemma bits_val_app s1 : forall s2 acc,
  bits_val acc (s1 ++ s2) = bits_val (bits_val acc s1) s2.
Proof.
  induction s1 as [|b t IH]; intros; simpl; [reflexivity|apply IH].
Qed.

Lemma bits_val_acc s : forall acc,
  bits_val acc s = acc * 2 ^ Py.len s + bits_val 0 s.
Proof.
  unfold Py.len.
  induction s as [|b t IH]; intros acc.
  - simpl. lia.
  - cbn [bits_val length]. rewrite IH, (IH (2 * 0 + Z.b2z b)).
    rewrite Nat2Z.inj_succ, Z.pow_succ_r by lia. ring.
Qed.

Lemma bits_val_bound s : 0 <= bits_val 0 s < 2 ^ Py.len s.
Proof.
  unfold Py.len.
  induction s as [|b t IH] using rev_ind.
  - simpl. lia.
  - rewrite bits_val_app. cbn [bits_val].
    rewrite length_app, Nat2Z.inj_add. cbn [length].
    change (Z.of_nat 1) with 1. rewrite Z.pow_add_r, Z.pow_1_r by lia.
    destruct b; cbn [Z.b2z]; lia.
Qed.

Lemma bits_pos_val p : bits_val 0 (bits_pos p) = Zpos p.
Proof.
  induction p; cbn [bits_pos]; rewrite ?bits_val_app; cbn [bits_val];
    rewrite ?IHp; cbn [Z.b2z]; lia.
Qed.

Lemma bits_pos_length p : Zpos p < 2 ^ Py.len (bits_pos p) /\
  2 ^ Py.len (bits_pos p) <= 2 * Zpos p.
Proof.
  unfold Py.len.
  induction p; cbn [bits_pos]; rewrite ?length_app, ?Nat2Z.inj_add;
    cbn [length]; try change (Z.of_nat 1) with 1;
    rewrite ?Z.pow_add_r, ?Z.pow_1_r by lia; try lia.
Qed.

Lemma format_032b_bits w : 0 <= w -> Py.format_032b w = map bitc (bits32 w).
Proof.
  destruct w as [|p|p]; intros Hw; try lia.
  - reflexivity.
  - unfold Py.format_032b, bits32.
    rewrite map_app, map_repeat, bin_pos_bits, length_map. reflexivity.
Qed.

Lemma bits_val_repeat_false n acc : bits_val acc (repeat false n) = acc * 2 ^ Z.of_nat n.
Proof.
  revert acc. induction n as [|n IH]; intros acc.
  - simpl. lia.
  - cbn [repeat bits_val Z.b2z]. rewrite IH, Nat2Z.inj_succ, Z.pow_succ_r by lia. ring.
Qed.

Lemma bits32_val w : 0 <= w -> bits_val 0 (bits32 w) = w.
Proof.
  destruct w as [|p|p]; intros Hw; try lia.
  - reflexivity.
  - unfold bits32. rewrite bits_val_app, bits_val_repeat_false.
    rewrite bits_val_acc, bits_pos_val. lia.
Qed.

Lemma bits32_length w : 0 <= w < 2 ^ 32 -> length (bits32 w) = 32%nat.
Proof.
  destruct w as [|p|p]; intros Hw; try lia.
  - reflexivity.
  - unfold bits32. rewrite length_app, repeat_length.
    assert (length (bits_pos p) <= 32)%nat; [|lia].
    destruct (bits_pos_length p) as [_ H]. unfold Py.len in H.
    destruct (Nat.le_gt_cases (length (bits_pos p)) 32) as [|Hgt]; [assumption|].
    exfalso.
    assert (2 ^ 33 <= 2 ^ Z.of_nat (length (bits_pos p))).
    { apply Z.pow_le_mono_r; lia. }
    change (2 ^ 33) with (2 * 2 ^ 32) in *. lia.
Qed.

End BinaryDigits.

Section CpdAttrFacts.

Lemma firstn_succ_nth {A : Type} (n : nat) : forall (l : list A) (x : A),
  nth_error l n = Some x -> firstn (S n) l = firstn n l ++ [x].
Proof.
  induction n as [|n IH]; intros [|a l] x H; try discriminate.
  - cbn in H. injection H as ->. reflexivity.
  - cbn in H. change (a :: firstn (S n) l = a :: (firstn n l ++ [x])).
    f_equal. apply (IH l x H).
Qed.

Lemma bits32_split (w : Z) (k : nat) :
  0 <= w < 2 ^ 32 -> (k <= 32)%nat ->
  w = bits_val 0 (firstn k (bits32 w)) * 2 ^ Z.of_nat (32 - k)
      + bits_val 0 (skipn k (bits32 w)) /\
  0 <= bits_val 0 (skipn k (bits32 w)) < 2 ^ Z.of_nat (32 - k).
Proof.
  intros Hw Hk.
  assert (Hlen : length (skipn k (bits32 w)) = (32 - k)%nat).
  { rewrite length_skipn, bits32_length by assumption. reflexivity. }
  split.
  - rewrite <- (bits32_val w) at 1 by lia.
    rewrite <- (firstn_skipn k (bits32 w)) at 1.
    rewrite bits_val_app, bits_val_acc. unfold Py.len. rewrite Hlen. reflexivity.
  - rewrite <- Hlen. apply bits_val_bound.
Qed.

Lemma int2_map_bitc (s : list bool) :
  s <> [] -> Py.int2 (map bitc s) = Some (bits_val 0 s).
Proof.
  destruct s as [|b t]; [congruence|intros _].
  unfold Py.int2. cbn [map]. rewrite <- (int2_from_bits (b :: t) 0). reflexivity.
Qed.

Lemma cpd_mod_off_low25 (w : Z) :
  0 <= w < 2 ^ 32 -> CpdAttr.cpd_mod_off w = Some (w mod 2 ^ 25).
Proof.
  intros Hw. unfold CpdAttr.cpd_mod_off, CpdAttr.cpd_off_attr, Py.slice_from.
  rewrite format_032b_bits by lia.
  unfold Py.len. rewrite length_map, bits32_length by assumption.
  change (Z.to_nat (Py.norm_index (Z.of_nat 32) 7)) with 7%nat.
  rewrite skipn_map, int2_map_bitc.
  - f_equal. destruct (bits32_split w 7 Hw) as [Heq Hb]; [lia|].
    change (Z.of_nat (32 - 7)) with 25 in *.
    apply Z.mod_unique with (q := bits_val 0 (firstn 7 (bits32 w))); lia.
  - intros E. apply (f_equal (@length bool)) in E.
    rewrite length_skipn, bits32_length in E by assumption. discriminate.
Qed.

Lemma cpd_mod_huff_bit25 (w : Z) :
  0 <= w < 2 ^ 32 -> CpdAttr.cpd_mod_huff w = Some (Z.b2z (Z.testbit w 25)).
Proof.
  intros Hw. unfold CpdAttr.cpd_mod_huff, CpdAttr.cpd_off_attr, Py.index.
  rewrite format_032b_bits by lia. change (6 <? 0) with false. cbv iota.
  change (Z.to_nat 6) with 6%nat.
  destruct (nth_error (bits32 w) 6) as [b|] eqn:Hn.
  2:{ apply nth_error_None in Hn. rewrite bits32_length in Hn by assumption. lia. }
  rewrite nth_error_map, Hn. cbn [option_map].
  change [bitc b] with (map bitc [b]). rewrite int2_map_bitc by discriminate.
  cbn [bits_val]. f_equal.
  destruct (bits32_split w 7 Hw) as [Heq Hb]; [lia|].
  change (Z.of_nat (32 - 7)) with 25 in *.
  assert (Hf : firstn 7 (bits32 w) = firstn 6 (bits32 w) ++ [b]).
  { apply firstn_succ_nth. assumption. }
  rewrite Hf, bits_val_app in Heq. cbn [bits_val] in Heq.
  set (hi := bits_val 0 (firstn 6 (bits32 w))) in *.
  set (lo := bits_val 0 (skipn 7 (bits32 w))) in *.
  assert (Hdiv : w / 2 ^ 25 = 2 * hi + Z.b2z b).
  { symmetry. apply Z.div_unique with (r := lo); lia. }
  rewrite Z.testbit_odd, Z.shiftr_div_pow2, Hdiv by lia.
  replace (2 * hi + Z.b2z b) with (Z.b2z b + 2 * hi) by lia.
  rewrite Z.odd_add_mul_2. destruct b; reflexivity.
Qed.

End CpdAttrFacts.

(** C1: for every 32-bit attribute word the decoded offset is the word modulo
    2^25 and the Huffman flag is bit 25; the six reserved bits are decoded
    apart and never checked, so two words that agree on their low 26 bits
    decode to the same offset and flag. *)
Theorem cpd_attr_offset_huffman (w : Z) (Hw : 0 <= w < 2 ^ 32) :
  CpdAttr.cpd_mod_off w = Some (w mod 2 ^ 25) /\
  CpdAttr.cpd_mod_huff w = Some (Z.b2z (Z.testbit w 25)) /\
  (forall w', 0 <= w' < 2 ^ 32 -> w' mod 2 ^ 26 = w mod 2 ^ 26 ->
     CpdAttr.cpd_mod_off w' = CpdAttr.cpd_mod_off w /\
     CpdAttr.cpd_mod_huff w' = CpdAttr.cpd_mod_huff w).
Proof.
  split; [apply cpd_mod_off_low25; assumption|].
  split; [apply cpd_mod_huff_bit25; assumption|].
  intros w' Hw' E.
  rewrite !cpd_mod_off_low25, !cpd_mod_huff_bit25 by assumption.
  split; f_equal.
  - change (2 ^ 26) with (2 ^ 25 * 2) in E.
    rewrite !Z.rem_mul_r in E by lia.
    pose proof (Z.mod_pos_bound w (2 ^ 25) ltac:(lia)).
    pose proof (Z.mod_pos_bound w' (2 ^ 25) ltac:(lia)).
    pose proof (Z.mod_pos_bound (w / 2 ^ 25) 2 ltac:(lia)).
    pose proof (Z.mod_pos_bound (w' / 2 ^ 25) 2 ltac:(lia)).
    lia.
  - f_equal.
    rewrite <- (Z.mod_pow2_bits_low w 26 25), <- (Z.mod_pow2_bits_low w' 26 25) by lia.
    rewrite E. reflexivity.
Qed.

Lemma cpd_attr_offset_huffman_witness :
  CpdAttr.cpd_mod_off 0xFE000005 = Some (0xFE000005 mod 2 ^ 25) /\
  CpdAttr.cpd_mod_huff 0xFE000005 = Some (Z.b2z (Z.testbit 0xFE000005 25)).
Proof.
  destruct (cpd_attr_offset_huffman 0xFE000005 ltac:(lia)) as (H1 & H2 & _).
  split; assumption.
Defined.

(** C9, as stated, fails: bit 24 of 0x01000005 lies inside the 25-bit offset
    field, so the word does not decode to offset 5. *)
Lemma cpd_attr_scenario_offset_not_5 :
  CpdAttr.cpd_mod_off 0x01000005 <> Some 5 /\
  CpdAttr.cpd_mod_off 0x01000005 <> CpdAttr.cpd_mod_off 0x02000005.
Proof. split; vm_compute; discriminate. Qed.

(** C9 (amended): the attribute word 0x01000005 decodes to offset 0x1000005
    (bit 24 is the top bit of the offset field) with Huffman flag 0, and
    0x02000005, whose bit 25 is set, to offset 5 with Huffman flag 1. *)
Theorem cpd_attr_scenario :
  CpdAttr.cpd_mod_off 0x01000005 = Some 0x1000005 /\
  CpdAttr.cpd_mod_huff 0x01000005 = Some 0 /\
  CpdAttr.cpd_mod_off 0x02000005 = Some 5 /\
  CpdAttr.cpd_mod_huff 0x02000005 = Some 1.
Proof. repeat split; vm_compute; reflexivity. Qed.

Section CpdChkFacts.

Lemma sum_from (l : list Z) : forall acc, fold_left Z.add l acc = acc + Py.sum l.
Proof.
  unfold Py.sum. induction l as [|x t IH]; intros acc; cbn [fold_left].
  - lia.
  - rewrite IH, (IH (0 + x)). lia.
Qed.

Lemma sum_app (l1 l2 : list Z) : Py.sum (l1 ++ l2) = Py.sum l1 + Py.sum l2.
Proof.
  unfold Py.sum at 1. rewrite fold_left_app, sum_from. reflexivity.
Qed.

Lemma sum_cons (x : Z) (l : list Z) : Py.sum (x :: l) = x + Py.sum l.
Proof. change (x :: l) with ([x] ++ l). rewrite sum_app. reflexivity. Qed.

Lemma sum_without (l : list Z) (n : nat) (x : Z) :
  nth_error l n = Some x ->
  Py.sum l - x = Py.sum (firstn n l) + Py.sum (skipn (S n) l).
Proof.
  intros H. destruct (nth_error_split l n H) as (l1 & l2 & -> & <-).
  rewrite firstn_app, Nat.sub_diag, firstn_all, firstn_O, app_nil_r.
  replace (S (length l1)) with (length l1 + 1)%nat by lia.
  rewrite skipn_app, skipn_all2, Nat.add_comm, Nat.add_sub by lia.
  cbn [skipn app]. rewrite sum_app, sum_cons. lia.
Qed.

End CpdChkFacts.

(** C3: on every buffer that holds a $CPD directory (so that the byte at
    offset 0xB exists) [cpd_chk] returns a verdict, and it accepts exactly
    when [(0x100 - sum of all bytes but the one at 0xB) & 0xFF] is that
    byte. *)
Theorem cpd_chk_accepts_iff (cpd_data : Py.bytes) (chk : Z)
  (Hchk : nth_error cpd_data 11 = Some chk) :
  CpdChk.cpd_chk cpd_data = Some (CpdChk.spec_accepts cpd_data chk) /\
  (CpdChk.cpd_chk cpd_data = Some true <->
   Z.land (0x100 - CpdChk.sum_except_chk cpd_data) 0xFF = chk).
Proof.
  assert (E : CpdChk.cpd_chk cpd_data = Some (CpdChk.spec_accepts cpd_data chk)).
  { unfold CpdChk.cpd_chk, CpdChk.spec_accepts, Py.index.
    change (0xB <? 0) with false. cbv iota.
    change (Z.to_nat 0xB) with 11%nat. rewrite Hchk. cbv zeta.
    rewrite (sum_without cpd_data 11 chk Hchk).
    fold (CpdChk.sum_except_chk cpd_data).
    set (c := Z.land (0x100 - CpdChk.sum_except_chk cpd_data) 0xFF).
    assert (Hidem : Z.land c 0xFF = c).
    { unfold c. rewrite <- Z.land_assoc. reflexivity. }
    rewrite Hidem, (Z.eqb_sym c chk). destruct (chk =? c); reflexivity. }
  split; [exact E|]. rewrite E. unfold CpdChk.spec_accepts.
  split; intros H.
  - injection H as H. apply Z.eqb_eq. assumption.
  - f_equal. apply Z.eqb_eq. assumption.
Qed.

Lemma cpd_chk_accepts_iff_witness :
  CpdChk.cpd_chk [36; 67; 80; 68; 0; 0; 0; 0; 1; 1; 16; 183; 70; 84; 80; 82] = Some true.
Proof.
  apply (cpd_chk_accepts_iff
           [36; 67; 80; 68; 0; 0; 0; 0; 1; 1; 16; 183; 70; 84; 80; 82] 183).
  - reflexivity.
  - reflexivity.
Defined.

Section HexFacts.

Lemma digit_cases (d : Z) : 0 <= d < 16 ->
  d = 0 \/ d = 1 \/ d = 2 \/ d = 3 \/ d = 4 \/ d = 5 \/ d = 6 \/ d = 7 \/
  d = 8 \/ d = 9 \/ d = 10 \/ d = 11 \/ d = 12 \/ d = 13 \/ d = 14 \/ d = 15.
Proof. lia. Qed.

Ltac each_digit d H :=
  destruct (digit_cases d H) as
    [->|[->|[->|[->|[->|[->|[->|[->|[->|[->|[->|[->|[->|[->|[->| ->]]]]]]]]]]]]]]].

Lemma digit16_hexc (d : Z) : 0 <= d < 16 -> Hex.digit16 (Hex.hexc d) = Some d.
Proof. intros H. each_digit d H; reflexivity. Qed.

Lemma upper_hexc_lower (d : Z) : 0 <= d < 16 ->
  Hex.upper_char (Hex.hexc_lower d) = Hex.hexc d.
Proof. intros H. each_digit d H; reflexivity. Qed.

Lemma hexc_inj (d d' : Z) : 0 <= d < 16 -> 0 <= d' < 16 ->
  Hex.hexc d = Hex.hexc d' -> d = d'.
Proof.
  intros H H' E. apply (f_equal Hex.digit16) in E.
  rewrite !digit16_hexc in E by assumption. congruence.
Qed.

Lemma map_hexc_inj (ds : list Z) : forall ds',
  digits_ok ds -> digits_ok ds' -> map Hex.hexc ds = map Hex.hexc ds' -> ds = ds'.
Proof.
  induction ds as [|d t IH]; intros [|d' t'] H H' E; try discriminate; [reflexivity|].
  inversion H; inversion H'; subst. cbn [map] in E. injection E as E1 E2.
  f_equal; [apply hexc_inj; assumption|apply IH; assumption].
Qed.

Lemma dval_from_app (a : list Z) : forall b acc,
  dval_from acc (a ++ b) = dval_from (dval_from acc a) b.
Proof. induction a as [|d t IH]; intros; cbn; [reflexivity|apply IH]. Qed.

Lemma dval_from_acc (ds : list Z) : forall acc,
  dval_from acc ds = acc * 16 ^ Py.len ds + dval ds.
Proof.
  unfold dval, Py.len.
  induction ds as [|d t IH]; intros acc.
  - cbn. lia.
  - cbn [dval_from length]. rewrite IH, (IH (16 * 0 + d)).
    rewrite Nat2Z.inj_succ, Z.pow_succ_r by lia. ring.
Qed.

Lemma dval_app (a b : list Z) : dval (a ++ b) = dval a * 16 ^ Py.len b + dval b.
Proof. unfold dval at 1. rewrite dval_from_app, dval_from_acc. reflexivity. Qed.

Lemma dval_bound (ds : list Z) : digits_ok ds -> 0 <= dval ds < 16 ^ Py.len ds.
Proof.
  unfold Py.len.
  induction ds as [|d t IH] using rev_ind; intros H.
  - cbn. lia.
  - apply Forall_app in H as [Ht Hd]. inversion Hd; subst.
    rewrite dval_app. unfold Py.len. rewrite length_app, Nat2Z.inj_add.
    cbn [length]. change (Z.of_nat 1) with 1.
    rewrite Z.pow_add_r, Z.pow_1_r by lia.
    change (dval [d]) with (16 * 0 + d). specialize (IH Ht). lia.
Qed.

Lemma int16_from_hexc (ds : list Z) : forall acc, digits_ok ds ->
  Hex.int16_from acc (map Hex.hexc ds) = Some (dval_from acc ds).
Proof.
  induction ds as [|d t IH]; intros acc H; cbn [map Hex.int16_from dval_from].
  - reflexivity.
  - inversion H; subst. rewrite digit16_hexc by assumption. apply IH. assumption.
Qed.

Lemma int16_hexc (ds : list Z) : digits_ok ds -> ds <> [] ->
  Hex.int16 (map Hex.hexc ds) = Some (dval ds).
Proof.
  intros H Hne. destruct ds as [|d t]; [congruence|].
  exact (int16_from_hexc (d :: t) 0 H).
Qed.

(** Digits of a number that fits the fuel. *)
Lemma hex_digits_spec (fuel : nat) : forall v,
  0 <= v < 16 ^ (Z.of_nat fuel + 1) ->
  digits_ok (Hex.hex_digits fuel v) /\
  dval (Hex.hex_digits fuel v) = v /\
  (1 <= Py.len (Hex.hex_digits fuel v)) /\
  (v = 0 \/ 16 ^ (Py.len (Hex.hex_digits fuel v) - 1) <= v).
Proof.
  unfold Py.len.
  induction fuel as [|f IH]; intros v Hv.
  - cbn [Hex.hex_digits]. change (16 ^ (Z.of_nat 0 + 1)) with 16 in Hv.
    rewrite Z.mod_small by lia. cbn [length].
    split; [constructor; [lia|constructor]|].
    split; [cbn; lia|]. split; [lia|].
    change (Z.of_nat 1 - 1) with 0. rewrite Z.pow_0_r. lia.
  - cbn [Hex.hex_digits]. destruct (v <? 16) eqn:E.
    + apply Z.ltb_lt in E. cbn [length].
      split; [constructor; [lia|constructor]|].
      split; [cbn; lia|]. split; [lia|].
      change (Z.of_nat 1 - 1) with 0. rewrite Z.pow_0_r. lia.
    + apply Z.ltb_ge in E.
      assert (Hq : 0 <= v / 16 < 16 ^ (Z.of_nat f + 1)).
      { rewrite Nat2Z.inj_succ in Hv.
        replace (Z.succ (Z.of_nat f) + 1) with (Z.succ (Z.of_nat f + 1)) in Hv by lia.
        rewrite Z.pow_succ_r in Hv by lia.
        split; [apply Z.div_pos; lia|apply Z.div_lt_upper_bound; lia]. }
      destruct (IH (v / 16) Hq) as (Hok & Hval & Hlen & Hlow).
      pose proof (Z.mod_pos_bound v 16 ltac:(lia)) as Hm.
      pose proof (Z.div_mod v 16 ltac:(lia)) as Hdm.
      assert (Hq1 : 1 <= v / 16) by (apply Z.div_le_lower_bound; lia).
      rewrite length_app, Nat2Z.inj_add. cbn [length]. change (Z.of_nat 1) with 1.
      split; [|split; [|split; [lia|]]].
      * apply Forall_app. split; [assumption|]. constructor; [lia|constructor].
      * rewrite dval_app, Hval. change (Py.len [v mod 16]) with 1.
        change (dval [v mod 16]) with (16 * 0 + v mod 16). lia.
      * right. destruct Hlow as [Hz|Hlow]; [lia|].
        replace (Z.of_nat (length (Hex.hex_digits f (v / 16))) + 1 - 1)
          with (Z.succ (Z.of_nat (length (Hex.hex_digits f (v / 16))) - 1)) by lia.
        rewrite Z.pow_succ_r by lia. lia.
Qed.

Lemma digits_of_spec (v : Z) : 0 <= v ->
  digits_ok (Hex.digits_of v) /\
  dval (Hex.digits_of v) = v /\
  1 <= Py.len (Hex.digits_of v) /\
  (v = 0 \/ 16 ^ (Py.len (Hex.digits_of v) - 1) <= v).
Proof.
  intros Hv. unfold Hex.digits_of. apply hex_digits_spec.
  split; [assumption|].
  destruct (Z.eq_dec v 0) as [->|Hnz].
  - cbn. lia.
  - rewrite Z2Nat.id by apply Z.log2_nonneg.
    destruct (Z.log2_spec v ltac:(lia)) as [_ Hlt].
    eapply Z.lt_le_trans; [exact Hlt|].
    replace (Z.succ (Z.log2 v)) with (Z.log2 v + 1) by lia.
    apply Z.pow_le_mono_l. lia.
Qed.

(** The last [k] digits of a digit list hold its value modulo 16^k. *)
Lemma dval_last (ds : list Z) (k : nat) : digits_ok ds -> (k <= length ds)%nat ->
  dval (skipn (length ds - k) ds) = dval ds mod 16 ^ Z.of_nat k.
Proof.
  intros Hok Hk.
  assert (Hlen : length (skipn (length ds - k) ds) = k) by (rewrite length_skipn; lia).
  assert (Hs : digits_ok (skipn (length ds - k) ds)).
  { unfold digits_ok in *. rewrite <- (firstn_skipn (length ds - k) ds) in Hok.
    apply Forall_app in Hok. tauto. }
  pose proof (dval_bound _ Hs) as Hb. unfold Py.len in Hb. rewrite Hlen in Hb.
  assert (E : dval ds = dval (firstn (length ds - k) ds) * 16 ^ Z.of_nat k
                        + dval (skipn (length ds - k) ds)).
  { rewrite <- (firstn_skipn (length ds - k) ds) at 1.
    rewrite dval_app. unfold Py.len. rewrite Hlen. reflexivity. }
  apply Z.mod_unique with (q := dval (firstn (length ds - k) ds)); lia.
Qed.

End HexFacts.

Section RsaFacts.

Lemma dval_cons (d : Z) (t : list Z) : dval (d :: t) = d * 16 ^ Py.len t + dval t.
Proof. change (d :: t) with ([d] ++ t). rewrite dval_app. cbn. lia. Qed.

Lemma dval_inj (a : list Z) : forall b,
  digits_ok a -> digits_ok b -> length a = length b -> dval a = dval b -> a = b.
Proof.
  induction a as [|d t IH]; intros [|d' t'] Ha Hb Hl Hv; try discriminate; [reflexivity|].
  inversion Ha; inversion Hb; subst. cbn [length] in Hl. injection Hl as Hl.
  rewrite !dval_cons in Hv. unfold Py.len in Hv. rewrite <- Hl in Hv.
  pose proof (dval_bound t ltac:(assumption)) as B1.
  pose proof (dval_bound t' ltac:(assumption)) as B2.
  unfold Py.len in B1, B2. rewrite <- Hl in B2.
  destruct (Z.div_mod_unique (16 ^ Z.of_nat (length t)) d d' (dval t) (dval t'))
    as [E1 E2]; [left; lia|left; lia|lia|].
  subst. f_equal. apply IH; assumption.
Qed.

Lemma dval_repeat_0 (n : nat) (ds : list Z) : dval (repeat 0 n ++ ds) = dval ds.
Proof.
  induction n as [|n IH]; [reflexivity|].
  cbn [repeat app]. rewrite dval_cons, IH. lia.
Qed.

Lemma text_eqb_true (a b : list ascii) : Hex.text_eqb a b = true <-> a = b.
Proof.
  unfold Hex.text_eqb. destruct (list_eq_dec ascii_dec a b); split; congruence.
Qed.

Lemma pow_mod_pos_spec (b m : Z) (e : positive) : 0 < m ->
  Rsa.pow_mod_pos b e m = (b ^ Zpos e) mod m.
Proof.
  intros Hm. induction e as [e IH|e IH|]; cbn [Rsa.pow_mod_pos].
  - rewrite IH. rewrite Pos2Z.inj_xI.
    replace (2 * Z.pos e + 1) with (Z.pos e + Z.pos e + 1) by lia.
    rewrite !Z.pow_add_r, Z.pow_1_r by lia.
    rewrite (Z.mul_mod (b ^ Z.pos e * b ^ Z.pos e) b m) by lia.
    rewrite (Z.mul_mod (b ^ Z.pos e) (b ^ Z.pos e) m) by lia. reflexivity.
  - rewrite IH. rewrite Pos2Z.inj_xO.
    replace (2 * Z.pos e) with (Z.pos e + Z.pos e) by lia.
    rewrite Z.pow_add_r by lia.
    rewrite (Z.mul_mod (b ^ Z.pos e) (b ^ Z.pos e) m) by lia. reflexivity.
  - rewrite Z.pow_1_r. reflexivity.
Qed.

Lemma py_pow_spec (b e m : Z) : 0 <= e -> 0 < m ->
  Rsa.py_pow b e m = Some (b ^ e mod m).
Proof.
  intros He Hm. unfold Rsa.py_pow.
  destruct (m =? 0) eqn:E; [apply Z.eqb_eq in E; lia|].
  destruct e as [|p|p]; try lia.
  - reflexivity.
  - rewrite pow_mod_pos_spec by assumption. reflexivity.
Qed.

Lemma hexc_0 : Hex.hexc 0 = "0"%char.
Proof. reflexivity. Qed.

Lemma digits_of_word (w : Z) : 0 <= w < 2 ^ 32 -> (length (Hex.digits_of w) <= 8)%nat.
Proof.
  intros Hw. destruct (digits_of_spec w ltac:(lia)) as (_ & _ & Hl & [->|Hlow]).
  - cbn. lia.
  - unfold Py.len in *.
    destruct (Nat.le_gt_cases (length (Hex.digits_of w)) 8) as [|Hgt]; [assumption|].
    exfalso.
    assert (16 ^ 8 <= 16 ^ (Z.of_nat (length (Hex.digits_of w)) - 1)).
    { apply Z.pow_le_mono_r; lia. }
    change (16 ^ 8) with (2 ^ 32) in *. lia.
Qed.

Lemma fmt_08X_word (w : Z) : 0 <= w < 2 ^ 32 ->
  Hex.fmt_08X w = map Hex.hexc (word_digits w) /\
  digits_ok (word_digits w) /\ length (word_digits w) = 8%nat /\
  dval (word_digits w) = w.
Proof.
  intros Hw. unfold Hex.fmt_08X, word_digits.
  destruct (w <? 0) eqn:E; [apply Z.ltb_lt in E; lia|].
  destruct (digits_of_spec w ltac:(lia)) as (Hok & Hval & _ & _).
  pose proof (digits_of_word w Hw) as Hl.
  split; [rewrite map_app, map_repeat, hexc_0; reflexivity|].
  split; [|split].
  - apply Forall_app. split; [|assumption].
    apply Forall_forall. intros x Hx. apply repeat_spec in Hx. lia.
  - rewrite length_app, repeat_length. lia.
  - rewrite dval_repeat_0. assumption.
Qed.

Lemma words_digits (ws : list Z) : words_ok ws ->
  flat_map Hex.fmt_08X (rev ws) = map Hex.hexc (flat_map word_digits (rev ws)) /\
  digits_ok (flat_map word_digits (rev ws)) /\
  dval (flat_map word_digits (rev ws)) = Rsa.le_words ws /\
  length (flat_map word_digits (rev ws)) = (8 * length ws)%nat.
Proof.
  induction ws as [|w t IH]; intros H.
  - cbn. repeat split. constructor.
  - inversion H as [|? ? Hw Ht]; subst.
    destruct (IH Ht) as (E & Hok & Hv & Hl).
    destruct (fmt_08X_word w Hw) as (Ew & Hokw & Hlw & Hvw).
    cbn [rev]. rewrite !flat_map_app. cbn [flat_map]. rewrite !app_nil_r.
    split; [rewrite map_app, E, Ew; reflexivity|].
    split; [apply Forall_app; split; assumption|].
    split.
    + rewrite dval_app, Hv, Hvw. unfold Py.len. rewrite Hlw.
      cbn [Rsa.le_words]. change (16 ^ Z.of_nat 8) with (2 ^ 32). lia.
    + rewrite length_app, Hl, Hlw. cbn [length]. lia.
Qed.

Lemma words_to_int_le (ws : list Z) : words_ok ws -> ws <> [] ->
  Rsa.words_to_int ws = Some (Rsa.le_words ws).
Proof.
  intros H Hne. destruct (words_digits ws H) as (E & Hok & Hv & Hl).
  unfold Rsa.words_to_int. rewrite E, int16_hexc, Hv; [reflexivity|assumption|].
  intros Hnil. rewrite Hnil in Hl. cbn in Hl.
  destruct ws; [congruence|cbn in Hl; lia].
Qed.

Lemma le_words_nonneg (ws : list Z) : words_ok ws -> 0 <= Rsa.le_words ws.
Proof.
  induction ws as [|w t IH]; intros H; cbn [Rsa.le_words]; [lia|].
  inversion H; subst. specialize (IH ltac:(assumption)). lia.
Qed.

Lemma digest_int_from (d : list Z) : forall acc,
  fold_left (fun a b => 256 * a + b) d acc = dval_from acc (byte_digits d).
Proof.
  induction d as [|b t IH]; intros acc; [reflexivity|].
  cbn [fold_left byte_digits flat_map app dval_from].
  rewrite IH. unfold byte_digits. f_equal.
  pose proof (Z.div_mod b 16 ltac:(lia)). lia.
Qed.

Lemma hexdigest_digits (d : list Z) : bytes_ok d ->
  Hex.upper (Hex.hexdigest d) = map Hex.hexc (byte_digits d) /\
  digits_ok (byte_digits d) /\
  length (byte_digits d) = (2 * length d)%nat /\
  dval (byte_digits d) = Rsa.digest_int d.
Proof.
  intros H. split; [|split; [|split]].
  - induction H as [|b t Hb Ht IH]; [reflexivity|].
    unfold Hex.upper, Hex.hexdigest, byte_digits in *.
    cbn [flat_map app map]. rewrite IH.
    rewrite !upper_hexc_lower; [reflexivity| |].
    + apply Z.mod_pos_bound. lia.
    + split; [apply Z.div_pos; lia|apply Z.div_lt_upper_bound; lia].
  - induction H as [|b t Hb Ht IH]; [constructor|].
    unfold byte_digits in *. cbn [flat_map app].
    constructor; [split; [apply Z.div_pos; lia|apply Z.div_lt_upper_bound; lia]|].
    constructor; [apply Z.mod_pos_bound; lia|assumption].
  - clear H. induction d as [|b t IH]; [reflexivity|].
    unfold byte_digits in *. cbn [flat_map app length]. rewrite IH. lia.
  - unfold Rsa.digest_int, dval. apply eq_sym, digest_int_from.
Qed.

Lemma be32_bytes_ok (w : Z) : bytes_ok (Hashlib.be32_bytes w).
Proof.
  unfold Hashlib.be32_bytes. repeat constructor; apply Z.mod_pos_bound; lia.
Qed.

Lemma sha256_digest (data : list Z) :
  bytes_ok (Hashlib.sha256 data) /\ length (Hashlib.sha256 data) = 32%nat.
Proof.
  unfold Hashlib.sha256.
  set (s := fold_left Hashlib.compress256 (Hashlib.padded_blocks data) Hashlib.init256).
  split.
  - unfold bytes_ok. rewrite !Forall_app. repeat split; apply be32_bytes_ok.
  - reflexivity.
Qed.

Lemma sha1_digest (data : list Z) :
  bytes_ok (Hashlib.sha1 data) /\ length (Hashlib.sha1 data) = 20%nat.
Proof.
  unfold Hashlib.sha1.
  set (s := fold_left Hashlib.compress1 (Hashlib.padded_blocks data) Hashlib.init1).
  split.
  - unfold bytes_ok. rewrite !Forall_app. repeat split; apply be32_bytes_ok.
  - reflexivity.
Qed.

(** The comparison of the decrypted text with a digest, in numbers. *)
Lemma dec_hash_match (dec : Z) (k : nat) (digest : list Z) :
  0 <= dec -> bytes_ok digest -> (2 * length digest = k)%nat -> (2 <= k)%nat ->
  Hex.text_eqb (Py.slice_from (Hex.fmt_X dec) (- Z.of_nat k))
               (Hex.upper (Hex.hexdigest digest)) = true <->
  16 ^ (Z.of_nat k - 1) <= dec /\ dec mod 16 ^ Z.of_nat k = Rsa.digest_int digest.
Proof.
  intros Hdec Hd Hk Hk2.
  destruct (hexdigest_digits digest Hd) as (Eh & Hokh & Hlh & Hvh).
  destruct (digits_of_spec dec Hdec) as (Hok & Hval & Hl1 & Hlow).
  rewrite text_eqb_true, Eh. unfold Hex.fmt_X, Py.slice_from.
  destruct (dec <? 0) eqn:E; [apply Z.ltb_lt in E; lia|].
  set (D := Hex.digits_of dec) in *.
  unfold Py.len in *. rewrite length_map.
  unfold Py.norm_index.
  destruct (- Z.of_nat k <? 0) eqn:E2; [|apply Z.ltb_ge in E2; lia].
  destruct (Nat.le_gt_cases k (length D)) as [Hle|Hgt].
  - replace (Z.to_nat (Z.max 0 (- Z.of_nat k + Z.of_nat (length D))))
      with (length D - k)%nat by lia.
    rewrite skipn_map.
    assert (Hsk : digits_ok (skipn (length D - k) D)).
    { unfold digits_ok in *. rewrite <- (firstn_skipn (length D - k) D) in Hok.
      apply Forall_app in Hok. tauto. }
    pose proof (dval_last D k Hok Hle) as Hlast. rewrite Hval in Hlast.
    assert (Hbig : 16 ^ (Z.of_nat k - 1) <= dec).
    { destruct Hlow as [->|Hlow].
      - exfalso. subst D. cbn in Hle. lia.
      - eapply Z.le_trans; [|exact Hlow]. apply Z.pow_le_mono_r; lia. }
    split.
    + intros Heq. apply map_hexc_inj in Heq; [|assumption|assumption].
      split; [assumption|]. rewrite <- Hlast, Heq. assumption.
    + intros [_ Hm]. f_equal. apply dval_inj; try assumption.
      * rewrite length_skipn. lia.
      * rewrite Hlast, Hm. symmetry. assumption.
  - replace (Z.to_nat (Z.max 0 (- Z.of_nat k + Z.of_nat (length D)))) with 0%nat by lia.
    cbn [skipn].
    pose proof (dval_bound D Hok) as Hb. rewrite Hval in Hb. unfold Py.len in Hb.
    assert (Hsmall : dec < 16 ^ (Z.of_nat k - 1)).
    { eapply Z.lt_le_trans; [apply Hb|]. apply Z.pow_le_mono_r; lia. }
    split.
    + intros Heq. apply (f_equal (@length ascii)) in Heq.
      rewrite !length_map in Heq. lia.
    + intros [Hge _]. lia.
Qed.

End RsaFacts.

Section RsaVerdict.

Lemma uses_sha1_iff (variant : String.string) (major : Z) :
  Rsa.uses_sha1 variant major = true <->
  (variant = "ME" /\ major < 6) \/ (variant = "SPS" /\ major < 2).
Proof.
  unfold Rsa.uses_sha1.
  rewrite orb_true_iff, !andb_true_iff, !String.eqb_eq, !Z.ltb_lt. reflexivity.
Qed.

Lemma rsa_sig_val_zero_modulus reading variant major k check_start :
  Rsa.words_to_int (Rsa.RsaPubKey k) = Some 0 ->
  Rsa.words_to_int (Rsa.RsaSig k) <> None ->
  Rsa.rsa_sig_val reading variant major k check_start = Rsa.SigError.
Proof.
  intros Hk Hs. unfold Rsa.rsa_sig_val. rewrite Hk.
  destruct (Rsa.words_to_int (Rsa.RsaSig k)); [reflexivity|congruence].
Qed.

End RsaVerdict.

(** C2, as stated, fails on this input: the key and the signature are
    read with [%0.8X], zero padded, and the slices are marked 160-bit and
    256-bit, but the decrypted value alone is rendered by [%X], without
    leading zeros, so when it is shorter than 64 digits the text comparison
    fails although its low 256 bits are the digest.  Here the signature of
    [RsaExample.manifest_image] decrypts to the very SHA-256 digest of the
    signed bytes, whose first digit is 0, and the verdict is "invalid". *)
Lemma rsa_sig_val_short_value_rejected :
  let k := Struct.manifest_key_of RsaExample.manifest_image in
  let dec := Rsa.le_words (Rsa.RsaSig k) ^ Rsa.RsaPubExp k
             mod Rsa.le_words (Rsa.RsaPubKey k) in
  dec mod 2 ^ 256
    = Rsa.digest_int (Hashlib.sha256 (Rsa.signed_data RsaExample.manifest_image k 0)) /\
  sig_valid (Rsa.rsa_sig_val RsaExample.manifest_image "ME" 11 k 0) = false /\
  sig_error (Rsa.rsa_sig_val RsaExample.manifest_image "ME" 11 k 0) = false.
Proof.
  intros k dec. split; [|split].
  - assert (Hexp : Rsa.RsaPubExp k = 17) by (vm_compute; reflexivity).
    assert (Hm : 0 < Rsa.le_words (Rsa.RsaPubKey k)) by (vm_compute; reflexivity).
    pose proof (pow_mod_pos_spec (Rsa.le_words (Rsa.RsaSig k)) _ 17 Hm) as Hp.
    unfold dec. rewrite Hexp, <- Hp. vm_compute. reflexivity.
  - vm_compute. reflexivity.
  - vm_compute. reflexivity.
Qed.

(** C2 (what the code computes): with a non-zero modulus, [rsa_sig_val]
    raises signature^exponent modulo the key, both taken from the manifest, hashes
    the 0x80 bytes at the check start followed by the bytes from
    [HeaderLength*4] to [Size*4] with SHA-1 when (ME and major < 6) or (SPS
    and major < 2) and with SHA-256 otherwise, and its verdict is "valid"
    exactly when the decrypted value has at least 40 (resp. 64) hexadecimal
    digits and its low 160 (resp. 256) bits are the digest. *)
Theorem rsa_sig_val_verdict (reading : Py.bytes) (variant : String.string)
    (major : Z) (k : Rsa.manifest_key) (check_start : Z)
    (Hkey : words_ok (Rsa.RsaPubKey k)) (Hsig : words_ok (Rsa.RsaSig k))
    (Hkey_len : length (Rsa.RsaPubKey k) = 64%nat)
    (Hsig_len : length (Rsa.RsaSig k) = 64%nat)
    (Hexp : 0 <= Rsa.RsaPubExp k)
    (Hmod : Rsa.le_words (Rsa.RsaPubKey k) <> 0) :
  let dec := Rsa.le_words (Rsa.RsaSig k) ^ Rsa.RsaPubExp k
             mod Rsa.le_words (Rsa.RsaPubKey k) in
  let data := Py.slice reading check_start (check_start + 0x80)
              ++ Py.slice reading (check_start + Rsa.HeaderLength k * 4)
                                  (check_start + Rsa.Size k * 4) in
  ((variant = "ME" /\ major < 6) \/ (variant = "SPS" /\ major < 2) ->
   exists valid dec_hash,
     Rsa.rsa_sig_val reading variant major k check_start
       = Rsa.SigChecked valid dec_hash (Hex.upper (Hex.hexdigest (Hashlib.sha1 data))) /\
     (valid = true <->
      16 ^ 39 <= dec /\ dec mod 2 ^ 160 = Rsa.digest_int (Hashlib.sha1 data))) /\
  (~ ((variant = "ME" /\ major < 6) \/ (variant = "SPS" /\ major < 2)) ->
   exists valid dec_hash,
     Rsa.rsa_sig_val reading variant major k check_start
       = Rsa.SigChecked valid dec_hash (Hex.upper (Hex.hexdigest (Hashlib.sha256 data))) /\
     (valid = true <->
      16 ^ 63 <= dec /\ dec mod 2 ^ 256 = Rsa.digest_int (Hashlib.sha256 data))).
Proof.
  intros dec data.
  assert (Hk : Rsa.words_to_int (Rsa.RsaPubKey k) = Some (Rsa.le_words (Rsa.RsaPubKey k))).
  { apply words_to_int_le; [assumption|]. intros E. rewrite E in Hkey_len. discriminate. }
  assert (Hs : Rsa.words_to_int (Rsa.RsaSig k) = Some (Rsa.le_words (Rsa.RsaSig k))).
  { apply words_to_int_le; [assumption|]. intros E. rewrite E in Hsig_len. discriminate. }
  pose proof (le_words_nonneg _ Hkey) as Hpos.
  assert (Hdec : 0 <= dec) by (apply Z.mod_pos_bound; lia).
  assert (Hrun : forall b, Rsa.uses_sha1 variant major = b ->
    Rsa.rsa_sig_val reading variant major k check_start =
    if b then
      Rsa.SigChecked (Hex.text_eqb (Py.slice_from (Hex.fmt_X dec) (-40))
                        (Hex.upper (Hex.hexdigest (Hashlib.sha1 data))))
                     (Py.slice_from (Hex.fmt_X dec) (-40))
                     (Hex.upper (Hex.hexdigest (Hashlib.sha1 data)))
    else
      Rsa.SigChecked (Hex.text_eqb (Py.slice_from (Hex.fmt_X dec) (-64))
                        (Hex.upper (Hex.hexdigest (Hashlib.sha256 data))))
                     (Py.slice_from (Hex.fmt_X dec) (-64))
                     (Hex.upper (Hex.hexdigest (Hashlib.sha256 data)))).
  { intros b Hb. unfold Rsa.rsa_sig_val. rewrite Hk, Hs.
    rewrite py_pow_spec by lia. cbv zeta. rewrite Hb. reflexivity. }
  split; intros Hc.
  - apply uses_sha1_iff in Hc. rewrite (Hrun true Hc).
    eexists. eexists. split; [reflexivity|].
    destruct (sha1_digest data) as [Hok Hlen].
    pose proof (dec_hash_match dec 40 (Hashlib.sha1 data) Hdec Hok) as M.
    rewrite Hlen in M. specialize (M eq_refl ltac:(lia)).
    change (- Z.of_nat 40) with (-40) in M.
    change (Z.of_nat 40 - 1) with 39 in M.
    replace (16 ^ Z.of_nat 40) with (2 ^ 160) in M by reflexivity.
    exact M.
  - assert (Hb : Rsa.uses_sha1 variant major = false).
    { destruct (Rsa.uses_sha1 variant major) eqn:E; [|reflexivity].
      apply uses_sha1_iff in E. contradiction. }
    rewrite (Hrun false Hb).
    eexists. eexists. split; [reflexivity|].
    destruct (sha256_digest data) as [Hok Hlen].
    pose proof (dec_hash_match dec 64 (Hashlib.sha256 data) Hdec Hok) as M.
    rewrite Hlen in M. specialize (M eq_refl ltac:(lia)).
    change (- Z.of_nat 64) with (-64) in M.
    change (Z.of_nat 64 - 1) with 63 in M.
    replace (16 ^ Z.of_nat 64) with (2 ^ 256) in M by reflexivity.
    exact M.
Qed.

Lemma words_okb_ok (ws : list Z) : words_okb ws = true -> words_ok ws.
Proof.
  unfold words_okb, words_ok. rewrite forallb_forall, Forall_forall.
  intros H w Hw. specialize (H w Hw). apply andb_true_iff in H as [H1 H2].
  apply Z.leb_le in H1. apply Z.ltb_lt in H2. lia.
Qed.

Lemma rsa_sig_val_verdict_witness :
  let k := Struct.manifest_key_of RsaExample.manifest_image in
  let dec := Rsa.le_words (Rsa.RsaSig k) ^ Rsa.RsaPubExp k
             mod Rsa.le_words (Rsa.RsaPubKey k) in
  let data := Py.slice RsaExample.manifest_image 0 (0 + 0x80)
              ++ Py.slice RsaExample.manifest_image (0 + Rsa.HeaderLength k * 4)
                                                    (0 + Rsa.Size k * 4) in
  exists valid dec_hash,
    Rsa.rsa_sig_val RsaExample.manifest_image "ME" 11 k 0
      = Rsa.SigChecked valid dec_hash (Hex.upper (Hex.hexdigest (Hashlib.sha256 data))) /\
    (valid = true <->
     16 ^ 63 <= dec /\ dec mod 2 ^ 256 = Rsa.digest_int (Hashlib.sha256 data)).
Proof.
  intros k dec data.
  refine (proj2 (rsa_sig_val_verdict RsaExample.manifest_image "ME" 11 k 0
                   _ _ _ _ _ _) _).
  - apply words_okb_ok. vm_compute. reflexivity.
  - apply words_okb_ok. vm_compute. reflexivity.
  - vm_compute. reflexivity.
  - vm_compute. reflexivity.
  - vm_compute. discriminate.
  - vm_compute. discriminate.
  - intros [[_ H]|[H _]]; [vm_compute in H|]; discriminate.
Defined.

(** C8 (the code departs from the claim): with the hashes of IBBL, IBB and OBB
    declared, (1) when IBBL and IBB have no CPD entry and OBB has one, the
    deletion by stored indices removes IBBL and then the row that has moved to
    index 1, which is OBB: the absent IBB stays and the present OBB is lost;
    (2) when all three are absent beside one data module, the third deletion
    is out of range (IndexError); (3) when the partition holds no module
    entry at all, nothing is removed. *)
Theorem ibbp_removal_several_absent :
  let h := repeat "A"%char 64 in
  let declared := [Ibbp.declared_row "IBBL" h; Ibbp.declared_row "IBB" h;
                   Ibbp.declared_row "OBB" h] in
  option_map Ibbp.names (Ibbp.remove_missing_ibbp ["OBB"] declared) = Some ["IBB"] /\
  Ibbp.remove_missing_ibbp ["DATA"] (declared ++ [Ibbp.data_row "DATA" 0x1000 0x100])
    = None /\
  option_map Ibbp.names (Ibbp.remove_missing_ibbp [] declared)
    = Some ["IBBL"; "IBB"; "OBB"].
Proof. repeat split. Qed.

Section LzmaModule.

Import Attr ModAnl.



End LzmaModule.




Section WalkFacts.

Import Struct Walk.

Lemma bytes_okb_ok (data : list Z) : bytes_okb data = true -> bytes_ok data.
Proof.
  unfold bytes_okb, bytes_ok. rewrite forallb_forall, Forall_forall.
  intros H b Hb. specialize (H b Hb). apply andb_true_iff in H as [H1 H2].
  apply Z.leb_le in H1. apply Z.ltb_lt in H2. lia.
Qed.

Lemma bytes_ok_firstn (n : nat) (l : list Z) : bytes_ok l -> bytes_ok (firstn n l).
Proof.
  unfold bytes_ok. intros H. rewrite <- (firstn_skipn n l) in H.
  apply Forall_app in H. tauto.
Qed.

Lemma bytes_ok_skipn (n : nat) (l : list Z) : bytes_ok l -> bytes_ok (skipn n l).
Proof.
  unfold bytes_ok. intros H. rewrite <- (firstn_skipn n l) in H.
  apply Forall_app in H. tauto.
Qed.

Lemma bytes_ok_slice (l : list Z) (a b : Z) : bytes_ok l -> bytes_ok (Py.slice l a b).
Proof. intros H. unfold Py.slice. apply bytes_ok_firstn, bytes_ok_skipn, H. Qed.

Lemma int_le_bound (l : list Z) : bytes_ok l ->
  0 <= Py.int_from_bytes_little l < 256 ^ Py.len l.
Proof.
  unfold Py.len. induction 1 as [|b t Hb Ht IH]; cbn [Py.int_from_bytes_little length].
  - cbn. lia.
  - rewrite Nat2Z.inj_succ, Z.pow_succ_r by lia. lia.
Qed.

Lemma u32_range (data : list Z) (off : Z) : bytes_ok data -> 0 <= u32 data off < 2 ^ 32.
Proof.
  intros H. unfold u32, field.
  set (l := firstn (Z.to_nat 4) (skipn (Z.to_nat off) data)).
  assert (Hl : bytes_ok l) by (apply bytes_ok_firstn, bytes_ok_skipn, H).
  pose proof (int_le_bound l Hl) as B.
  assert (Hlen : Py.len l <= 4).
  { unfold Py.len, l. rewrite length_firstn. lia. }
  assert (256 ^ Py.len l <= 256 ^ 4).
  { apply Z.pow_le_mono_r; [lia|]. unfold Py.len in *. lia. }
  change (256 ^ 4) with (2 ^ 32) in *. lia.
Qed.

Lemma get_struct_fit (str_ : Py.bytes) (off len file_end : Z) (data : Py.bytes) :
  get_struct str_ off len file_end = Fit data -> data = Py.slice str_ off (off + len).
Proof.
  unfold get_struct.
  destruct ((off >? file_end) || _); intros H; [discriminate|congruence].
Qed.

Lemma entry_scan_fold (reading : Py.bytes) (file_end p : Z) :
  bytes_ok reading ->
  forall (n : nat) (entry ol el ol' el' : Z),
    entry_scan reading file_end p n entry ol el = ScanDone ol' el' ->
    (ol', el') = scan_fold (scanned reading p n entry) (ol, el).
Proof.
  intros Hok. induction n as [|n IH]; intros entry ol el ol' el' H.
  - cbn in H. injection H as <- <-. reflexivity.
  - cbn [entry_scan scanned] in *.
    destruct (get_struct reading (p + 0x10 + entry * 0x18) sizeof_CPD_Entry file_end)
      as [e|o] eqn:G; [|discriminate].
    apply get_struct_fit in G. unfold sizeof_CPD_Entry in G. rewrite <- G.
    assert (Hw : 0 <= u32 e 0x0C < 2 ^ 32).
    { apply u32_range. rewrite G. apply bytes_ok_slice, Hok. }
    rewrite (cpd_mod_off_low25 _ Hw) in H.
    destruct (negb (contains dot_met (chars e 0x00 12))
              && negb (contains dot_man (chars e 0x00 12))).
    + unfold scan_fold. cbn [fold_left fst snd].
      destruct (u32 e 0x0C mod 2 ^ 25 >? ol); apply IH in H; exact H.
    + injection H as <- <-. reflexivity.
Qed.

Lemma gtb_true (a b : Z) : (a >? b) = true <-> b < a.
Proof. apply Z.gtb_lt. Qed.

Lemma gtb_false (a b : Z) : (a >? b) = false <-> a <= b.
Proof. rewrite Z.gtb_ltb. apply Z.ltb_ge. Qed.

Lemma scan_fold_max (l : list (Z * Z)) : forall (ol el : Z), 0 <= ol ->
  scan_fold l (ol, el) =
  if max_offset l >? ol
  then (max_offset l, entry_end (find (fun e => fst e =? max_offset l) l))
  else (ol, el).
Proof.
  induction l as [|[o sz] t IH]; intros ol el Hol.
  - cbn [max_offset map fold_right scan_fold fold_left].
    destruct (0 >? ol) eqn:E; [apply gtb_true in E; lia|reflexivity].
  - unfold scan_fold in *. cbn [fold_left fst snd].
    change (max_offset ((o, sz) :: t)) with (Z.max o (max_offset t)).
    cbn [find fst].
    destruct (o >? ol) eqn:E1.
    + apply gtb_true in E1. rewrite IH by lia.
      destruct (max_offset t >? o) eqn:E2.
      * apply gtb_true in E2. rewrite Z.max_r by lia.
        destruct (max_offset t >? ol) eqn:E3; [|apply gtb_false in E3; lia].
        destruct (o =? max_offset t) eqn:E4; [apply Z.eqb_eq in E4; lia|reflexivity].
      * apply gtb_false in E2. rewrite Z.max_l by lia.
        destruct (o >? ol) eqn:E3; [|apply gtb_false in E3; lia].
        rewrite Z.eqb_refl. reflexivity.
    + apply gtb_false in E1. rewrite IH by lia.
      destruct (max_offset t >? ol) eqn:E2.
      * pose proof E2 as E3. apply gtb_true in E3. rewrite Z.max_r by lia. rewrite E2.
        destruct (o =? max_offset t) eqn:E4; [apply Z.eqb_eq in E4; lia|reflexivity].
      * apply gtb_false in E2.
        destruct (Z.max o (max_offset t) >? ol) eqn:E3; [apply gtb_true in E3; lia|].
        reflexivity.
Qed.

Lemma scan_fold_start (l : list (Z * Z)) :
  snd (scan_fold l (0, 0)) = last_entry_end l.
Proof.
  rewrite scan_fold_max by lia. unfold last_entry_end.
  destruct (max_offset l >? 0) eqn:E.
  - apply gtb_true in E. cbn [snd].
    destruct (find (fun e => fst e =? max_offset l) l) as [[o sz]|] eqn:F; [|reflexivity].
    apply find_some in F as [_ F]. cbn [fst] in F. apply Z.eqb_eq in F.
    cbn [entry_end]. destruct (0 <? o) eqn:E2; [reflexivity|].
    apply Z.ltb_ge in E2. lia.
  - apply gtb_false in E. cbn [snd].
    destruct (find (fun e => fst e =? max_offset l) l) as [[o sz]|] eqn:F; [|reflexivity].
    apply find_some in F as [_ F]. cbn [fst] in F. apply Z.eqb_eq in F.
    destruct (0 <? o) eqn:E2; [apply Z.ltb_lt in E2; lia|reflexivity].
Qed.

(** On the image whose partition declares the size 0 and lists no module,
    the body of the loop runs to its end and leaves [p_end_last] where it
    was. *)
Lemma stuck_step (b : bool) (c : Z) (id : option Z)
    (parts : list (Py.bytes * Z * Z * option Z)) :
  walk_step b Images.stuck_image (Py.len Images.stuck_image)
            (MkState 0x100 c 0 0 id parts)
  = Next (MkState 0x100 0 0 0 (Some 1)
            (if b then parts ++ [([0x4C; 0x4F; 0x43; 0x4C], 0x100, 0x100, Some 1)]
             else parts)).
Proof. destruct b; vm_compute; reflexivity. Qed.

End WalkFacts.

Lemma stuck_loop (b : bool) (fuel : nat) : forall (c : Z) (id : option Z)
    (parts : list (Py.bytes * Z * Z * option Z)),
  Walk.walk_loop b Images.stuck_image (Py.len Images.stuck_image) fuel
                 (Walk.MkState 0x100 c 0 0 id parts) = None.
Proof.
  induction fuel as [|fuel IH]; intros c id parts; [reflexivity|].
  cbn [Walk.walk_loop]. rewrite stuck_step. apply IH.
Qed.

(** C5 (the code departs from the claim): the loop has no test of forward
    progress.  On [Images.stuck_image], whose partition at 0x100 holds only
    its manifest and declares the partition size 0, every iteration adds
    [max(0, 0)] to [p_end_last], so the [while] test holds again: the loop is
    still running after any number of iterations, with or without -unp86. *)
Theorem uncharted_walk_spins (me11_mod_extr : bool) (fuel : nat) :
  Walk.walk_loop me11_mod_extr Images.stuck_image (Py.len Images.stuck_image)
                 fuel (Walk.start 0x100) = None.
Proof. apply stuck_loop. Qed.

(** C6, as stated, fails: in [Images.odd_metadata_image] the module [A]
    (offset 0x400, size 0x200) sits at index 2; the scan visits index 1 only,
    finds a metadata name there and stops, so the partition is given the
    size 0x100 of Extension 0x03, not the 0x600 where [A] ends. *)
Lemma uncharted_size_skips_even_entries :
  let img := Images.odd_metadata_image in
  exists s',
    Walk.walk_step false img (Py.len img) (Walk.start 0) = Walk.Next s' /\
    Walk.p_end_last s' - 0 = 0x100 /\
    Z.max (Walk.partition_size img 0)
          (Walk.max_end (Walk.all_entries img 0 (Z.to_nat (Walk.num_modules img 0)) 0))
    = 0x600.
Proof. eexists. repeat split. Qed.

(** C6 (amended): for a CPD partition that the walk accepts while its running
    maxima still are 0 (the first uncharted partition of an image), the
    inferred size is the larger of the PartitionSize of its Extension 0x03 and
    the end (offset + size) of the scanned entry that starts last, where the
    scanned entries are those at the odd indices, up to the first whose name
    holds [.met] or [.man]. *)
Theorem uncharted_cpd_partition_size (me11_mod_extr : bool) (reading : Py.bytes)
    (file_end : Z) (s s' : Walk.state)
    (Hok : bytes_ok reading)
    (Hoff : Walk.cpd_offset_last s = 0) (Hend : Walk.cpd_end_last s = 0)
    (Hstep : Walk.walk_step me11_mod_extr reading file_end s = Walk.Next s') :
  let p := Walk.p_end_last s in
  Walk.p_end_last s' - p =
  Z.max (Walk.partition_size reading p)
        (Walk.last_entry_end
           (Walk.scanned reading p (Walk.odd_count (Walk.num_modules reading p)) 1)).
Proof.
  intros p. unfold Walk.walk_step in Hstep. fold p in Hstep.
  destruct (negb (Walk.bytes_eqb (Py.slice reading p (p + 4)) Walk.tag_CPD));
    [discriminate|].
  destruct (Struct.get_struct reading p Struct.sizeof_CPD_Header file_end)
    as [cpd_hdr|] eqn:G1; [|discriminate].
  apply get_struct_fit in G1. unfold Struct.sizeof_CPD_Header in G1.
  cbv zeta in Hstep.
  destruct (Struct.get_struct reading (p + 16 + Struct.u32 cpd_hdr 4 * 24)
              Struct.sizeof_MN2_Manifest file_end) as [mn2_hdr|] eqn:G2; [|discriminate].
  apply get_struct_fit in G2. unfold Struct.sizeof_MN2_Manifest in G2.
  destruct (Walk.bytes_eqb (Struct.chars mn2_hdr 28 4) Walk.tag_MN2); [|discriminate].
  destruct (Struct.get_struct reading
              (p + 16 + Struct.u32 cpd_hdr 4 * 24 + Struct.u32 mn2_hdr 4 * 4)
              Struct.sizeof_CPD_Ext_03 file_end) as [ext|] eqn:G3; [|discriminate].
  apply get_struct_fit in G3. unfold Struct.sizeof_CPD_Ext_03 in G3.
  destruct (Walk.bytes_eqb (Struct.chars ext 8 4) (Struct.chars cpd_hdr 12 4));
    [|discriminate].
  destruct (Walk.entry_scan reading file_end p (Walk.odd_count (Struct.u32 cpd_hdr 4)) 1
              (Walk.cpd_offset_last s) (Walk.cpd_end_last s))
    as [ol el| |] eqn:Sc; try discriminate.
  injection Hstep as <-. cbn [Walk.p_end_last].
  rewrite Hoff, Hend in Sc. apply (entry_scan_fold reading file_end p Hok) in Sc.
  apply (f_equal snd) in Sc. cbn [snd] in Sc. rewrite scan_fold_start in Sc.
  unfold Walk.partition_size, Walk.num_modules.
  rewrite <- G1, <- G2, <- G3, Sc. lia.
Qed.

Lemma uncharted_cpd_partition_size_witness :
  exists s',
    Walk.walk_step true Images.two_module_image (Py.len Images.two_module_image)
                   (Walk.start 0) = Walk.Next s' /\
    Walk.p_end_last s' - 0 = 0x900.
Proof.
  assert (Hok : bytes_ok Images.two_module_image).
  { apply bytes_okb_ok. vm_compute. reflexivity. }
  destruct (Walk.walk_step true Images.two_module_image
              (Py.len Images.two_module_image) (Walk.start 0))
    as [s'|s'|o|] eqn:E; try (vm_compute in E; discriminate).
  exists s'. split; [reflexivity|].
  pose proof (uncharted_cpd_partition_size true Images.two_module_image
                (Py.len Images.two_module_image) (Walk.start 0) s'
                Hok eq_refl eq_refl E) as H.
  cbv zeta in H. change (Walk.p_end_last (Walk.start 0)) with 0 in H.
  rewrite H. vm_compute. reflexivity.
Defined.

Section BatchFacts.

Import Batch.

Variable St : Type.
Variable st0 : St.
Variable no_manifest_branch : Py.bytes -> flow unit.
Variable bpdt_body : Py.bytes -> St -> Z -> flow St.
Variable after_fpt_header : Py.bytes -> St -> Z -> Py.bytes -> flow unit.
Variable without_fpt : Py.bytes -> St -> flow unit.
Variable amt1_analysis : Py.bytes -> flow unit.

Let analyse' := analyse St st0 no_manifest_branch bpdt_body after_fpt_header
                        without_fpt amt1_analysis.
Let main_loop' := main_loop St st0 no_manifest_branch bpdt_body after_fpt_header
                            without_fpt amt1_analysis.
Let no_exit' := no_exit St st0 no_manifest_branch bpdt_body after_fpt_header
                        without_fpt amt1_analysis.

(** An image with a manifest anchor, no BPDT signature and a $FPT signature
    whose header does not fit the file ends the process with code 1,
    whatever the rest of the analysis would do. *)
Lemma analyse_truncated_fpt (img : Py.bytes) (first o : Z) :
  search man_pat img <> None ->
  finditer bpdt_pat img = [] ->
  hd_error (finditer fpt_pat img) = Some first ->
  Struct.get_struct img (fpt_start img first) Struct.sizeof_FPT_Header (Py.len img)
    = Struct.OutOfBounds o ->
  analyse' img = SysExit 1.
Proof.
  intros Hman Hbpdt Hfpt Hoob. unfold analyse', analyse.
  destruct (search man_pat img) as [m|]; [|congruence].
  cbv zeta. rewrite Hbpdt. cbn [bpdt_loop bind].
  destruct (finditer fpt_pat img) as [|f t]; [discriminate|].
  cbn in Hfpt. injection Hfpt as ->.
  unfold get_struct. rewrite Hoob. reflexivity.
Qed.

Lemma main_loop_no_exit (source : list Py.bytes) :
  Forall no_exit' source -> main_loop' source = (source, 0).
Proof.
  induction 1 as [|f t Hf Ht IH]; [reflexivity|].
  unfold main_loop' in *. cbn [main_loop]. fold analyse'.
  destruct (analyse' f) as [[]| |c] eqn:E.
  - rewrite IH. reflexivity.
  - rewrite IH. reflexivity.
  - exfalso. exact (Hf c E).
Qed.

Lemma main_loop_exit (pre post : list Py.bytes) (img : Py.bytes) (c : Z) :
  Forall no_exit' pre -> analyse' img = SysExit c ->
  main_loop' (pre ++ img :: post) = (pre ++ [img], c).
Proof.
  intros Hpre Himg. induction Hpre as [|f t Hf Ht IH].
  - unfold main_loop'. cbn [app main_loop]. fold analyse'. rewrite Himg. reflexivity.
  - unfold main_loop' in *. cbn [app main_loop]. fold analyse'.
    destruct (analyse' f) as [[]| |c'] eqn:E.
    + rewrite IH. reflexivity.
    + rewrite IH. reflexivity.
    + exfalso. exact (Hf c' E).
Qed.

End BatchFacts.

(** C4, as stated, fails: in a batch of two files of which the first is cut
    right after a $FPT signature, the header read of the first is out of
    bounds, [get_struct] calls [mea_exit(1)], and the second file is never
    analysed (here with the rest of the analysis taken as harmless). *)
Lemma batch_aborted_by_truncated_image :
  Batch.main_loop unit tt (fun _ => Batch.NextFile) (fun _ st _ => Batch.Ret st)
                  (fun _ _ _ _ => Batch.Ret tt) (fun _ _ => Batch.Ret tt)
                  (fun _ => Batch.Ret tt)
                  [Batch.truncated_image; Images.two_module_image]
  = ([Batch.truncated_image], 1).
Proof. vm_compute. reflexivity. Qed.

(** C4 (amended): in a batch run, the images whose analysis ends without an
    exit (among them those skipped by [continue] because no firmware was
    found) never stop the run: all the files are analysed and the exit code
    is 0.  An out-of-bounds structure read, however, ends the whole run: when
    the $FPT header of an image with a manifest anchor and no BPDT signature
    does not fit the file, the process exits with code 1 and the images after
    it are not analysed, whatever the rest of the analysis does. *)
Theorem batch_out_of_bounds_ends_run (St : Type) (st0 : St)
    (no_manifest_branch : Py.bytes -> Batch.flow unit)
    (bpdt_body : Py.bytes -> St -> Z -> Batch.flow St)
    (after_fpt_header : Py.bytes -> St -> Z -> Py.bytes -> Batch.flow unit)
    (without_fpt : Py.bytes -> St -> Batch.flow unit)
    (amt1_analysis : Py.bytes -> Batch.flow unit)
    (pre post : list Py.bytes) (img : Py.bytes) (first o : Z)
    (Hpre : Forall (Batch.no_exit St st0 no_manifest_branch bpdt_body after_fpt_header
                                  without_fpt amt1_analysis) pre)
    (Hman : Batch.search Batch.man_pat img <> None)
    (Hbpdt : Batch.finditer Batch.bpdt_pat img = [])
    (Hfpt : hd_error (Batch.finditer Batch.fpt_pat img) = Some first)
    (Hoob : Struct.get_struct img (Batch.fpt_start img first) Struct.sizeof_FPT_Header
                              (Py.len img) = Struct.OutOfBounds o) :
  Batch.main_loop St st0 no_manifest_branch bpdt_body after_fpt_header without_fpt
                  amt1_analysis pre = (pre, 0) /\
  Batch.main_loop St st0 no_manifest_branch bpdt_body after_fpt_header without_fpt
                  amt1_analysis (pre ++ img :: post) = (pre ++ [img], 1).
Proof.
  split.
  - apply main_loop_no_exit. assumption.
  - apply main_loop_exit; [assumption|].
    apply (analyse_truncated_fpt St st0 no_manifest_branch bpdt_body after_fpt_header
             without_fpt amt1_analysis img first o); assumption.
Qed.

Lemma batch_out_of_bounds_ends_run_witness :
  Batch.main_loop unit tt (fun _ => Batch.NextFile) (fun _ st _ => Batch.Ret st)
                  (fun _ _ _ _ => Batch.Ret tt) (fun _ _ => Batch.Ret tt)
                  (fun _ => Batch.Ret tt)
                  ([[1; 2; 3]] ++ Batch.truncated_image :: [[4]])
  = ([[1; 2; 3]] ++ [Batch.truncated_image], 1).
Proof.
  refine (proj2 (batch_out_of_bounds_ends_run unit tt (fun _ => Batch.NextFile)
                   (fun _ st _ => Batch.Ret st) (fun _ _ _ _ => Batch.Ret tt)
                   (fun _ _ => Batch.Ret tt) (fun _ => Batch.Ret tt)
                   [[1; 2; 3]] [[4]] Batch.truncated_image 5 5 _ _ _ _ _)).
  - constructor; [|constructor]. intros c. vm_compute. discriminate.
  - vm_compute. discriminate.
  - vm_compute. reflexivity.
  - vm_compute. reflexivity.
  - vm_compute. reflexivity.
Defined.

Section ExtFacts.

Import Ext.




Lemma good_ok {A : Type} (a : A) : good (Ok a).
Proof. exact I. Qed.











End ExtFacts.



(** A chain of extensions of declared length 0 is cut by the forced break
    after 100 turns, with its error stored. *)
Example ext_scan_zero_lengths :
  match Ext.ext_scan (context_of (repeat 0 0x200) false "X.met" 0x200) 0 Ext.empty_accum with
  | Ext.Ok (e, n, a) =>
      e = Ext.ForcedBreak /\ n = 101 /\
      Ext.err_stor a = [Ext.ForcedBreakMsg (Images.ascii_bytes "FTPR")
                                           (Images.ascii_bytes "X.met")]
  | _ => False
  end.
Proof. vm_compute. repeat split. Qed.

(** A declared length beyond the buffer: an Extension 0x03 makes the module
    reads run into the end of the file, which [get_struct] reports before it
    exits; an unknown tag is reported and the entry ends there. *)
Example ext_scan_oversized_lengths :
  Ext.ext_scan (context_of (Images.le32 3 ++ Images.le32 0xFFFFFFFF ++ repeat 0 0x100)
                           false "X.met" 0x108) 0 Ext.empty_accum
  = Ext.Exit1 0xF4 /\
  match Ext.ext_scan (context_of (Images.le32 0x99 ++ Images.le32 0xFFFFFFFF ++ repeat 0 0x100)
                                 false "X.met" 0x108) 0 Ext.empty_accum with
  | Ext.Ok (e, n, a) =>
      e = Ext.EndReached /\ n = 1 /\
      Ext.err_stor a = [Ext.UnimplementedMsg 0x99 (Images.ascii_bytes "FTPR")
                                             (Images.ascii_bytes "X.met")]
  | _ => False
  end.
Proof. split; vm_compute; repeat split. Qed.

(** With -unp86 the module records of an Extension 0x01 are printed, and
    both names of a record are decoded: PartitionName at 0x00 and ModuleName
    at 0x04.  A record with valid names and flags FF FF FF FF is printed and
    the entry ends in order; a ModuleName that starts with 0xFF raises. *)
Example ext_scan_init_script_names :
  match Ext.ext_scan
          (context_of (Images.le32 1 ++ Images.le32 0x28 ++ Images.le32 0 ++ Images.le32 1
                       ++ Images.name_field "FTPR" 4 ++ Images.name_field "kernelabcdef" 12
                       ++ [0xFF; 0xFF; 0xFF; 0xFF] ++ Images.le32 0)
                      true "X.met" 0x28) 0 Ext.empty_accum with
  | Ext.Ok (e, n, _) => e = Ext.EndReached /\ n = 1
  | _ => False
  end /\
  Ext.ext_scan
    (context_of (Images.le32 1 ++ Images.le32 0x28 ++ Images.le32 0 ++ Images.le32 1
                 ++ Images.name_field "FTPR" 4 ++ [0xFF] ++ repeat 0 11
                 ++ Images.le32 0 ++ Images.le32 0)
                true "X.met" 0x28) 0 Ext.empty_accum
  = Ext.DecodeErr [0xFF].
Proof. split; vm_compute; repeat split. Qed.

(** * Further properties of the engine *)

Section SliceFacts.

Lemma slice_nonneg {A : Type} (s : list A) (a b : Z) : 0 <= a -> 0 <= b ->
  Py.slice s a b = firstn (Z.to_nat (b - a)) (skipn (Z.to_nat a) s).
Proof.
  intros Ha Hb. unfold Py.slice, Py.norm_index, Py.len.
  destruct (a <? 0) eqn:Ea; [lia|]. destruct (b <? 0) eqn:Eb; [lia|].
  destruct (Z.le_gt_cases (Z.of_nat (length s)) a) as [H|H].
  - rewrite !(skipn_all2 s) by lia. rewrite !firstn_nil. reflexivity.
  - rewrite (Z.min_l a) by lia.
    destruct (Z.le_gt_cases b (Z.of_nat (length s))).
    + rewrite Z.min_l by lia. reflexivity.
    + rewrite Z.min_r by lia.
      rewrite !firstn_all2; [reflexivity| |]; rewrite length_skipn; lia.
Qed.

Lemma slice_length_nonneg {A : Type} (s : list A) (a b : Z) :
  0 <= a -> a <= b -> b <= Py.len s -> Py.len (Py.slice s a b) = b - a.
Proof.
  intros Ha Hab Hb. rewrite slice_nonneg by lia. unfold Py.len in *.
  rewrite length_firstn, length_skipn. lia.
Qed.

Lemma range_step_nil (stop step : Z) : 0 < step -> stop <= 0 ->
  Builtin.range_step stop step = [].
Proof.
  intros Hs H. unfold Builtin.range_step.
  assert (E : (stop + step - 1) / step <= 0).
  { apply Z.lt_succ_r. apply Z.div_lt_upper_bound; lia. }
  replace (Z.to_nat ((stop + step - 1) / step)) with 0%nat by lia. reflexivity.
Qed.

Lemma range_step_cons (stop step : Z) : 0 < step -> 0 < stop ->
  Builtin.range_step stop step
  = 0 :: map (Z.add step) (Builtin.range_step (stop - step) step).
Proof.
  intros Hs H. unfold Builtin.range_step.
  replace (stop + step - 1) with (stop - 1 + 1 * step) by lia.
  rewrite Z.div_add by lia.
  replace (stop - step + step - 1) with (stop - 1) by lia.
  assert (0 <= (stop - 1) / step) by (apply Z.div_pos; lia).
  replace (Z.to_nat ((stop - 1) / step + 1)) with (S (Z.to_nat ((stop - 1) / step))) by lia.
  cbn [seq map]. f_equal; [lia|].
  rewrite <- seq_shift, !map_map. apply map_ext. intros k. lia.
Qed.

Lemma range_step_nonneg (stop step i : Z) : 0 < step ->
  In i (Builtin.range_step stop step) -> 0 <= i.
Proof.
  intros Hs H. unfold Builtin.range_step in H. apply in_map_iff in H.
  destruct H as (k & <- & _). lia.
Qed.

Lemma chunks_nil {A : Type} (n : Z) : 0 < n -> Builtin.chunks n (@nil A) = [].
Proof.
  intros Hn. unfold Builtin.chunks. rewrite range_step_nil by (cbn; lia). reflexivity.
Qed.

Lemma chunks_cons {A : Type} (n : Z) (s : list A) : 0 < n -> s <> [] ->
  Builtin.chunks n s
  = firstn (Z.to_nat n) s :: Builtin.chunks n (skipn (Z.to_nat n) s).
Proof.
  intros Hn Hs. unfold Builtin.chunks.
  assert (Hlen : 0 < Py.len s).
  { unfold Py.len. destruct s; [congruence|cbn [length]; lia]. }
  rewrite range_step_cons by assumption. cbn [map]. f_equal.
  - rewrite slice_nonneg by lia. cbn [Z.to_nat skipn]. f_equal. lia.
  - rewrite map_map.
    assert (E : Builtin.range_step (Py.len s - n) n
                = Builtin.range_step (Py.len (skipn (Z.to_nat n) s)) n).
    { unfold Py.len in *. rewrite length_skipn.
      destruct (Z.le_gt_cases n (Z.of_nat (length s))).
      - f_equal. lia.
      - rewrite !range_step_nil by lia. reflexivity. }
    rewrite <- E. apply map_ext_in. intros i Hi.
    apply range_step_nonneg in Hi; [|assumption].
    rewrite !slice_nonneg by lia. rewrite skipn_skipn.
    f_equal; [lia|]. f_equal. lia.
Qed.

Lemma list_ind4 {A : Type} (P : list A -> Prop) :
  P [] -> (forall a, P [a]) -> (forall a b, P [a; b]) -> (forall a b c, P [a; b; c]) ->
  (forall a b c d t, P t -> P (a :: b :: c :: d :: t)) ->
  forall l, P l.
Proof.
  intros H0 H1 H2 H3 H4.
  assert (H : forall n l, (length l <= n)%nat -> P l).
  { induction n as [|n IH]; intros l Hl.
    - destruct l; [assumption|cbn in Hl; lia].
    - destruct l as [|a [|b [|c [|d t]]]]; auto.
      apply H4. apply IH. cbn [length] in Hl. lia. }
  intros l. apply (H (length l)). lia.
Qed.

Lemma list_ind2 {A : Type} (P : list A -> Prop) :
  P [] -> (forall a, P [a]) -> (forall a b t, P t -> P (a :: b :: t)) ->
  forall l, P l.
Proof.
  intros H0 H1 H2.
  assert (H : forall n l, (length l <= n)%nat -> P l).
  { induction n as [|n IH]; intros l Hl.
    - destruct l; [assumption|cbn in Hl; lia].
    - destruct l as [|a [|b t]]; auto.
      apply H2. apply IH. cbn [length] in Hl. lia. }
  intros l. apply (H (length l)). lia.
Qed.

End SliceFacts.

Section McChkFacts.

Lemma fold_add_map {A : Type} (g : A -> Z) (l : list A) : forall acc,
  fold_left (fun c x => c + g x) l acc = acc + Py.sum (map g l).
Proof.
  induction l as [|x t IH]; intros acc.
  - cbn. lia.
  - cbn [fold_left map]. rewrite IH, sum_cons. lia.
Qed.

Lemma loop_sum_chunks (data : Py.bytes) :
  fold_left (fun chk32 idx =>
               chk32 + Py.int_from_bytes_little (Py.slice data idx (idx + 4)))
            (Builtin.range_step (Py.len data) 4) 0
  = Py.sum (map Py.int_from_bytes_little (Builtin.chunks 4 data)).
Proof.
  rewrite (fold_add_map (fun idx => Py.int_from_bytes_little (Py.slice data idx (idx + 4)))).
  unfold Builtin.chunks. rewrite map_map. lia.
Qed.

Lemma chunks_dword_sum (data : Py.bytes) :
  Py.sum (map Py.int_from_bytes_little (Builtin.chunks 4 data)) = McChk.dword_sum data.
Proof.
  induction data as [|a|a b|a b c|a b c d t IH] using list_ind4.
  - rewrite chunks_nil by lia. reflexivity.
  - rewrite chunks_cons by (lia || discriminate). change (Z.to_nat 4) with 4%nat; cbn [firstn skipn].
    rewrite chunks_nil by lia. cbn. lia.
  - rewrite chunks_cons by (lia || discriminate). change (Z.to_nat 4) with 4%nat; cbn [firstn skipn].
    rewrite chunks_nil by lia. cbn. lia.
  - rewrite chunks_cons by (lia || discriminate). change (Z.to_nat 4) with 4%nat; cbn [firstn skipn].
    rewrite chunks_nil by lia. cbn. lia.
  - rewrite chunks_cons by (lia || discriminate). change (Z.to_nat 4) with 4%nat; cbn [firstn skipn].
    cbn [map]. rewrite sum_cons, IH. reflexivity.
Qed.

Lemma mc_chk32_dword_sum (data : Py.bytes) :
  McChk.mc_chk32 data = (- McChk.dword_sum data) mod 2 ^ 32.
Proof.
  unfold McChk.mc_chk32. cbv zeta. rewrite loop_sum_chunks, chunks_dword_sum.
  change 0xFFFFFFFF with (Z.ones 32). rewrite Z.land_ones by lia. reflexivity.
Qed.

Lemma dword_sum_snoc_0 (data : Py.bytes) :
  McChk.dword_sum (data ++ [0]) = McChk.dword_sum data.
Proof.
  induction data as [|a|a b|a b c|a b c d t IH] using list_ind4;
    cbn; lia.
Qed.

Lemma dword_sum_zeroes (n : nat) : forall data,
  McChk.dword_sum (data ++ repeat 0 n) = McChk.dword_sum data.
Proof.
  induction n as [|n IH]; intros data.
  - cbn [repeat]. rewrite app_nil_r. reflexivity.
  - replace (data ++ repeat 0 (S n)) with ((data ++ [0]) ++ repeat 0 n).
    + rewrite IH. apply dword_sum_snoc_0.
    + rewrite <- app_assoc. reflexivity.
Qed.

Lemma dword_sum_app (a : Py.bytes) : forall b, (length a mod 4 = 0)%nat ->
  McChk.dword_sum (a ++ b) = McChk.dword_sum a + McChk.dword_sum b.
Proof.
  induction a as [|x|x y|x y z|x y z w t IH] using list_ind4; intros b H;
    try (cbn in H; discriminate).
  - cbn [app]. destruct b as [|? [|? [|? [|? ?]]]]; cbn; lia.
  - change ((x :: y :: z :: w :: t) ++ b) with (x :: y :: z :: w :: (t ++ b)).
    cbn [McChk.dword_sum]. rewrite IH; [lia|].
    cbn [length] in H.
    replace (S (S (S (S (length t))))) with (length t + 1 * 4)%nat in H by lia.
    rewrite Nat.Div0.mod_add in H. assumption.
Qed.

Lemma int_le32 (c : Z) : 0 <= c < 2 ^ 32 ->
  Py.int_from_bytes_little (Images.le32 c) = c.
Proof.
  intros Hc. unfold Images.le32. cbn [Py.int_from_bytes_little].
  pose proof (Z.div_mod c 256 ltac:(lia)).
  pose proof (Z.div_mod (c / 256) 256 ltac:(lia)).
  pose proof (Z.div_mod (c / 256 / 256) 256 ltac:(lia)).
  assert (E1 : c / 2 ^ 8 = c / 256) by reflexivity.
  assert (E2 : c / 2 ^ 16 = c / 256 / 256) by (rewrite Z.div_div by lia; reflexivity).
  assert (E3 : c / 2 ^ 24 = c / 256 / 256 / 256) by (rewrite !Z.div_div by lia; reflexivity).
  rewrite E1, E2, E3.
  assert (0 <= c / 256 / 256 / 256 < 256).
  { rewrite !Z.div_div by lia. split; [apply Z.div_pos; lia|].
    apply Z.div_lt_upper_bound; lia. }
  rewrite (Z.mod_small (c / 256 / 256 / 256)) by lia. lia.
Qed.

End McChkFacts.

(** X1: the microcode checksum is a 32-bit number, and zero bytes after
    the data never change it. *)
Theorem mc_chk32_trailing_zeroes (data : Py.bytes) (n : nat) :
  0 <= McChk.mc_chk32 data < 2 ^ 32 /\
  McChk.mc_chk32 (data ++ repeat 0 n) = McChk.mc_chk32 data.
Proof.
  split.
  - rewrite mc_chk32_dword_sum. apply Z.mod_pos_bound. lia.
  - rewrite !mc_chk32_dword_sum, dword_sum_zeroes. reflexivity.
Qed.

(** X3: a dword-aligned buffer followed by its own checksum, stored as a
    little-endian dword, has the checksum 0, the value that marks a
    microcode as valid. *)
Theorem mc_chk32_completes (data : Py.bytes) (Hlen : (length data mod 4 = 0)%nat) :
  McChk.mc_chk32 (data ++ Images.le32 (McChk.mc_chk32 data)) = 0.
Proof.
  assert (Hr : 0 <= McChk.mc_chk32 data < 2 ^ 32).
  { rewrite mc_chk32_dword_sum. apply Z.mod_pos_bound. lia. }
  rewrite (mc_chk32_dword_sum (data ++ _)), dword_sum_app by assumption.
  assert (E : McChk.dword_sum (Images.le32 (McChk.mc_chk32 data))
              = McChk.mc_chk32 data).
  { unfold Images.le32. cbn [McChk.dword_sum].
    change (McChk.dword_sum []) with 0. rewrite Z.add_0_r.
    apply (int_le32 _ Hr). }
  rewrite E, mc_chk32_dword_sum.
  set (S := McChk.dword_sum data).
  pose proof (Z.div_mod (- S) (2 ^ 32) ltac:(lia)) as D.
  replace (- (S + (- S) mod 2 ^ 32)) with (((- S) / 2 ^ 32) * 2 ^ 32) by lia.
  apply Z_mod_mult.
Qed.

Lemma mc_chk32_completes_witness :
  McChk.mc_chk32 ([0x10; 0x20; 0x30; 0x40]
                  ++ Images.le32 (McChk.mc_chk32 [0x10; 0x20; 0x30; 0x40])) = 0.
Proof. apply (mc_chk32_completes [0x10; 0x20; 0x30; 0x40]). reflexivity. Defined.

Section KrodFacts.

Lemma split_nil : Krod.str_split_as_bytes [] = [].
Proof. unfold Krod.str_split_as_bytes. rewrite chunks_nil by lia. reflexivity. Qed.

Lemma split_one (a : ascii) : Krod.str_split_as_bytes [a] = [a].
Proof.
  unfold Krod.str_split_as_bytes. rewrite chunks_cons by (lia || discriminate).
  change (Z.to_nat 2) with 2%nat. cbn [firstn skipn].
  rewrite chunks_nil by lia. reflexivity.
Qed.

Lemma split_two (a b : ascii) : Krod.str_split_as_bytes [a; b] = [a; b].
Proof.
  unfold Krod.str_split_as_bytes. rewrite chunks_cons by (lia || discriminate).
  change (Z.to_nat 2) with 2%nat. cbn [firstn skipn].
  rewrite chunks_nil by lia. reflexivity.
Qed.

Lemma join_cons2 {A : Type} (sep p q : list A) (rest : list (list A)) :
  Builtin.join sep (p :: q :: rest) = p ++ sep ++ Builtin.join sep (q :: rest).
Proof. cbn [Builtin.join flat_map]. rewrite <- app_assoc. reflexivity. Qed.

Lemma split_more (a b : ascii) (t : list ascii) : t <> [] ->
  Krod.str_split_as_bytes (a :: b :: t)
  = a :: b :: " "%char :: Krod.str_split_as_bytes t.
Proof.
  intros Ht. unfold Krod.str_split_as_bytes.
  rewrite chunks_cons by (lia || discriminate).
  change (Z.to_nat 2) with 2%nat. cbn [firstn skipn].
  rewrite (chunks_cons 2 t) by (lia || assumption).
  rewrite join_cons2. reflexivity.
Qed.

Lemma chunks_byte_text (l : Py.bytes) :
  Builtin.chunks 2 (flat_map Krod.byte_text l) = map Krod.byte_text l.
Proof.
  induction l as [|b t IH].
  - cbn [flat_map map]. apply chunks_nil. lia.
  - cbn [flat_map map].
    change (Krod.byte_text b ++ flat_map Krod.byte_text t)
      with (Hex.hexc (b / 16) :: Hex.hexc (b mod 16) :: flat_map Krod.byte_text t).
    rewrite chunks_cons by (lia || discriminate).
    change (Z.to_nat 2) with 2%nat. cbn [firstn skipn]. rewrite IH. reflexivity.
Qed.

Lemma upper_hex_byte_text (l : Py.bytes) : bytes_ok l ->
  Hex.upper (Hex.hexdigest l) = flat_map Krod.byte_text l.
Proof.
  intros H. destruct (hexdigest_digits l H) as [E _]. rewrite E.
  unfold byte_digits. clear. induction l as [|b t IH]; [reflexivity|].
  cbn [flat_map app map]. rewrite IH. reflexivity.
Qed.

Lemma join_length (parts : list (list ascii)) :
  Forall (fun p => length p = 2%nat) parts -> parts <> [] ->
  length (Builtin.join [" "%char] parts) = (3 * length parts - 1)%nat.
Proof.
  intros H Hne. destruct parts as [|p rest]; [congruence|].
  inversion H as [|? ? Hp Hrest]; subst. clear H Hne.
  cbn [Builtin.join]. rewrite length_app, Hp.
  assert (E : length (flat_map (fun q => [" "%char] ++ q) rest) = (3 * length rest)%nat).
  { induction Hrest as [|q r Hq Hr IH]; [reflexivity|].
    cbn [flat_map]. rewrite !length_app, IH, Hq. cbn [length]. lia. }
  rewrite E. cbn [length]. lia.
Qed.

End KrodFacts.

(** X4: on text without blanks, str_split_as_bytes only inserts blanks:
    taking them out again gives the text back; the result is longer by one
    blank for every pair of characters but the first. *)
Theorem str_split_as_bytes_round_trip (s : list ascii)
    (Hs : Forall (fun c => c <> " "%char) s) :
  Builtin.without_spaces (Krod.str_split_as_bytes s) = s /\
  Py.len (Krod.str_split_as_bytes s) = Py.len s + Z.max 0 ((Py.len s + 1) / 2 - 1).
Proof.
  induction s as [|a|a b t IH] using list_ind2.
  - rewrite split_nil. split; reflexivity.
  - rewrite split_one. inversion Hs as [|? ? Ha _]; subst. split.
    + unfold Builtin.without_spaces. cbn [filter].
      destruct (Ascii.eqb_spec a " "%char); [contradiction|reflexivity].
    + reflexivity.
  - inversion Hs as [|? ? Ha Hs1]; subst. inversion Hs1 as [|? ? Hb Ht]; subst.
    assert (Ea : Ascii.eqb a " "%char = false)
      by (destruct (Ascii.eqb_spec a " "%char); [contradiction|reflexivity]).
    assert (Eb : Ascii.eqb b " "%char = false)
      by (destruct (Ascii.eqb_spec b " "%char); [contradiction|reflexivity]).
    destruct t as [|c t'].
    + rewrite split_two. unfold Builtin.without_spaces. cbn [filter].
      rewrite Ea, Eb. split; reflexivity.
    + destruct (IH Ht) as [IH1 IH2].
      rewrite split_more by discriminate. split.
      * unfold Builtin.without_spaces in *. cbn [filter]. rewrite Ea, Eb.
        cbn [negb]. change (Ascii.eqb " " " ") with true. cbn [negb].
        rewrite IH1. reflexivity.
      * unfold Py.len in *. cbn [length] in *.
        rewrite !Nat2Z.inj_succ in *.
        set (n := Z.of_nat (length t')) in *.
        assert (0 <= n) by (unfold n; lia).
        replace (Z.succ (Z.succ (Z.succ n)) + 1) with (Z.succ n + 1 + 1 * 2) by lia.
        rewrite Z.div_add by lia.
        assert (1 <= (Z.succ n + 1) / 2) by (apply Z.div_le_lower_bound; lia).
        lia.
Qed.

Lemma str_split_as_bytes_round_trip_witness :
  Builtin.without_spaces (Krod.str_split_as_bytes (Builtin.text "2C0103"))
  = Builtin.text "2C0103".
Proof.
  apply (str_split_as_bytes_round_trip (Builtin.text "2C0103")).
  repeat constructor; discriminate.
Defined.

(** X5: krod_fit_sku renders the bytes before the tag as two upper-case
    hexadecimal digits each, one blank between two bytes; cut from a full
    window of 0x100 bytes the text has 767 characters. *)
Theorem krod_fit_sku_bytes (reading : Py.bytes) (start_sku_match : Z)
    (Hok : bytes_ok reading) :
  Krod.krod_fit_sku reading start_sku_match
  = Builtin.join [" "%char]
      (map Krod.byte_text (Py.slice reading (start_sku_match - 0x100) start_sku_match)) /\
  (0x100 <= start_sku_match <= Py.len reading ->
   Py.len (Krod.krod_fit_sku reading start_sku_match) = 767).
Proof.
  assert (E : Krod.krod_fit_sku reading start_sku_match
              = Builtin.join [" "%char]
                  (map Krod.byte_text
                       (Py.slice reading (start_sku_match - 0x100) start_sku_match))).
  { unfold Krod.krod_fit_sku. cbv zeta.
    rewrite upper_hex_byte_text by (apply bytes_ok_slice; assumption).
    unfold Krod.str_split_as_bytes. rewrite chunks_byte_text. reflexivity. }
  split; [exact E|]. intros Hs. rewrite E.
  pose proof (slice_length_nonneg reading (start_sku_match - 0x100) start_sku_match
                ltac:(lia) ltac:(lia) ltac:(lia)) as Hl.
  unfold Py.len in *. rewrite join_length.
  - rewrite length_map. lia.
  - apply Forall_forall. intros p Hp. apply in_map_iff in Hp.
    destruct Hp as (b & <- & _). reflexivity.
  - intros En. apply (f_equal (@length _)) in En. rewrite length_map in En.
    cbn [length] in En. lia.
Qed.

Lemma krod_fit_sku_bytes_witness :
  Py.len (Krod.krod_fit_sku (repeat 0x2C 0x100 ++ [0x4B; 0x52; 0x4F; 0x44]) 0x100) = 767.
Proof.
  apply (krod_fit_sku_bytes (repeat 0x2C 0x100 ++ [0x4B; 0x52; 0x4F; 0x44]) 0x100).
  - apply bytes_okb_ok. vm_compute. reflexivity.
  - vm_compute. split; discriminate.
Defined.

(** X6: a KROD tag in the first 0x100 bytes of an image of 0x100 bytes or
    more gives the empty SKU text: the start of the window is negative,
    counts from the end of the image, and the window is empty. *)
Theorem krod_fit_sku_near_start (reading : Py.bytes) (start_sku_match : Z)
    (Hs : 0 <= start_sku_match < 0x100) (Hlen : 0x100 <= Py.len reading) :
  Krod.krod_fit_sku reading start_sku_match = [].
Proof.
  unfold Krod.krod_fit_sku. cbv zeta.
  assert (E : Py.slice reading (start_sku_match - 0x100) start_sku_match = []).
  { unfold Py.slice, Py.norm_index.
    destruct (start_sku_match - 0x100 <? 0) eqn:E1; [|lia].
    destruct (start_sku_match <? 0) eqn:E2; [lia|].
    replace (Z.to_nat (Z.min start_sku_match (Py.len reading)
                       - Z.max 0 (start_sku_match - 0x100 + Py.len reading)))
      with 0%nat by lia.
    reflexivity. }
  rewrite E. apply split_nil.
Qed.

Lemma krod_fit_sku_near_start_witness :
  Krod.krod_fit_sku ([0x4B; 0x52; 0x4F; 0x44] ++ repeat 0 0x100) 0 = [].
Proof.
  apply (krod_fit_sku_near_start ([0x4B; 0x52; 0x4F; 0x44] ++ repeat 0 0x100) 0).
  - lia.
  - vm_compute. discriminate.
Defined.

Section GuidFacts.

Lemma switch_guid_explicit (d0 d1 d2 d3 d4 d5 d6 d7 d8 d9 d10 d11 d12 d13 d14 d15 d16 d17 d18 d19 d20 d21 d22 d23 d24 d25 d26 d27 d28 d29 d30 d31 : ascii) :
  Guid.switch_guid [d0; d1; d2; d3; d4; d5; d6; d7; d8; d9; d10; d11; d12; d13; d14; d15; d16; d17; d18; d19; d20; d21; d22; d23; d24; d25; d26; d27; d28; d29; d30; d31]
  = Str.upper ([d6; d7; d4; d5; d2; d3; d0; d1]) ++ "-"%char :: Str.upper ([d10; d11; d8; d9]) ++ "-"%char :: Str.upper ([d14; d15; d12; d13]) ++ "-"%char :: Str.upper ([d16; d17; d18; d19]) ++ "-"%char :: Str.upper ([d20; d21; d22; d23; d24; d25; d26; d27; d28; d29; d30; d31]).
Proof. reflexivity. Qed.

Lemma upper_char_idem (c : ascii) : Str.upper_char (Str.upper_char c) = Str.upper_char c.
Proof. destruct c as [[] [] [] [] [] [] [] []]; reflexivity. Qed.

Lemma upper_char_not_dash (c : ascii) : c <> "-"%char -> Str.upper_char c <> "-"%char.
Proof.
  destruct c as [[] [] [] [] [] [] [] []]; intros H; try discriminate.
  exfalso. apply H. reflexivity.
Qed.

Lemma without_dashes_app (a b : list ascii) :
  Str.without_dashes (a ++ b) = Str.without_dashes a ++ Str.without_dashes b.
Proof. apply filter_app. Qed.

Lemma without_dashes_dash (b : list ascii) :
  Str.without_dashes ("-"%char :: b) = Str.without_dashes b.
Proof. reflexivity. Qed.

Lemma without_dashes_id (l : list ascii) :
  Forall (fun c => c <> "-"%char) l -> Str.without_dashes l = l.
Proof.
  induction 1 as [|c t Hc Ht IH]; [reflexivity|].
  unfold Str.without_dashes in *. cbn [filter].
  destruct (Ascii.eqb_spec c "-"%char); [contradiction|]. cbn [negb]. rewrite IH. reflexivity.
Qed.

Lemma upper_no_dash (l : list ascii) :
  Forall (fun c => c <> "-"%char) l -> Forall (fun c => c <> "-"%char) (Str.upper l).
Proof.
  induction 1 as [|c t Hc Ht IH]; constructor; [apply upper_char_not_dash|]; assumption.
Qed.

Lemma undash_switch (d0 d1 d2 d3 d4 d5 d6 d7 d8 d9 d10 d11 d12 d13 d14 d15 d16 d17 d18 d19 d20 d21 d22 d23 d24 d25 d26 d27 d28 d29 d30 d31 : ascii) :
  Forall (fun c => c <> "-"%char) [d0; d1; d2; d3; d4; d5; d6; d7; d8; d9; d10; d11; d12; d13; d14; d15; d16; d17; d18; d19; d20; d21; d22; d23; d24; d25; d26; d27; d28; d29; d30; d31] ->
  Str.without_dashes (Guid.switch_guid [d0; d1; d2; d3; d4; d5; d6; d7; d8; d9; d10; d11; d12; d13; d14; d15; d16; d17; d18; d19; d20; d21; d22; d23; d24; d25; d26; d27; d28; d29; d30; d31])
  = Str.upper [d6; d7; d4; d5; d2; d3; d0; d1; d10; d11; d8; d9; d14; d15; d12; d13; d16; d17; d18; d19; d20; d21; d22; d23; d24; d25; d26; d27; d28; d29; d30; d31].
Proof.
  intros H. rewrite switch_guid_explicit.
  repeat rewrite ?without_dashes_app, ?without_dashes_dash.
  rewrite !without_dashes_id; [reflexivity| | | | |];
    apply upper_no_dash; rewrite Forall_forall in *; intros c Hc; apply H;
    cbn [In] in *; intuition.
Qed.

End GuidFacts.

(** X7: switch_guid turns 32 ASCII characters without dashes into the 36
    characters of a GUID (groups of 8, 4, 4, 4 and 12), and it is its own
    inverse up to the dashes and the letter case: applied to its own output
    without the dashes it gives back the upper-case input, with dashes. *)
Theorem switch_guid_round_trip (guid : list ascii)
    (Hlen : length guid = 32%nat)
    (Hascii : Forall (fun c => (nat_of_ascii c < 128)%nat) guid)
    (Hd : Forall (fun c => c <> "-"%char) guid) :
  length (Guid.switch_guid guid) = 36%nat /\
  Str.without_dashes (Guid.switch_guid (Str.without_dashes (Guid.switch_guid guid)))
  = Str.upper guid.
Proof.
  destruct guid as [|d0 guid]; [discriminate|].
  destruct guid as [|d1 guid]; [discriminate|].
  destruct guid as [|d2 guid]; [discriminate|].
  destruct guid as [|d3 guid]; [discriminate|].
  destruct guid as [|d4 guid]; [discriminate|].
  destruct guid as [|d5 guid]; [discriminate|].
  destruct guid as [|d6 guid]; [discriminate|].
  destruct guid as [|d7 guid]; [discriminate|].
  destruct guid as [|d8 guid]; [discriminate|].
  destruct guid as [|d9 guid]; [discriminate|].
  destruct guid as [|d10 guid]; [discriminate|].
  destruct guid as [|d11 guid]; [discriminate|].
  destruct guid as [|d12 guid]; [discriminate|].
  destruct guid as [|d13 guid]; [discriminate|].
  destruct guid as [|d14 guid]; [discriminate|].
  destruct guid as [|d15 guid]; [discriminate|].
  destruct guid as [|d16 guid]; [discriminate|].
  destruct guid as [|d17 guid]; [discriminate|].
  destruct guid as [|d18 guid]; [discriminate|].
  destruct guid as [|d19 guid]; [discriminate|].
  destruct guid as [|d20 guid]; [discriminate|].
  destruct guid as [|d21 guid]; [discriminate|].
  destruct guid as [|d22 guid]; [discriminate|].
  destruct guid as [|d23 guid]; [discriminate|].
  destruct guid as [|d24 guid]; [discriminate|].
  destruct guid as [|d25 guid]; [discriminate|].
  destruct guid as [|d26 guid]; [discriminate|].
  destruct guid as [|d27 guid]; [discriminate|].
  destruct guid as [|d28 guid]; [discriminate|].
  destruct guid as [|d29 guid]; [discriminate|].
  destruct guid as [|d30 guid]; [discriminate|].
  destruct guid as [|d31 guid]; [discriminate|].
  destruct guid; [|discriminate]. clear Hlen Hascii.
  split; [rewrite switch_guid_explicit; reflexivity|].
  rewrite undash_switch by assumption.
  cbn [Str.upper map].
  rewrite undash_switch.
  - cbn [Str.upper map]. rewrite !upper_char_idem. reflexivity.
  - apply (upper_no_dash [d6; d7; d4; d5; d2; d3; d0; d1; d10; d11; d8; d9; d14; d15; d12; d13; d16; d17; d18; d19; d20; d21; d22; d23; d24; d25; d26; d27; d28; d29; d30; d31]).
    rewrite Forall_forall in *. intros c Hc. apply Hd. cbn [In] in *. intuition.
Qed.

Lemma switch_guid_round_trip_witness :
  Guid.switch_guid (Builtin.text "0c111d82a3d0f74caef3e28088491704")
  = Builtin.text "821D110C-D0A3-4CF7-AEF3-E28088491704" /\
  Str.without_dashes (Guid.switch_guid (Str.without_dashes
      (Guid.switch_guid (Builtin.text "0c111d82a3d0f74caef3e28088491704"))))
  = Str.upper (Builtin.text "0c111d82a3d0f74caef3e28088491704").
Proof.
  split; [reflexivity|].
  apply (switch_guid_round_trip (Builtin.text "0c111d82a3d0f74caef3e28088491704")).
  - reflexivity.
  - repeat constructor.
  - repeat constructor; discriminate.
Defined.

(** X8: fw_types is idempotent on the firmware type it returns, and the
    database code is "NaN" exactly for the types outside the seven known
    ones. *)
Theorem fw_types_idempotent (variant fw_type : String.string) :
  FwTypes.fw_types variant (fst (FwTypes.fw_types variant fw_type))
  = FwTypes.fw_types variant fw_type /\
  (snd (FwTypes.fw_types variant fw_type) = "NaN"
   <-> ~ In fw_type FwTypes.known_types).
Proof.
  unfold FwTypes.fw_types, FwTypes.known_types.
  destruct (String.eqb variant "SPS") eqn:Ev;
  destruct (String.eqb_spec fw_type "Region") as [->|N1];
  cbn [andb orb fst snd];
  try (split; [reflexivity|split; [discriminate|intros H; exfalso; apply H; cbn; tauto]]);
  destruct (String.eqb_spec fw_type "Region, Stock") as [->|N2];
  cbn [andb orb fst snd]; rewrite ?Ev; cbn [andb orb fst snd];
  try (split; [reflexivity|split; [discriminate|intros H; exfalso; apply H; cbn; tauto]]);
  destruct (String.eqb_spec fw_type "Region, Extracted") as [->|N3];
  cbn [andb orb fst snd]; rewrite ?Ev; cbn [andb orb fst snd];
  try (split; [reflexivity|split; [discriminate|intros H; exfalso; apply H; cbn; tauto]]);
  destruct (String.eqb_spec fw_type "Update") as [->|N4];
  cbn [andb orb fst snd]; rewrite ?Ev; cbn [andb orb fst snd];
  try (split; [reflexivity|split; [discriminate|intros H; exfalso; apply H; cbn; tauto]]);
  destruct (String.eqb_spec fw_type "Operational") as [->|N5];
  cbn [andb orb fst snd]; rewrite ?Ev; cbn [andb orb fst snd];
  try (split; [reflexivity|split; [discriminate|intros H; exfalso; apply H; cbn; tauto]]);
  destruct (String.eqb_spec fw_type "Recovery") as [->|N6];
  cbn [andb orb fst snd]; rewrite ?Ev; cbn [andb orb fst snd];
  try (split; [reflexivity|split; [discriminate|intros H; exfalso; apply H; cbn; tauto]]);
  destruct (String.eqb_spec fw_type "Unknown") as [->|N7];
  cbn [andb orb fst snd]; rewrite ?Ev; cbn [andb orb fst snd];
  try (split; [reflexivity|split; [discriminate|intros H; exfalso; apply H; cbn; tauto]]).
  all: split; [|split; [intros _ H; cbn [In] in H; intuition congruence|reflexivity]].
  all: repeat match goal with
              | N : ?t <> ?s |- context [String.eqb ?t ?s] =>
                  rewrite (proj2 (String.eqb_neq t s) N)
              end; cbn [andb orb]; reflexivity.
Qed.

Section ParamFacts.

Import Param.

Variable win32 : bool.

Lemma fold_flag (f : MEA_Param -> bool) (o : String.string) :
  (forall p i, f (step win32 p i) = if String.eqb i o then true else f p) ->
  forall source p, f (fold_left (step win32) source p) = f p || mem o source.
Proof.
  intros Hf. induction source as [|i t IH]; intros p.
  - cbn. rewrite orb_false_r. reflexivity.
  - cbn [fold_left]. rewrite IH, Hf. unfold mem. cbn [existsb].
    rewrite (String.eqb_sym o i). destruct (String.eqb i o); cbn [orb];
      rewrite ?orb_true_r; reflexivity.
Qed.

Lemma fold_flag_win (f : MEA_Param -> bool) (o : String.string) :
  (forall p i, f (step win32 p i)
               = if win32 then if String.eqb i o then true else f p else f p) ->
  forall source p, f (fold_left (step win32) source p) = f p || (win32 && mem o source).
Proof.
  intros Hf. induction source as [|i t IH]; intros p.
  - cbn. rewrite andb_false_r, orb_false_r. reflexivity.
  - cbn [fold_left]. rewrite IH, Hf. unfold mem. cbn [existsb].
    rewrite (String.eqb_sym o i). destruct win32, (String.eqb i o); cbn [orb andb];
      rewrite ?orb_true_r; reflexivity.
Qed.

Lemma fold_val (source : list String.string) : forall p,
  val (fold_left (step win32) source p) = val p.
Proof.
  induction source as [|i t IH]; intros p; [reflexivity|].
  cbn [fold_left]. rewrite IH. reflexivity.
Qed.

End ParamFacts.

(** X9: every flag of MEA_Param is set exactly when its option occurs in
    the source list (order and repetition play no part); the four
    Windows-only options count on win32 alone and are not listed in [val]
    elsewhere; [skip_intro] is also set by -extr, -msg, -mass and -pdb. *)
Theorem MEA_Param_flags (win32 : bool) (source : list String.string) :
  let p := Param.init win32 source in
  Param.help_scr p = Param.mem "-?" source /\
  Param.multi p = Param.mem "-check" source /\
  Param.me11_mod_extr p = Param.mem "-unp86" source /\
  Param.me11_mod_ext p = Param.mem "-ext86" source /\
  Param.me11_mod_bug p = Param.mem "-bug86" source /\
  Param.me11_sku_disp p = Param.mem "-dsku" source /\
  Param.fpt_disp p = Param.mem "-dfpt" source /\
  Param.db_print_new p = Param.mem "-pdb" source /\
  Param.enable_uf p = Param.mem "-enuf" source /\
  Param.give_db_name p = Param.mem "-dbname" source /\
  Param.mass_scan p = Param.mem "-mass" source /\
  Param.extr_mea p = (win32 && Param.mem "-extr" source) /\
  Param.print_msg p = (win32 && Param.mem "-msg" source) /\
  Param.alt_dir p = (win32 && Param.mem "-adir" source) /\
  Param.hid_find p = (win32 && Param.mem "-hid" source) /\
  Param.skip_intro p
  = (Param.mem "-skip" source
     || (win32 && (Param.mem "-extr" source || Param.mem "-msg" source))
     || Param.mem "-mass" source || Param.mem "-pdb" source) /\
  (forall o, In o (Param.val p) <-> In o Param.all /\ (win32 = true \/ ~ In o Param.win)).
Proof.
  cbv zeta. unfold Param.init, Param.finish.
  cbn [Param.val Param.help_scr Param.skip_intro Param.multi Param.extr_mea Param.print_msg
       Param.alt_dir Param.hid_find Param.me11_mod_extr Param.me11_mod_ext
       Param.me11_mod_bug Param.me11_sku_disp Param.fpt_disp Param.db_print_new
       Param.enable_uf Param.give_db_name Param.mass_scan].
  rewrite (fold_flag win32 Param.help_scr "-?") by reflexivity.
  rewrite (fold_flag win32 Param.skip_intro "-skip") by reflexivity.
  rewrite (fold_flag win32 Param.multi "-check") by reflexivity.
  rewrite (fold_flag win32 Param.me11_mod_extr "-unp86") by reflexivity.
  rewrite (fold_flag win32 Param.me11_mod_ext "-ext86") by reflexivity.
  rewrite (fold_flag win32 Param.me11_mod_bug "-bug86") by reflexivity.
  rewrite (fold_flag win32 Param.me11_sku_disp "-dsku") by reflexivity.
  rewrite (fold_flag win32 Param.fpt_disp "-dfpt") by reflexivity.
  rewrite !(fold_flag win32 Param.db_print_new "-pdb") by reflexivity.
  rewrite (fold_flag win32 Param.enable_uf "-enuf") by reflexivity.
  rewrite (fold_flag win32 Param.give_db_name "-dbname") by reflexivity.
  rewrite !(fold_flag win32 Param.mass_scan "-mass") by reflexivity.
  rewrite !(fold_flag_win win32 Param.extr_mea "-extr") by reflexivity.
  rewrite !(fold_flag_win win32 Param.print_msg "-msg") by reflexivity.
  rewrite (fold_flag_win win32 Param.alt_dir "-adir") by reflexivity.
  rewrite (fold_flag_win win32 Param.hid_find "-hid") by reflexivity.
  rewrite fold_val.
  unfold Param.initial.
  cbn [Param.val Param.help_scr Param.skip_intro Param.multi Param.extr_mea Param.print_msg
       Param.alt_dir Param.hid_find Param.me11_mod_extr Param.me11_mod_ext
       Param.me11_mod_bug Param.me11_sku_disp Param.fpt_disp Param.db_print_new
       Param.enable_uf Param.give_db_name Param.mass_scan orb].
  repeat (split; [reflexivity|]).
  split.
  - destruct win32, (Param.mem "-skip" source), (Param.mem "-extr" source),
      (Param.mem "-msg" source), (Param.mem "-mass" source), (Param.mem "-pdb" source);
      reflexivity.
  - intros o. destruct win32.
    + split; [intros H; split; [exact H|left; reflexivity]|intros [H _]; exact H].
    + rewrite filter_In. split.
      * intros [H1 H2]. split; [exact H1|right]. intros H3.
        assert (E : Param.mem o Param.win = true).
        { unfold Param.mem. apply existsb_exists. exists o. split; [exact H3|].
          apply String.eqb_refl. }
        rewrite E in H2. discriminate.
      * intros [H1 [H2|H2]]; [discriminate|]. split; [exact H1|].
        destruct (Param.mem o Param.win) eqn:E; [|reflexivity].
        exfalso. apply H2. unfold Param.mem in E. apply existsb_exists in E.
        destruct E as (x & Hx & Ex). apply String.eqb_eq in Ex. subst. exact Hx.
Qed.

Section IdentFacts.

Lemma digit16_hexc_lower (d : Z) : 0 <= d < 16 -> Hex.digit16 (Hex.hexc_lower d) = Some d.
Proof.
  intros H.
  destruct (digit_cases d H) as
    [->|[->|[->|[->|[->|[->|[->|[->|[->|[->|[->|[->|[->|[->|[->| ->]]]]]]]]]]]]]]];
    reflexivity.
Qed.

Lemma int16_from_lower (ds : list Z) : forall acc, digits_ok ds ->
  Hex.int16_from acc (map Hex.hexc_lower ds) = Some (dval_from acc ds).
Proof.
  induction ds as [|d t IH]; intros acc H; [reflexivity|].
  inversion H; subst. cbn [map Hex.int16_from dval_from].
  rewrite digit16_hexc_lower by assumption. apply IH. assumption.
Qed.

Lemma hexdigest_lower (d : list Z) :
  Hex.hexdigest d = map Hex.hexc_lower (byte_digits d).
Proof.
  unfold Hex.hexdigest, byte_digits. induction d as [|b t IH]; [reflexivity|].
  cbn [flat_map app map]. rewrite IH. reflexivity.
Qed.

Lemma digest_int_rev (l : list Z) :
  Rsa.digest_int (rev l) = Py.int_from_bytes_little l.
Proof.
  unfold Rsa.digest_int. induction l as [|b t IH]; [reflexivity|].
  cbn [rev Py.int_from_bytes_little]. rewrite fold_left_app. cbn [fold_left].
  rewrite IH. lia.
Qed.

Lemma bytes_ok_rev (l : list Z) : bytes_ok l -> bytes_ok (rev l).
Proof. apply Forall_rev. Qed.

Lemma int_hex_reversed_value (l : Py.bytes) : bytes_ok l -> l <> [] ->
  Ident.int_hex_reversed l = Some (Py.int_from_bytes_little l).
Proof.
  intros H Hne. unfold Ident.int_hex_reversed.
  destruct (hexdigest_digits (rev l) (bytes_ok_rev l H)) as (_ & Hd & Hl & Hv).
  rewrite hexdigest_lower. unfold Hex.int16.
  destruct (map Hex.hexc_lower (byte_digits (rev l))) as [|c r] eqn:E.
  - apply (f_equal (@length _)) in E. rewrite length_map, Hl, length_rev in E.
    destruct l; [congruence|discriminate].
  - rewrite <- E, int16_from_lower by assumption.
    f_equal. change (dval_from 0 (byte_digits (rev l))) with (dval (byte_digits (rev l))).
    rewrite Hv. apply digest_int_rev.
Qed.

Lemma byte_digits_inj (a : list Z) : forall b, bytes_ok a -> bytes_ok b ->
  byte_digits a = byte_digits b -> a = b.
Proof.
  unfold byte_digits.
  induction a as [|x t IH]; intros [|y u] Ha Hb E; try discriminate; [reflexivity|].
  cbn [flat_map app] in E. injection E as E1 E2 E3.
  inversion Ha; inversion Hb; subst. f_equal.
  - pose proof (Z.div_mod x 16 ltac:(lia)). pose proof (Z.div_mod y 16 ltac:(lia)). lia.
  - apply IH; assumption.
Qed.

Lemma upper_hexdigest_inj (a b : list Z) : bytes_ok a -> bytes_ok b ->
  Hex.upper (Hex.hexdigest a) = Hex.upper (Hex.hexdigest b) -> a = b.
Proof.
  intros Ha Hb E.
  destruct (hexdigest_digits a Ha) as (Ea & Da & _).
  destruct (hexdigest_digits b Hb) as (Eb & Db & _).
  rewrite Ea, Eb in E. apply map_hexc_inj in E; try assumption.
  apply byte_digits_inj; assumption.
Qed.

Lemma text_eqb_false (a b : list ascii) : Hex.text_eqb a b = false <-> a <> b.
Proof.
  unfold Hex.text_eqb. destruct (list_eq_dec ascii_dec a b); split; congruence.
Qed.

End IdentFacts.

(** X10: intel_id answers 'OK' exactly when the two bytes read at
    start_man_match - 0xB are 86 80, the little-endian vendor number 0x8086;
    the bounds of the read are those of a Python slice, so a start below
    0xB reads from the end of the image. *)
Theorem intel_id_vendor (reading : Py.bytes) (start_man_match : Z)
    (Hok : bytes_ok reading) :
  (Ident.intel_id reading start_man_match = "OK"
   <-> Py.slice reading (start_man_match - 0xB) (start_man_match - 0x9) = [0x86; 0x80]) /\
  (Ident.intel_id reading start_man_match = "OK"
   \/ Ident.intel_id reading start_man_match = "continue").
Proof.
  unfold Ident.intel_id. cbv zeta.
  set (l := Py.slice reading (start_man_match - 0xB) (start_man_match - 0x9)).
  assert (Hl : bytes_ok l) by (apply bytes_ok_slice; assumption).
  destruct (Hex.text_eqb (Hex.hexdigest (rev l)) (Builtin.text "8086")) eqn:E;
    cbn [negb].
  - split; [|left; reflexivity]. split; [intros _|reflexivity].
    apply text_eqb_true in E.
    assert (E' : Hex.upper (Hex.hexdigest (rev l)) = Hex.upper (Hex.hexdigest [0x80; 0x86])).
    { rewrite E. reflexivity. }
    apply upper_hexdigest_inj in E'.
    + rewrite <- (rev_involutive l), E'. reflexivity.
    + apply bytes_ok_rev. assumption.
    + repeat constructor; lia.
  - split; [|right; reflexivity]. split; [discriminate|intros El].
    rewrite El in E. discriminate.
Qed.

Lemma intel_id_vendor_witness :
  Ident.intel_id (repeat 0 5 ++ [0x86; 0x80] ++ repeat 0 9 ++ [0x00; 0x24; 0x4D; 0x4E; 0x32]) 16
  = "OK".
Proof.
  apply (intel_id_vendor
           (repeat 0 5 ++ [0x86; 0x80] ++ repeat 0 9 ++ [0x00; 0x24; 0x4D; 0x4E; 0x32]) 16).
  - apply bytes_okb_ok. reflexivity.
  - reflexivity.
Defined.

(** X11: fuj_umem_ver answers "NaN" unless the four bytes at me_fd_start
    are 55 4D C9 4D; behind that header, in an image that holds the version
    fields, the version text joins the four little-endian 16-bit numbers at
    +0xB, +0xD, +0xF and +0x11. *)
Theorem fuj_umem_ver_fields (reading : Py.bytes) (me_fd_start : Z)
    (Hok : bytes_ok reading) (Hs : 0 <= me_fd_start) :
  (Py.slice reading me_fd_start (me_fd_start + 0x4) <> Ident.umem_tag ->
   Ident.fuj_umem_ver reading me_fd_start = Some (Builtin.text "NaN")) /\
  (Py.slice reading me_fd_start (me_fd_start + 0x4) = Ident.umem_tag ->
   me_fd_start + 0x12 <= Py.len reading ->
   Ident.fuj_umem_ver reading me_fd_start
   = Some (Str.dotted4 (Struct.u16 reading (me_fd_start + 0xB))
                       (Struct.u16 reading (me_fd_start + 0xD))
                       (Struct.u16 reading (me_fd_start + 0xF))
                       (Struct.u16 reading (me_fd_start + 0x11)))).
Proof.
  unfold Ident.fuj_umem_ver. cbv zeta.
  set (h := Py.slice reading me_fd_start (me_fd_start + 0x4)).
  assert (Hh : bytes_ok h) by (apply bytes_ok_slice; assumption).
  split.
  - intros Hne.
    destruct (Hex.text_eqb (Hex.upper (Hex.hexdigest h)) (Builtin.text "554DC94D")) eqn:E;
      [|reflexivity].
    exfalso. apply Hne. apply text_eqb_true in E.
    apply upper_hexdigest_inj; [assumption|repeat constructor; lia|].
    rewrite E. reflexivity.
  - intros Eh Hlen. rewrite Eh.
    change (Hex.text_eqb (Hex.upper (Hex.hexdigest Ident.umem_tag))
                         (Builtin.text "554DC94D")) with true. cbv iota.
    assert (F : forall off, me_fd_start + 0xB <= off -> off + 1 <= Py.len reading ->
                Ident.int_hex_reversed (Py.slice reading off (off + 2))
                = Some (Struct.u16 reading off)).
    { intros off H1 H2. rewrite int_hex_reversed_value.
      - rewrite slice_nonneg by lia. unfold Struct.u16, Struct.field.
        replace (off + 2 - off) with 2 by lia. reflexivity.
      - apply bytes_ok_slice. assumption.
      - rewrite slice_nonneg by lia. intros En.
        apply (f_equal (@length _)) in En.
        rewrite length_firstn, length_skipn in En. unfold Py.len in H2.
        cbn [length] in En. lia. }
    replace (me_fd_start + 0xD) with (me_fd_start + 0xB + 2) by lia.
    rewrite (F (me_fd_start + 0xB)) by lia.
    replace (me_fd_start + 0xF) with (me_fd_start + 0xB + 2 + 2) by lia.
    rewrite (F (me_fd_start + 0xB + 2)) by lia.
    replace (me_fd_start + 0x11) with (me_fd_start + 0xB + 2 + 2 + 2) by lia.
    rewrite (F (me_fd_start + 0xB + 2 + 2)) by lia.
    replace (me_fd_start + 0x13) with (me_fd_start + 0xB + 2 + 2 + 2 + 2) by lia.
    rewrite (F (me_fd_start + 0xB + 2 + 2 + 2)) by lia.
    reflexivity.
Qed.

Lemma fuj_umem_ver_fields_witness :
  Ident.fuj_umem_ver
    ([0x55; 0x4D; 0xC9; 0x4D] ++ repeat 0 7 ++ [0x07; 0x00; 0x01; 0x00; 0x50; 0x00; 0x9C; 0x04]) 0
  = Some (Builtin.text "7.1.80.1180").
Proof.
  refine (proj2 (fuj_umem_ver_fields
           ([0x55; 0x4D; 0xC9; 0x4D] ++ repeat 0 7
              ++ [0x07; 0x00; 0x01; 0x00; 0x50; 0x00; 0x9C; 0x04]) 0 _ _) _ _).
  - apply bytes_okb_ok. reflexivity.
  - lia.
  - reflexivity.
  - vm_compute. discriminate.
Defined.

(** X12: behind the UMEM header fuj_umem_ver needs the version fields: in
    an image that ends at or before the last one, [int] is given an empty
    text and its ValueError escapes the function. *)
Theorem fuj_umem_ver_truncated (reading : Py.bytes) (me_fd_start : Z)
    (Hok : bytes_ok reading) (Hs : 0 <= me_fd_start)
    (Hh : Py.slice reading me_fd_start (me_fd_start + 0x4) = Ident.umem_tag)
    (Hlen : Py.len reading <= me_fd_start + 0x11) :
  Ident.fuj_umem_ver reading me_fd_start = None.
Proof.
  unfold Ident.fuj_umem_ver. cbv zeta. rewrite Hh.
  change (Hex.text_eqb (Hex.upper (Hex.hexdigest Ident.umem_tag))
                       (Builtin.text "554DC94D")) with true. cbv iota.
  assert (E : Py.slice reading (me_fd_start + 0x11) (me_fd_start + 0x13) = []).
  { rewrite slice_nonneg by lia. rewrite skipn_all2 by (unfold Py.len in Hlen; lia).
    apply firstn_nil. }
  rewrite E.
  change (Ident.int_hex_reversed []) with (@None Z).
  repeat match goal with
         | |- match ?x with _ => _ end = None => destruct x
         end; reflexivity.
Qed.

Lemma fuj_umem_ver_truncated_witness :
  Ident.fuj_umem_ver [0x55; 0x4D; 0xC9; 0x4D] 0 = None.
Proof.
  apply (fuj_umem_ver_truncated [0x55; 0x4D; 0xC9; 0x4D] 0).
  - apply bytes_okb_ok. reflexivity.
  - lia.
  - reflexivity.
  - vm_compute. discriminate.
Defined.

Section StructFacts.

Lemma slice_in {A : Type} (s : list A) (a b : Z) (x : A) :
  In x (Py.slice s a b) -> In x s.
Proof.
  unfold Py.slice. intros H.
  set (l := skipn (Z.to_nat (Py.norm_index (Py.len s) a)) s) in *.
  assert (Hl : In x l).
  { rewrite <- (firstn_skipn (Z.to_nat (Py.norm_index (Py.len s) b
                                        - Py.norm_index (Py.len s) a)) l).
    apply in_or_app. left. exact H. }
  rewrite <- (firstn_skipn (Z.to_nat (Py.norm_index (Py.len s) a)) s).
  apply in_or_app. right. exact Hl.
Qed.

Lemma bytes_eqb_true (a b : Py.bytes) : Walk.bytes_eqb a b = true <-> a = b.
Proof.
  unfold Walk.bytes_eqb. destruct (list_eq_dec Z.eq_dec a b); split; congruence.
Qed.

Lemma bytes_eqb_false (a b : Py.bytes) : Walk.bytes_eqb a b = false <-> a <> b.
Proof.
  unfold Walk.bytes_eqb. destruct (list_eq_dec Z.eq_dec a b); split; congruence.
Qed.

Lemma get_struct_fit_window (str_ : Py.bytes) (off n file_end : Z) (data : Py.bytes) :
  0 <= off -> 0 < n -> Struct.get_struct str_ off n file_end = Struct.Fit data ->
  off + n <= Py.len str_ /\ data = Py.slice str_ off (off + n).
Proof.
  intros Hoff Hn. unfold Struct.get_struct. cbv zeta.
  assert (L : Py.len (Py.slice str_ off (off + n)) = Z.min n (Z.max 0 (Py.len str_ - off))).
  { rewrite slice_nonneg by lia. unfold Py.len.
    rewrite length_firstn, length_skipn. lia. }
  rewrite L.
  destruct (off >? file_end); cbn [orb]; [discriminate|].
  destruct (Z.min (Z.min n (Z.max 0 (Py.len str_ - off))) n <? n) eqn:E2; [discriminate|].
  apply Z.ltb_ge in E2. intros H. injection H as <-. split; [lia|reflexivity].
Qed.

End StructFacts.

(** X13: for an offset inside a non-negative range get_struct returns
    a structure exactly when the offset is not beyond file_end and the
    buffer holds all its bytes; the structure is then filled from these
    bytes and from nothing else, and otherwise the error branch is taken
    with the offset. *)
Theorem get_struct_bounds (str_ : Py.bytes) (off n file_end : Z)
    (Hoff : 0 <= off) (Hn : 0 < n) :
  match Struct.get_struct str_ off n file_end with
  | Struct.Fit data =>
      off <= file_end /\ off + n <= Py.len str_ /\
      data = Py.slice str_ off (off + n) /\ Py.len data = n
  | Struct.OutOfBounds o =>
      o = off /\ (file_end < off \/ Py.len str_ < off + n)
  end.
Proof.
  unfold Struct.get_struct. cbv zeta.
  assert (L : Py.len (Py.slice str_ off (off + n)) = Z.min n (Z.max 0 (Py.len str_ - off))).
  { rewrite slice_nonneg by lia. unfold Py.len.
    rewrite length_firstn, length_skipn. lia. }
  rewrite L.
  destruct (off >? file_end) eqn:E1; cbn [orb].
  - apply gtb_true in E1. split; [reflexivity|left; lia].
  - apply gtb_false in E1.
    destruct (Z.min (Z.min n (Z.max 0 (Py.len str_ - off))) n <? n) eqn:E2.
    + apply Z.ltb_lt in E2. split; [reflexivity|right; lia].
    + apply Z.ltb_ge in E2. repeat split; lia.
Qed.

Lemma get_struct_bounds_witness :
  match Struct.get_struct [1; 2; 3; 4; 5; 6] 3 4 6 with
  | Struct.Fit data =>
      3 <= 6 /\ 3 + 4 <= Py.len [1; 2; 3; 4; 5; 6] /\
      data = Py.slice [1; 2; 3; 4; 5; 6] 3 (3 + 4) /\ Py.len data = 4
  | Struct.OutOfBounds o =>
      o = 3 /\ (6 < 3 \/ Py.len [1; 2; 3; 4; 5; 6] < 3 + 4)
  end.
Proof. apply (get_struct_bounds [1; 2; 3; 4; 5; 6] 3 4 6); lia. Defined.

(** X14: the bound check of get_struct does not refuse a negative
    offset: when the whole window lies below zero, the slice counts from the
    end of the buffer and the structure is filled from the bytes there,
    without an error. *)
Theorem get_struct_negative_offset (str_ : Py.bytes) (off n file_end : Z)
    (Hn : 0 < n) (Hoff : n < - off <= Py.len str_) (Hfe : 0 <= file_end) :
  Struct.get_struct str_ off n file_end
  = Struct.Fit (firstn (Z.to_nat n) (skipn (Z.to_nat (Py.len str_ + off)) str_)) /\
  Py.len (firstn (Z.to_nat n) (skipn (Z.to_nat (Py.len str_ + off)) str_)) = n.
Proof.
  assert (E : Py.slice str_ off (off + n)
              = firstn (Z.to_nat n) (skipn (Z.to_nat (Py.len str_ + off)) str_)).
  { unfold Py.slice, Py.norm_index.
    destruct (off <? 0) eqn:E1; [|apply Z.ltb_ge in E1; lia].
    destruct (off + n <? 0) eqn:E2; [|apply Z.ltb_ge in E2; lia].
    f_equal; [|f_equal]; lia. }
  assert (L : Py.len (firstn (Z.to_nat n) (skipn (Z.to_nat (Py.len str_ + off)) str_)) = n).
  { unfold Py.len in *. rewrite length_firstn, length_skipn. lia. }
  split; [|exact L].
  unfold Struct.get_struct. cbv zeta. rewrite E, L.
  destruct (off >? file_end) eqn:E1; [apply gtb_true in E1; lia|].
  rewrite Z.min_id, Z.ltb_irrefl. reflexivity.
Qed.

Lemma get_struct_negative_offset_witness :
  Struct.get_struct [1; 2; 3; 4; 5; 6] (-5) 4 6 = Struct.Fit [2; 3; 4; 5].
Proof.
  apply (get_struct_negative_offset [1; 2; 3; 4; 5; 6] (-5) 4 6); cbn; lia.
Defined.

Section FptFacts.

Import Batch.

Lemma finditer_from_sound (pat : list pat_item) (n : nat) (data : Py.bytes) :
  forall (i : Z) (skip : nat) (j : Z),
    In j (finditer_from pat n data i skip) ->
    exists k : nat, j = i + Z.of_nat k /\ match_here pat (skipn k data) = true.
Proof.
  induction data as [|b data' IH]; intros i skip j H; [contradiction|].
  cbn [finditer_from] in H. destruct skip as [|s].
  - destruct (match_here pat (b :: data')) eqn:E.
    + destruct H as [<-|H].
      * exists 0%nat. split; [lia|exact E].
      * destruct (IH _ _ _ H) as (k & -> & Hk). exists (S k). split; [lia|exact Hk].
    + destruct (IH _ _ _ H) as (k & -> & Hk). exists (S k). split; [lia|exact Hk].
  - destruct (IH _ _ _ H) as (k & -> & Hk). exists (S k). split; [lia|exact Hk].
Qed.

Lemma match_here_bytes (l : list Z) : forall data,
  match_here (map Byte l) data = true -> firstn (length l) data = l.
Proof.
  induction l as [|x t IH]; intros data H; [reflexivity|].
  destruct data as [|b data']; [discriminate|].
  cbn [map match_here item_matches] in H. apply andb_true_iff in H as [H1 H2].
  apply Z.eqb_eq in H1. subst. cbn [length firstn]. f_equal. apply IH. exact H2.
Qed.

Lemma finditer_bytes (l : list Z) (tail : list pat_item) (data : Py.bytes) (j : Z) :
  In j (finditer (map Byte l ++ tail) data) ->
  0 <= j /\ Py.slice data j (j + Py.len l) = l.
Proof.
  intros H. unfold finditer in H.
  destruct (finditer_from_sound _ _ _ _ _ _ H) as (k & -> & Hk).
  split; [lia|]. rewrite slice_nonneg by (unfold Py.len; lia).
  replace (Z.to_nat (0 + Z.of_nat k + Py.len l - (0 + Z.of_nat k))) with (length l)
    by (unfold Py.len; lia).
  replace (Z.to_nat (0 + Z.of_nat k)) with k by lia.
  revert Hk. generalize (skipn k data). clear.
  induction l as [|x t IH]; intros d H; [reflexivity|].
  destruct d as [|b d']; [discriminate|].
  cbn [map app match_here item_matches] in H. apply andb_true_iff in H as [H1 H2].
  apply Z.eqb_eq in H1. subst. cbn [length firstn]. f_equal. apply IH. exact H2.
Qed.

Lemma skip_copies_spec (reading : Py.bytes) (stride : Z) : 0 < stride ->
  forall (fuel : nat) (start : Z),
    Py.slice reading start (start + 4) = tag_FPT -> 0 <= start ->
    let r := skip_copies reading stride fuel start in
    start <= r /\ Py.slice reading r (r + 4) = tag_FPT /\
    (Py.len reading - start < stride * Z.of_nat fuel ->
     Py.slice reading (r + stride) (r + stride + 4) <> tag_FPT).
Proof.
  intros Hs. induction fuel as [|fuel IH]; intros start Ht H0; cbv zeta.
  - cbn [skip_copies]. split; [lia|]. split; [exact Ht|]. intros Hf. exfalso.
    assert (L : Py.len (Py.slice reading start (start + 4)) = 4) by (rewrite Ht; reflexivity).
    rewrite slice_nonneg in L by lia. unfold Py.len in *.
    rewrite length_firstn, length_skipn in L. lia.
  - cbn [skip_copies].
    destruct (Walk.bytes_eqb (Py.slice reading (start + stride) (start + stride + 4)) tag_FPT)
      eqn:E.
    + apply bytes_eqb_true in E.
      destruct (IH (start + stride) E ltac:(lia)) as (H1 & H2 & H3).
      split; [lia|]. split; [exact H2|]. intros Hf. apply H3. lia.
    + apply bytes_eqb_false in E. split; [lia|]. split; [exact Ht|]. intros _. exact E.
Qed.

End FptFacts.

(** X15: the $FPT header the analysis reads sits at a $FPT signature:
    from the first match the three loops only step to offsets that hold the
    signature, never back, and they stop at an offset that has no signature
    0x1000 bytes further on. *)
Theorem fpt_start_at_signature (reading : Py.bytes) (first : Z)
    (Hfirst : hd_error (Batch.finditer Batch.fpt_pat reading) = Some first) :
  let start_fw_start_match := Batch.fpt_start reading first in
  first <= start_fw_start_match /\
  Py.slice reading start_fw_start_match (start_fw_start_match + 4) = Batch.tag_FPT /\
  Py.slice reading (start_fw_start_match + 0x1000) (start_fw_start_match + 0x1004)
  <> Batch.tag_FPT.
Proof.
  cbv zeta.
  assert (Hin : In first (Batch.finditer Batch.fpt_pat reading)).
  { destruct (Batch.finditer Batch.fpt_pat reading); [discriminate|].
    cbn in Hfirst. injection Hfirst as ->. left. reflexivity. }
  change Batch.fpt_pat
    with (map Batch.Byte Batch.tag_FPT
          ++ [Batch.AnyByte; Batch.Byte 0x00; Batch.Byte 0x00; Batch.Byte 0x00]) in Hin.
  apply finditer_bytes in Hin. destruct Hin as [H0 Ht].
  change (Py.len Batch.tag_FPT) with 4 in Ht.
  unfold Batch.fpt_start. cbv zeta.
  destruct (skip_copies_spec reading 0x100 ltac:(lia) (length reading) first Ht H0)
    as (A1 & A2 & _).
  set (s1 := Batch.skip_copies reading 0x100 (length reading) first) in *.
  destruct (skip_copies_spec reading 0x2100 ltac:(lia) (length reading) s1 A2 ltac:(lia))
    as (B1 & B2 & _).
  set (s2 := Batch.skip_copies reading 0x2100 (length reading) s1) in *.
  destruct (skip_copies_spec reading 0x1000 ltac:(lia) (length reading) s2 B2 ltac:(lia))
    as (C1 & C2 & C3).
  split; [lia|]. split; [exact C2|].
  replace (Batch.skip_copies reading 0x1000 (length reading) s2 + 0x1004)
    with (Batch.skip_copies reading 0x1000 (length reading) s2 + 0x1000 + 4) by lia.
  apply C3.
  assert (L : Py.len (Py.slice reading first (first + 4)) = 4) by (rewrite Ht; reflexivity).
  rewrite slice_nonneg in L by lia. unfold Py.len in *.
  rewrite length_firstn, length_skipn in L. lia.
Qed.

Lemma fpt_start_at_signature_witness :
  Py.slice Batch.truncated_image (Batch.fpt_start Batch.truncated_image 5)
           (Batch.fpt_start Batch.truncated_image 5 + 4) = Batch.tag_FPT.
Proof.
  apply (fpt_start_at_signature Batch.truncated_image 5). reflexivity.
Defined.

Section ExtraEntries.

Lemma extra_entries_none (reading : Py.bytes) :
  (forall off, Py.slice reading (off + 0x2) (off + 0xC) <> Fpt.ff10) ->
  forall (fuel : nat) (d s : Z), Fpt.extra_entries reading fuel d s = None.
Proof.
  intros H. induction fuel as [|fuel IH]; intros d s; [reflexivity|].
  cbn [Fpt.extra_entries].
  rewrite (proj2 (bytes_eqb_false _ _) (H s)). cbn [negb]. apply IH.
Qed.

End ExtraEntries.

(** X16: the loop that counts the $FPT entries beyond NumPartitions has
    no bound of its own: on an image without a byte 0xFF no window ever
    equals the ten bytes 0xFF it waits for, whatever offset it starts from,
    so the loop never ends. *)
Theorem fpt_extra_entries_spin (reading : Py.bytes) (fuel : nat) (fpt_num_diff fpt_step : Z)
    (Hff : ~ In 0xFF reading) :
  Fpt.extra_entries reading fuel fpt_num_diff fpt_step = None.
Proof.
  apply extra_entries_none. intros off E.
  apply Hff. apply (slice_in reading (off + 0x2) (off + 0xC)).
  rewrite E. left. reflexivity.
Qed.

Lemma fpt_extra_entries_spin_witness :
  Fpt.extra_entries Batch.truncated_image 1000 0 0x28 = None.
Proof.
  apply (fpt_extra_entries_spin Batch.truncated_image 1000 0 0x28).
  cbn. intuition discriminate.
Defined.

(** X17: when the window of the k-th further entry is the first that
    holds ten bytes 0xFF, the loop ends there, having counted k entries and
    moved k times 0x20 bytes. *)
Theorem fpt_extra_entries_count (reading : Py.bytes) (k : nat) (fuel : nat)
    (fpt_num_diff fpt_step : Z)
    (Hk : Py.slice reading (fpt_step + 0x20 * Z.of_nat k + 0x2)
                   (fpt_step + 0x20 * Z.of_nat k + 0xC) = Fpt.ff10)
    (Hbefore : forall j : nat, (j < k)%nat ->
       Py.slice reading (fpt_step + 0x20 * Z.of_nat j + 0x2)
                (fpt_step + 0x20 * Z.of_nat j + 0xC) <> Fpt.ff10)
    (Hfuel : (k < fuel)%nat) :
  Fpt.extra_entries reading fuel fpt_num_diff fpt_step
  = Some (fpt_num_diff + Z.of_nat k, fpt_step + 0x20 * Z.of_nat k).
Proof.
  revert fuel fpt_num_diff fpt_step Hk Hbefore Hfuel.
  induction k as [|k IH]; intros fuel d s Hk Hb Hf.
  - destruct fuel as [|fuel]; [lia|]. cbn [Fpt.extra_entries].
    replace (s + 0x20 * Z.of_nat 0 + 0x2) with (s + 0x2) in Hk by lia.
    replace (s + 0x20 * Z.of_nat 0 + 0xC) with (s + 0xC) in Hk by lia.
    rewrite (proj2 (bytes_eqb_true _ _) Hk). cbn [negb]. f_equal. f_equal; lia.
  - destruct fuel as [|fuel]; [lia|]. cbn [Fpt.extra_entries].
    pose proof (Hb 0%nat ltac:(lia)) as H0.
    replace (s + 0x20 * Z.of_nat 0 + 0x2) with (s + 0x2) in H0 by lia.
    replace (s + 0x20 * Z.of_nat 0 + 0xC) with (s + 0xC) in H0 by lia.
    rewrite (proj2 (bytes_eqb_false _ _) H0). cbn [negb].
    rewrite (IH fuel (d + 1) (s + 0x20)).
    + f_equal. f_equal; lia.
    + replace (s + 0x20 + 0x20 * Z.of_nat k) with (s + 0x20 * Z.of_nat (S k)) by lia.
      exact Hk.
    + intros j Hj. specialize (Hb (S j) ltac:(lia)).
      replace (s + 0x20 + 0x20 * Z.of_nat j) with (s + 0x20 * Z.of_nat (S j)) by lia.
      exact Hb.
    + lia.
Qed.

Lemma fpt_extra_entries_count_witness :
  Fpt.extra_entries (repeat 0 0x20 ++ repeat 0xFF 0x20) 5 0 0 = Some (1, 0x20).
Proof.
  apply (fpt_extra_entries_count (repeat 0 0x20 ++ repeat 0xFF 0x20) 1 5 0 0).
  - reflexivity.
  - intros j Hj. assert (j = 0%nat) as -> by lia. vm_compute. discriminate.
  - lia.
Defined.

(** X18: the end of the engine region computed after the walk over the
    uncharted partitions is the least multiple of 0x1000 that is not below
    p_end_last. *)
Theorem eng_fw_end_uncharted_aligned (p_end_last : Z) :
  let e := Fpt.eng_fw_end_uncharted p_end_last in
  e mod 0x1000 = 0 /\ p_end_last <= e < p_end_last + 0x1000.
Proof.
  cbv zeta. unfold Fpt.eng_fw_end_uncharted. cbv zeta.
  pose proof (Z.mod_pos_bound p_end_last 0x1000 ltac:(lia)) as B.
  pose proof (Z.div_mod p_end_last 0x1000 ltac:(lia)) as D.
  destruct (p_end_last mod 0x1000 >? 0) eqn:E.
  - apply gtb_true in E. split; [|lia].
    replace (p_end_last + 0x1000 - p_end_last mod 0x1000)
      with ((p_end_last / 0x1000 + 1) * 0x1000) by lia.
    apply Z_mod_mult.
  - apply gtb_false in E. split; lia.
Qed.

(** X19: for the images whose last partition has no size the two
    branches of the alignment disagree: when the distance of the last module
    end from fpt_start is no multiple of 0x1000 the result is that distance
    rounded up, a size; when it is one, the result is the module end itself,
    an offset that still holds fpt_start. *)
Theorem eng_fw_end_scanned_cases (mod_end fpt_start : Z) :
  let e := Fpt.eng_fw_end_scanned mod_end mod_end fpt_start in
  ((mod_end - fpt_start) mod 0x1000 <> 0 ->
   e mod 0x1000 = 0 /\ mod_end - fpt_start < e < mod_end - fpt_start + 0x1000) /\
  ((mod_end - fpt_start) mod 0x1000 = 0 -> e = (mod_end - fpt_start) + fpt_start).
Proof.
  cbv zeta. unfold Fpt.eng_fw_end_scanned. cbv zeta.
  set (d := mod_end - fpt_start).
  pose proof (Z.mod_pos_bound d 0x1000 ltac:(lia)) as B.
  pose proof (Z.div_mod d 0x1000 ltac:(lia)) as D.
  split; intros H.
  - destruct (d mod 0x1000 >? 0) eqn:E; [|apply gtb_false in E; lia].
    split; [|lia].
    replace (mod_end + 0x1000 - d mod 0x1000 - fpt_start)
      with ((d / 0x1000 + 1) * 0x1000) by lia.
    apply Z_mod_mult.
  - rewrite H. cbn. lia.
Qed.

Lemma eng_fw_end_scanned_cases_witness :
  Fpt.eng_fw_end_scanned 0x3010 0x3010 0x10 = 0x3010 - 0x10 + 0x10.
Proof. exact (proj2 (eng_fw_end_scanned_cases 0x3010 0x10) eq_refl). Defined.

Section FptChkFacts.

Lemma fmt_0X_digits (width : nat) (v : Z) : 0 <= v ->
  Fmt.fmt_0X width v = map Hex.hexc (Fmt.padded_digits width v) /\
  digits_ok (Fmt.padded_digits width v) /\
  dval (Fmt.padded_digits width v) = v.
Proof.
  intros Hv. unfold Fmt.fmt_0X, Fmt.padded_digits.
  destruct (v <? 0) eqn:E; [apply Z.ltb_lt in E; lia|].
  destruct (digits_of_spec v Hv) as (Hok & Hval & _ & _).
  split; [rewrite map_app, map_repeat, hexc_0; reflexivity|]. split.
  - apply Forall_app. split; [|assumption].
    apply Forall_forall. intros x Hx. apply repeat_spec in Hx. lia.
  - rewrite dval_repeat_0. assumption.
Qed.

Lemma fmt_0x0X_inj (width : nat) (a b : Z) : 0 <= a -> 0 <= b ->
  Fmt.fmt_0x0X width a = Fmt.fmt_0x0X width b -> a = b.
Proof.
  intros Ha Hb E. unfold Fmt.fmt_0x0X in E. injection E as E.
  destruct (fmt_0X_digits width a Ha) as (Ea & Oa & Va).
  destruct (fmt_0X_digits width b Hb) as (Eb & Ob & Vb).
  rewrite Ea, Eb in E. apply map_hexc_inj in E; try assumption.
  rewrite <- Va, <- Vb, E. reflexivity.
Qed.

Lemma nth_error_window {A : Type} (r : list A) (s n i : nat) : (i < n)%nat ->
  nth_error (firstn n (skipn s r)) i = nth_error r (s + i).
Proof.
  intros Hi. rewrite nth_error_firstn.
  destruct (Nat.ltb_spec i n); [|lia]. apply nth_error_skipn.
Qed.

Lemma u8_nth (h : Py.bytes) (i : nat) (x : Z) :
  nth_error h i = Some x -> Struct.u8 h (Z.of_nat i) = x.
Proof.
  intros H. unfold Struct.u8, Struct.field. rewrite Nat2Z.id.
  change (Z.to_nat 1) with 1%nat.
  destruct (skipn i h) as [|y t] eqn:E.
  - exfalso. assert (L : (length h <= i)%nat).
    { apply (f_equal (@length _)) in E. rewrite length_skipn in E. cbn in E. lia. }
    apply nth_error_None in L. congruence.
  - assert (Ey : nth_error h i = Some y).
    { rewrite <- (Nat.add_0_r i), <- nth_error_skipn, E. reflexivity. }
    assert (y = x) by congruence. subst y.
    cbn [firstn Py.int_from_bytes_little]. lia.
Qed.

Lemma land_ff (x : Z) : Z.land x 0xFF = x mod 0x100.
Proof. change 0xFF with (Z.ones 8). rewrite Z.land_ones by lia. reflexivity. Qed.

Lemma ChkDone_inj (a b : bool) : Fpt.ChkDone a = Fpt.ChkDone b -> a = b.
Proof. intros H. injection H as H. exact H. Qed.

End FptChkFacts.

(** X20: the $FPT checksum passes exactly when the bytes of the summed
    window add up to a multiple of 0x100; the window starts at the header,
    or 0x10 bytes before it when the pre-header counts, and has the length
    the header declares.  For ME 12+ and TXE 3+ a failure is dropped. *)
Theorem fpt_checksum_sum (reading : Py.bytes) (file_end : Z) (variant : String.string)
    (major start_fw_start_match : Z) (fpt_hdr : Py.bytes) (fpt_chk_fail : bool)
    (Hok : bytes_ok reading) (Hs : 0 <= start_fw_start_match)
    (Hhdr : Struct.get_struct reading start_fw_start_match Struct.sizeof_FPT_Header file_end
            = Struct.Fit fpt_hdr)
    (Hres : Fpt.fpt_checksum reading file_end variant major start_fw_start_match fpt_hdr
            = Fpt.ChkDone fpt_chk_fail) :
  let l := Fpt.layout variant major (Struct.u8 fpt_hdr 0x08) (Struct.u8 fpt_hdr 0x0A) in
  let a := Fpt.fpt_start_of l start_fw_start_match + Fpt.fpt_chk_start_of l in
  if Fpt.placeholder_checksum variant major then fpt_chk_fail = false
  else (fpt_chk_fail = false
        <-> Py.sum (Py.slice reading a (a + Struct.u8 fpt_hdr 0x0A)) mod 0x100 = 0).
Proof.
  cbv zeta.
  destruct (get_struct_fit_window reading start_fw_start_match Struct.sizeof_FPT_Header
              file_end fpt_hdr Hs ltac:(unfold Struct.sizeof_FPT_Header; lia) Hhdr)
    as (Hlen & Eh).
  unfold Struct.sizeof_FPT_Header in *. rewrite slice_nonneg in Eh by lia.
  replace (start_fw_start_match + 32 - start_fw_start_match) with 32 in Eh by lia.
  destruct (nth_error reading (Z.to_nat start_fw_start_match + 11)) as [c|] eqn:Ec.
  2:{ apply nth_error_None in Ec. unfold Py.len in Hlen. lia. }
  assert (Hc : 0 <= c < 256).
  { unfold bytes_ok in Hok. rewrite Forall_forall in Hok. apply Hok.
    eapply nth_error_In. exact Ec. }
  assert (Eu : Struct.u8 fpt_hdr 0x0B = c).
  { apply (u8_nth fpt_hdr 11). rewrite Eh, nth_error_window by lia. exact Ec. }
  assert (Eg : Fmt.getitem reading (start_fw_start_match + 0xB) = Some c).
  { unfold Fmt.getitem. destruct (start_fw_start_match + 0xB <? 0) eqn:E;
      [apply Z.ltb_lt in E; lia|].
    replace (Z.to_nat (start_fw_start_match + 0xB))
      with (Z.to_nat start_fw_start_match + 11)%nat by lia.
    exact Ec. }
  unfold Fpt.fpt_checksum in Hres. cbv zeta in Hres. rewrite Eg, Eu in Hres.
  set (l := Fpt.layout variant major (Struct.u8 fpt_hdr 0x08) (Struct.u8 fpt_hdr 0x0A)) in *.
  set (S := Py.sum (Py.slice reading
                      (Fpt.fpt_start_of l start_fw_start_match + Fpt.fpt_chk_start_of l)
                      (Fpt.fpt_start_of l start_fw_start_match + Fpt.fpt_chk_start_of l
                       + Struct.u8 fpt_hdr 0x0A))) in *.
  destruct (if (l =? 1) || (l =? 2)
            then Struct.get_struct reading (start_fw_start_match - 0x10) 0x10 file_end
            else Struct.Fit []) as [pre|o]; [|discriminate].
  apply ChkDone_inj in Hres. rewrite !land_ff, Z.mod_mod in Hres by lia.
  set (calc := (0x100 - (S - c)) mod 0x100) in *.
  assert (Hcalc : 0 <= calc < 0x100) by (apply Z.mod_pos_bound; lia).
  assert (Hiff : calc = c <-> S mod 0x100 = 0).
  { unfold calc.
    pose proof (Z.div_mod S 0x100 ltac:(lia)) as D.
    pose proof (Z.mod_pos_bound S 0x100 ltac:(lia)) as Bs.
    split; intros H.
    - pose proof (Z.div_mod (0x100 - (S - c)) 0x100 ltac:(lia)) as D'.
      rewrite H in D'.
      assert (E : S = 0x100 * (1 - (0x100 - (S - c)) / 0x100)) by lia.
      rewrite E, Z.mul_comm. apply Z_mod_mult.
    - replace (0x100 - (S - c)) with (c + (1 - S / 0x100) * 0x100) by lia.
      rewrite Z.mod_add by lia. apply Z.mod_small. lia. }
  destruct (Hex.text_eqb (Fmt.fmt_0x0X 2 calc) (Fmt.fmt_0x0X 2 c)) eqn:Et.
  - apply text_eqb_true in Et. apply fmt_0x0X_inj in Et; [|lia|lia].
    cbn [negb andb] in Hres. subst fpt_chk_fail.
    destruct (Fpt.placeholder_checksum variant major); [reflexivity|].
    split; [intros _; apply Hiff; exact Et|reflexivity].
  - apply text_eqb_false in Et. cbn [negb andb] in Hres.
    destruct (Fpt.placeholder_checksum variant major).
    + subst. reflexivity.
    + subst. split; [discriminate|]. intros H. exfalso. apply Et.
      apply Hiff in H. rewrite H. reflexivity.
Qed.


Lemma fpt_checksum_sum_witness :
  let reading := repeat 0 0x10
                 ++ [0x24; 0x46; 0x50; 0x54; 0; 0; 0; 0; 0x20; 0x10; 0x20; 0xA2]
                 ++ repeat 0 0x14 in
  let fpt_hdr := [0x24; 0x46; 0x50; 0x54; 0; 0; 0; 0; 0x20; 0x10; 0x20; 0xA2]
                 ++ repeat 0 0x14 in
  let l := Fpt.layout "ME" 8 (Struct.u8 fpt_hdr 0x08) (Struct.u8 fpt_hdr 0x0A) in
  let a := Fpt.fpt_start_of l 0x10 + Fpt.fpt_chk_start_of l in
  if Fpt.placeholder_checksum "ME" 8 then false = false
  else (false = false
        <-> Py.sum (Py.slice reading a (a + Struct.u8 fpt_hdr 0x0A)) mod 0x100 = 0).
Proof.
  intros reading fpt_hdr.
  apply (fpt_checksum_sum reading 0x30 "ME" 8 0x10 fpt_hdr false).
  - apply bytes_okb_ok. vm_compute. reflexivity.
  - lia.
  - vm_compute. reflexivity.
  - vm_compute. reflexivity.
Defined.

Section CpdScanFacts.

Lemma slice4_length (reading : Py.bytes) (x : Z) :
  (length (Py.slice reading x (x + 4)) <= 4)%nat.
Proof.
  unfold Py.slice. rewrite length_firstn, length_skipn.
  unfold Py.norm_index.
  destruct (x <? 0) eqn:E1; destruct (x + 4 <? 0) eqn:E2;
    try apply Z.ltb_lt in E1; try apply Z.ltb_lt in E2;
    try apply Z.ltb_ge in E1; try apply Z.ltb_ge in E2; unfold Py.len; lia.
Qed.

Lemma contains_tag (hay : Py.bytes) : (length hay <= 4)%nat ->
  Walk.contains Walk.tag_CPD hay = true <-> hay = Walk.tag_CPD.
Proof.
  intros Hl.
  destruct hay as [|a [|b [|c [|d [|e t]]]]]; cbn [length] in Hl; try lia;
    unfold Walk.tag_CPD; cbn [Walk.contains Walk.starts_with];
    rewrite ?andb_false_r, ?orb_false_r; try (split; [discriminate|discriminate]).
  destruct (Z.eqb_spec 0x24 a), (Z.eqb_spec 0x43 b), (Z.eqb_spec 0x50 c), (Z.eqb_spec 0x44 d);
    cbn [andb]; subst; split; intros H; try discriminate; try reflexivity;
    injection H; intros; congruence.
Qed.

Lemma scan_back_spec (reading : Py.bytes) : forall (n : nat) (offset : Z),
  let r := CpdScan.scan_back reading n offset in
  (r = -1 /\
   forall j : nat, (j < n)%nat ->
     Py.slice reading (offset - 1 - 4 * Z.of_nat j) (offset - 1 - 4 * Z.of_nat j + 4)
     <> Walk.tag_CPD) \/
  (exists k : nat, (k < n)%nat /\ r = offset - 1 - 4 * Z.of_nat k /\
     Py.slice reading r (r + 4) = Walk.tag_CPD /\
     forall j : nat, (j < k)%nat ->
       Py.slice reading (offset - 1 - 4 * Z.of_nat j) (offset - 1 - 4 * Z.of_nat j + 4)
       <> Walk.tag_CPD).
Proof.
  induction n as [|n IH]; intros offset; cbv zeta.
  - left. split; [reflexivity|]. intros j Hj. lia.
  - cbn [CpdScan.scan_back].
    destruct (Walk.contains Walk.tag_CPD (Py.slice reading (offset - 1) (offset - 1 + 4)))
      eqn:E.
    + right. exists 0%nat. apply contains_tag in E; [|apply slice4_length].
      split; [lia|]. split; [lia|]. split; [exact E|]. intros j Hj. lia.
    + assert (N : Py.slice reading (offset - 1) (offset - 1 + 4) <> Walk.tag_CPD).
      { intros H. apply (contains_tag _ (slice4_length reading (offset - 1))) in H.
        congruence. }
      destruct (IH (offset - 4)) as [[Hr Hn]|(k & Hk & Hr & Ht & Hb)].
      * left. split; [exact Hr|]. intros [|j] Hj.
        -- replace (offset - 1 - 4 * Z.of_nat 0) with (offset - 1) by lia. exact N.
        -- specialize (Hn j ltac:(lia)).
           replace (offset - 1 - 4 * Z.of_nat (S j)) with (offset - 4 - 1 - 4 * Z.of_nat j)
             by lia.
           exact Hn.
      * right. exists (S k). split; [lia|]. split; [lia|]. split; [exact Ht|].
        intros [|j] Hj.
        -- replace (offset - 1 - 4 * Z.of_nat 0) with (offset - 1) by lia. exact N.
        -- specialize (Hb j ltac:(lia)).
           replace (offset - 1 - 4 * Z.of_nat (S j)) with (offset - 4 - 1 - 4 * Z.of_nat j)
             by lia.
           exact Hb.
Qed.

Lemma slice_minus1_short (reading : Py.bytes) : Py.slice reading (-1) (-1 + 4) <> Walk.tag_CPD.
Proof.
  intros H. apply (f_equal (@length _)) in H.
  unfold Py.slice in H. rewrite length_firstn, length_skipn in H.
  unfold Py.norm_index, Py.len in H. cbn [Z.ltb Z.compare Z.add Z.pos_sub] in H.
  cbn [length Walk.tag_CPD] in H.
  change (-1 <? 0) with true in H. change (-1 + 4 <? 0) with false in H.
  cbv iota in H. lia.
Qed.

End CpdScanFacts.

(** X21: behind a manifest ext_anl takes as directory the nearest
    $CPD signature at or below the $MN2 tag whose distance from the tag is a
    multiple of four and less than 0x1000; it keeps -1 exactly when no such
    offset holds the signature. *)
Theorem cpd_scan_back_nearest (reading : Py.bytes) (start_man_match : Z) :
  let cpd_offset := CpdScan.cpd_offset_of reading start_man_match in
  let candidate (j : Z) := start_man_match + 1 - 4 * j in
  (cpd_offset <> -1 ->
   exists k, 0 <= k <= 1024 /\ cpd_offset = candidate k /\
     Py.slice reading cpd_offset (cpd_offset + 4) = Walk.tag_CPD /\
     forall j, 0 <= j < k ->
       Py.slice reading (candidate j) (candidate j + 4) <> Walk.tag_CPD) /\
  (cpd_offset = -1 ->
   forall j, 0 <= j <= 1024 ->
     Py.slice reading (candidate j) (candidate j + 4) <> Walk.tag_CPD).
Proof.
  cbv zeta. unfold CpdScan.cpd_offset_of.
  change CpdScan.back_count with 1025%nat.
  pose proof (scan_back_spec reading 1025 (start_man_match + 2)) as H. cbv zeta in H.
  set (r := CpdScan.scan_back reading 1025 (start_man_match + 2)) in *.
  destruct H as [[Hr Hn]|(k & Hk & Hr & Ht & Hb)].
  - split; [intros N; congruence|]. intros _ j Hj.
    specialize (Hn (Z.to_nat j) ltac:(lia)). rewrite Z2Nat.id in Hn by lia.
    replace (start_man_match + 1 - 4 * j) with (start_man_match + 2 - 1 - 4 * j) by lia.
    exact Hn.
  - split.
    + intros _. exists (Z.of_nat k). split; [lia|]. split; [lia|]. split; [exact Ht|].
      intros j Hj. specialize (Hb (Z.to_nat j) ltac:(lia)).
      rewrite Z2Nat.id in Hb by lia.
      replace (start_man_match + 1 - 4 * j) with (start_man_match + 2 - 1 - 4 * j) by lia.
      exact Hb.
    + intros E. exfalso. rewrite E in Ht. exact (slice_minus1_short reading Ht).
Qed.

Section SkuAttrFacts.

Lemma bits_field (l : list bool) (a n : nat) : (a + n <= length l)%nat ->
  bits_val 0 (firstn n (skipn a l))
  = (bits_val 0 l / 2 ^ Z.of_nat (length l - (a + n))) mod 2 ^ Z.of_nat n.
Proof.
  intros H.
  set (hi := firstn a l). set (mid := firstn n (skipn a l)).
  set (lo := skipn n (skipn a l)).
  assert (El : l = hi ++ mid ++ lo).
  { unfold hi, mid, lo. rewrite (firstn_skipn n (skipn a l)), firstn_skipn. reflexivity. }
  assert (Lmid : length mid = n).
  { unfold mid. rewrite length_firstn, length_skipn. lia. }
  assert (Llo : length lo = (length l - (a + n))%nat).
  { unfold lo. rewrite !length_skipn. lia. }
  pose proof (bits_val_bound mid) as Bm. pose proof (bits_val_bound lo) as Bl.
  unfold Py.len in *. rewrite Lmid in Bm. rewrite Llo in Bl.
  assert (E : bits_val 0 l
              = (bits_val 0 hi * 2 ^ Z.of_nat n + bits_val 0 mid)
                * 2 ^ Z.of_nat (length l - (a + n)) + bits_val 0 lo).
  { rewrite El at 1. rewrite bits_val_app, bits_val_acc, (bits_val_app mid lo).
    rewrite (bits_val_acc lo (bits_val 0 mid)).
    unfold Py.len. rewrite length_app, Lmid, Llo, Nat2Z.inj_add, Z.pow_add_r by lia.
    ring. }
  assert (P1 : 0 < 2 ^ Z.of_nat (length l - (a + n))) by (apply Z.pow_pos_nonneg; lia).
  assert (P2 : 0 < 2 ^ Z.of_nat n) by (apply Z.pow_pos_nonneg; lia).
  assert (D : bits_val 0 l / 2 ^ Z.of_nat (length l - (a + n))
              = bits_val 0 hi * 2 ^ Z.of_nat n + bits_val 0 mid).
  { symmetry. apply Z.div_unique with (r := bits_val 0 lo); [left; lia|]. lia. }
  rewrite D. apply Z.mod_unique with (q := bits_val 0 hi); [left; lia|]. lia.
Qed.

Lemma bits_pos_log2 (p : positive) : Py.len (bits_pos p) = Z.log2 (Zpos p) + 1.
Proof.
  destruct (bits_pos_length p) as [H1 H2].
  assert (Hl : 1 <= Py.len (bits_pos p)).
  { unfold Py.len. destruct p; cbn [bits_pos]; rewrite ?length_app; cbn [length]; lia. }
  assert (E : Z.log2 (Zpos p) = Py.len (bits_pos p) - 1).
  { apply Z.log2_unique; [lia|].
    replace (Z.succ (Py.len (bits_pos p) - 1)) with (Py.len (bits_pos p)) by lia.
    split; [|exact H1].
    replace (Py.len (bits_pos p)) with (Z.succ (Py.len (bits_pos p) - 1)) in H2 by lia.
    rewrite Z.pow_succ_r in H2 by lia. lia. }
  lia.
Qed.

Lemma bits32_width (w : Z) : 0 <= w -> Py.len (bits32 w) = SkuAttr.width w.
Proof.
  intros Hw. unfold SkuAttr.width. destruct w as [|p|p]; [reflexivity| |lia].
  unfold bits32. pose proof (bits_pos_log2 p) as E. unfold Py.len in *.
  rewrite length_app, repeat_length. lia.
Qed.

Lemma cut_value (w a b : Z) : 0 <= w -> 0 <= a -> a < b -> b <= SkuAttr.width w ->
  SkuAttr.cut w a b = Some ((w / 2 ^ (SkuAttr.width w - b)) mod 2 ^ (b - a)).
Proof.
  intros Hw Ha Hab Hb. unfold SkuAttr.cut, SkuAttr.fw_sku_attr.
  rewrite format_032b_bits by assumption.
  pose proof (bits32_width w Hw) as L. unfold Py.len in L.
  rewrite slice_nonneg by lia. rewrite skipn_map, firstn_map, int2_map_bitc.
  - f_equal. rewrite (bits_field (bits32 w) (Z.to_nat a) (Z.to_nat (b - a))) by lia.
    rewrite bits32_val by assumption.
    replace (Z.of_nat (length (bits32 w) - (Z.to_nat a + Z.to_nat (b - a))))
      with (SkuAttr.width w - b) by lia.
    replace (Z.of_nat (Z.to_nat (b - a))) with (b - a) by lia. reflexivity.
  - intros E. apply (f_equal (@length _)) in E.
    rewrite length_firstn, length_skipn in E. cbn [length] in E. lia.
Qed.

Lemma skipn_nth {A : Type} (l : list A) : forall (n : nat) (c : A),
  nth_error l n = Some c -> exists r, skipn n l = c :: r.
Proof.
  induction l as [|x t IH]; intros [|n] c H; try discriminate.
  - cbn in H. injection H as ->. eexists. reflexivity.
  - cbn in H. cbn [skipn]. apply IH. exact H.
Qed.

Lemma bit_value (w i : Z) : 0 <= w -> 0 <= i -> i < SkuAttr.width w ->
  SkuAttr.bit w i = Some ((w / 2 ^ (SkuAttr.width w - (i + 1))) mod 2).
Proof.
  intros Hw Hi Hb.
  pose proof (cut_value w i (i + 1) Hw Hi ltac:(lia) ltac:(lia)) as C.
  replace (i + 1 - i) with 1 in C by lia. change (2 ^ 1) with 2 in C.
  rewrite <- C. unfold SkuAttr.bit, SkuAttr.cut, Fmt.getitem.
  destruct (i <? 0) eqn:E; [apply Z.ltb_lt in E; lia|].
  rewrite slice_nonneg by lia. replace (Z.to_nat (i + 1 - i)) with 1%nat by lia.
  set (t := SkuAttr.fw_sku_attr w).
  destruct (nth_error t (Z.to_nat i)) as [c|] eqn:En.
  - destruct (skipn_nth t (Z.to_nat i) c En) as [r ->]. reflexivity.
  - apply nth_error_None in En. rewrite skipn_all2 by exact En. reflexivity.
Qed.

End SkuAttrFacts.

(** X22: when the upper half of FWSKUAttrib is zero the fields decoded
    from its 32 binary digits are bit fields of the word: the CSE size bits
    0-3, the SKU type bits 4-6, Lewisburg bit 7, M3 bit 8, M0 bit 9, the SKU
    platform bits 10-11, the silicon class bits 12-15 and the rest above. *)
Theorem fw_sku_attr_fields (w : Z) (Hw : 0 <= w < 2 ^ 32) :
  SkuAttr.fw_0C_cse w = Some (w mod 2 ^ 4) /\
  SkuAttr.fw_0C_sku1 w = Some ((w / 2 ^ 4) mod 2 ^ 3) /\
  SkuAttr.fw_0C_lbg w = Some ((w / 2 ^ 7) mod 2) /\
  SkuAttr.fw_0C_m3 w = Some ((w / 2 ^ 8) mod 2) /\
  SkuAttr.fw_0C_m0 w = Some ((w / 2 ^ 9) mod 2) /\
  SkuAttr.fw_0C_sku2 w = Some ((w / 2 ^ 10) mod 2 ^ 2) /\
  SkuAttr.fw_0C_sicl w = Some ((w / 2 ^ 12) mod 2 ^ 4) /\
  SkuAttr.fw_0C_res2 w = Some (w / 2 ^ 16).
Proof.
  assert (W : SkuAttr.width w = 32).
  { unfold SkuAttr.width. destruct (Z.eq_dec w 0) as [->|N]; [reflexivity|].
    assert (Z.log2 w < 32) by (apply Z.log2_lt_pow2; lia). lia. }
  unfold SkuAttr.fw_0C_cse, SkuAttr.fw_0C_sku1, SkuAttr.fw_0C_lbg, SkuAttr.fw_0C_m3,
    SkuAttr.fw_0C_m0, SkuAttr.fw_0C_sku2, SkuAttr.fw_0C_sicl, SkuAttr.fw_0C_res2.
  rewrite !cut_value, !bit_value by lia. rewrite W.
  change (32 - 32) with 0. rewrite Z.pow_0_r, Z.div_1_r.
  repeat split.
  assert (E : Py.int2 (Py.slice_to (SkuAttr.fw_sku_attr w) 16) = SkuAttr.cut w 0 16).
  { unfold SkuAttr.cut, Py.slice_to, Py.slice. f_equal.
    unfold Py.norm_index. cbn [Z.ltb Z.compare].
    change (Z.to_nat (Z.min 0 (Py.len (SkuAttr.fw_sku_attr w)))) with
      (Z.to_nat (Z.min 0 (Py.len (SkuAttr.fw_sku_attr w)))).
    assert (Hm : Z.min 0 (Py.len (SkuAttr.fw_sku_attr w)) = 0) by (unfold Py.len; lia).
    rewrite Hm, Z.sub_0_r. reflexivity. }
  rewrite E, cut_value by lia. rewrite W.
  f_equal. change (2 ^ (16 - 0)) with (2 ^ 16). change (32 - 16) with 16.
  apply Z.mod_small. split; [apply Z.div_pos; lia|].
  apply Z.div_lt_upper_bound; [lia|]. change (2 ^ 16 * 2 ^ 16) with (2 ^ 32). lia.
Qed.

Lemma fw_sku_attr_fields_witness :
  SkuAttr.fw_0C_sku1 0x4311 = Some ((0x4311 / 2 ^ 4) mod 2 ^ 3) /\
  SkuAttr.fw_0C_sku2 0x4311 = Some ((0x4311 / 2 ^ 10) mod 2 ^ 2).
Proof.
  destruct (fw_sku_attr_fields 0x4311 ltac:(lia)) as (_ & H1 & _ & _ & _ & H2 & _).
  split; assumption.
Defined.

(** X23: FWSKUAttrib is a 64-bit field and the text has more than 32
    digits once its upper half is not zero; the same cuts then take bits that
    lie higher by the number of extra digits, so the SKU type is no longer
    read from bits 4-6. *)
Theorem fw_sku_attr_wide (w : Z) (Hw : 2 ^ 32 <= w) :
  let extra := Z.log2 w + 1 - 32 in
  0 < extra /\
  SkuAttr.fw_0C_sku1 w = Some ((w / 2 ^ (4 + extra)) mod 2 ^ 3) /\
  SkuAttr.fw_0C_lbg w = Some ((w / 2 ^ (7 + extra)) mod 2) /\
  SkuAttr.fw_0C_sku2 w = Some ((w / 2 ^ (10 + extra)) mod 2 ^ 2).
Proof.
  cbv zeta.
  assert (L : 32 <= Z.log2 w) by (apply Z.log2_le_pow2; lia).
  assert (W : SkuAttr.width w = Z.log2 w + 1) by (unfold SkuAttr.width; lia).
  split; [lia|].
  unfold SkuAttr.fw_0C_sku1, SkuAttr.fw_0C_lbg, SkuAttr.fw_0C_sku2.
  rewrite !cut_value, !bit_value by lia. rewrite W.
  repeat split; f_equal; f_equal; f_equal; f_equal; lia.
Qed.

Lemma fw_sku_attr_wide_witness :
  SkuAttr.fw_0C_sku1 (2 ^ 32 + 0x10)
  = Some (((2 ^ 32 + 0x10) / 2 ^ (4 + (Z.log2 (2 ^ 32 + 0x10) + 1 - 32))) mod 2 ^ 3).
Proof.
  destruct (fw_sku_attr_wide (2 ^ 32 + 0x10) ltac:(lia)) as (_ & H & _). exact H.
Defined.

Section HashTextFacts.

Lemma byte_split (b q : Z) : 0 <= b < 256 ->
  (b + 256 * q) mod 256 = b /\ (b + 256 * q) / 256 = q.
Proof.
  intros H. replace (b + 256 * q) with (b + q * 256) by lia.
  rewrite Z.mod_add, Z.div_add by lia.
  rewrite Z.mod_small, Z.div_small by lia. lia.
Qed.

Lemma hexc_in_upper (d : Z) : 0 <= d < 16 -> In (Hex.hexc d) Hex.upper_digits.
Proof.
  intros H.
  destruct (digit_cases d H) as
    [->|[->|[->|[->|[->|[->|[->|[->|[->|[->|[->|[->|[->|[->|[->| ->]]]]]]]]]]]]]]];
    cbn; tauto.
Qed.

Lemma upper_hexdigest_shape (l : Py.bytes) : bytes_ok l ->
  length (Hex.upper (Hex.hexdigest l)) = (2 * length l)%nat /\
  RsaAnl.upper_hex (Hex.upper (Hex.hexdigest l)).
Proof.
  intros H. destruct (hexdigest_digits l H) as (E & Hd & Hl & _). rewrite E.
  split; [rewrite length_map; exact Hl|].
  unfold RsaAnl.upper_hex. apply Forall_forall. intros c Hc.
  apply in_map_iff in Hc. destruct Hc as (d & <- & Hin).
  apply hexc_in_upper. unfold digits_ok in Hd. rewrite Forall_forall in Hd. auto.
Qed.

Lemma word_text_be (b0 b1 b2 b3 : Z) : bytes_ok [b0; b1; b2; b3] ->
  Hex.fmt_08X (Ext.swap32 (Py.int_from_bytes_little [b0; b1; b2; b3]))
  = flat_map Krod.byte_text [b0; b1; b2; b3] /\
  Hex.fmt_08X (Py.int_from_bytes_little [b0; b1; b2; b3])
  = flat_map Krod.byte_text [b3; b2; b1; b0].
Proof.
  intros H.
  inversion H as [|? ? A0 Q1]; inversion Q1 as [|? ? A1 Q2];
    inversion Q2 as [|? ? A2 Q3]; inversion Q3 as [|? ? A3 _]; subst.
  cbn beta in *.
  assert (H' : bytes_ok [b3; b2; b1; b0]).
  { unfold bytes_ok. repeat (apply Forall_cons; [lia|]). apply Forall_nil. }
  set (v := Py.int_from_bytes_little [b0; b1; b2; b3]).
  assert (Ev : v = b0 + 256 * (b1 + 256 * (b2 + 256 * b3))).
  { unfold v. cbn [Py.int_from_bytes_little]. lia. }
  assert (Es : Ext.swap32 v = ((b0 * 256 + b1) * 256 + b2) * 256 + b3).
  { unfold Ext.swap32.
    destruct (byte_split b0 (b1 + 256 * (b2 + 256 * b3)) A0) as [M0 D0].
    destruct (byte_split b1 (b2 + 256 * b3) A1) as [M1 D1].
    destruct (byte_split b2 b3 A2) as [M2 D2].
    change (2 ^ 8) with 256. change (2 ^ 16) with (256 * 256).
    change (2 ^ 24) with (256 * 256 * 256).
    rewrite <- !Z.div_div by lia. rewrite Ev, M0, D0, M1, D1, M2, D2.
    rewrite (Z.mod_small b3) by lia. reflexivity. }
  assert (G : forall (l : Py.bytes) (x : Z), bytes_ok l -> length l = 4%nat ->
            x = Rsa.digest_int l -> Hex.fmt_08X x = flat_map Krod.byte_text l).
  { intros l x Hl L4 Ex.
    destruct (hexdigest_digits l Hl) as (E1 & Hd & Hlen & Hval).
    assert (Rx : 0 <= x < 2 ^ 32).
    { rewrite Ex, <- Hval. pose proof (dval_bound _ Hd) as B. unfold Py.len in B.
      rewrite Hlen, L4 in B. exact B. }
    destruct (fmt_08X_word x Rx) as (E2 & Hd2 & Hl2 & Hv2).
    rewrite E2, <- (upper_hex_byte_text l Hl), E1. f_equal.
    apply dval_inj; try assumption; [rewrite Hl2, Hlen, L4; reflexivity|].
    rewrite Hv2, Hval. exact Ex. }
  split.
  - apply G; [assumption|reflexivity|]. rewrite Es.
    unfold Rsa.digest_int. cbn [fold_left]. lia.
  - apply G; [assumption|reflexivity|]. rewrite Ev.
    unfold Rsa.digest_int. cbn [fold_left]. lia.
Qed.

Lemma skipn_cons4 (data : Py.bytes) (o : nat) : (o + 4 <= length data)%nat ->
  exists b0 b1 b2 b3, skipn o data = b0 :: b1 :: b2 :: b3 :: skipn (o + 4) data.
Proof.
  intros H. rewrite Nat.add_comm, <- skipn_skipn.
  destruct (skipn o data) as [|b0 [|b1 [|b2 [|b3 t]]]] eqn:E;
    try (apply (f_equal (@length _)) in E; rewrite length_skipn in E; cbn in E; lia).
  exists b0, b1, b2, b3. reflexivity.
Qed.

Lemma hash_words_bytes (data : Py.bytes) : bytes_ok data ->
  forall (n : nat) (off : Z), 0 <= off -> off + 4 * Z.of_nat n <= Py.len data ->
    flat_map (fun val => Hex.fmt_08X (Ext.swap32 val))
             (map (fun i => Struct.u32 data (off + 4 * Z.of_nat i)) (seq 0 n))
    = flat_map Krod.byte_text (Struct.field data off (4 * Z.of_nat n)) /\
    flat_map Hex.fmt_08X
             (rev (map (fun i => Struct.u32 data (off + 4 * Z.of_nat i)) (seq 0 n)))
    = flat_map Krod.byte_text (rev (Struct.field data off (4 * Z.of_nat n))).
Proof.
  intros Hok. induction n as [|n IH]; intros off Hoff Hlen.
  - unfold Struct.field. cbn. split; reflexivity.
  - unfold Py.len in Hlen.
    destruct (skipn_cons4 data (Z.to_nat off) ltac:(lia)) as (b0 & b1 & b2 & b3 & Es).
    assert (Hb : bytes_ok [b0; b1; b2; b3]).
    { pose proof (bytes_ok_skipn (Z.to_nat off) data Hok) as Hs. rewrite Es in Hs.
      inversion Hs as [|? ? A0 Q1]; inversion Q1 as [|? ? A1 Q2];
        inversion Q2 as [|? ? A2 Q3]; inversion Q3 as [|? ? A3 _]; subst.
      cbn beta in *. unfold bytes_ok. repeat (apply Forall_cons; [lia|]). apply Forall_nil. }
    destruct (word_text_be b0 b1 b2 b3 Hb) as [Wb Wl].
    assert (Eu : Struct.u32 data off = Py.int_from_bytes_little [b0; b1; b2; b3]).
    { unfold Struct.u32, Struct.field. rewrite Es. reflexivity. }
    assert (Ef : Struct.field data off (4 * Z.of_nat (S n))
                 = [b0; b1; b2; b3] ++ Struct.field data (off + 4) (4 * Z.of_nat n)).
    { unfold Struct.field. rewrite Es.
      replace (Z.to_nat (4 * Z.of_nat (S n))) with (4 + Z.to_nat (4 * Z.of_nat n))%nat by lia.
      cbn [Nat.add firstn app]. do 4 f_equal.
      replace (Z.to_nat (off + 4)) with (Z.to_nat off + 4)%nat by lia. reflexivity. }
    assert (Em : map (fun i => Struct.u32 data (off + 4 * Z.of_nat i)) (seq 0 (S n))
                 = Struct.u32 data off
                   :: map (fun i => Struct.u32 data (off + 4 + 4 * Z.of_nat i)) (seq 0 n)).
    { cbn [seq map]. f_equal; [f_equal; lia|].
      rewrite <- seq_shift, map_map. apply map_ext. intros i. f_equal. lia. }
    destruct (IH (off + 4) ltac:(lia) ltac:(unfold Py.len; lia)) as [IHb IHl].
    rewrite Em, Ef. split.
    + cbn [flat_map]. rewrite IHb, Eu, Wb, flat_map_app. reflexivity.
    + cbn [rev]. rewrite rev_app_distr, !flat_map_app. cbn [flat_map].
      rewrite app_nil_r, IHl, Eu, Wl. reflexivity.
Qed.

End HashTextFacts.

(** X24: the hash texts that ext_anl builds dword by dword are hex
    dumps of the stored bytes: the big-endian form (Extensions 0x10 and
    0x13) is the upper-case dump of the bytes in file order, the
    little-endian form (Extensions 0x03, 0x0A and 0x0F) that of the bytes in
    reverse order. *)
Theorem hash_text_is_hex_dump (data : Py.bytes) (off : Z) (n : nat)
    (Hok : bytes_ok data) (Hoff : 0 <= off)
    (Hlen : off + 4 * Z.of_nat n <= Py.len data) :
  Ext.hash_be (Struct.u32_array data off n)
  = Hex.upper (Hex.hexdigest (Struct.field data off (4 * Z.of_nat n))) /\
  Ext.hash_le (Struct.u32_array data off n)
  = Hex.upper (Hex.hexdigest (rev (Struct.field data off (4 * Z.of_nat n)))).
Proof.
  destruct (hash_words_bytes data Hok n off Hoff Hlen) as [Hb Hl].
  assert (Hf : bytes_ok (Struct.field data off (4 * Z.of_nat n))).
  { unfold Struct.field. apply bytes_ok_firstn, bytes_ok_skipn, Hok. }
  unfold Ext.hash_be, Ext.hash_le, Struct.u32_array.
  rewrite !upper_hex_byte_text by (try apply bytes_ok_rev; exact Hf).
  split; assumption.
Qed.

Lemma hash_text_is_hex_dump_witness :
  Ext.hash_be (Struct.u32_array [0xDE; 0xAD; 0xBE; 0xEF; 0x01; 0x02; 0x03; 0x04] 0 2)
  = Builtin.text "DEADBEEF01020304" /\
  Ext.hash_le (Struct.u32_array [0xDE; 0xAD; 0xBE; 0xEF; 0x01; 0x02; 0x03; 0x04] 0 2)
  = Builtin.text "04030201EFBEADDE".
Proof.
  apply (hash_text_is_hex_dump [0xDE; 0xAD; 0xBE; 0xEF; 0x01; 0x02; 0x03; 0x04] 0 2).
  - apply bytes_okb_ok. reflexivity.
  - lia.
  - vm_compute. discriminate.
Defined.

(** X25: rsa_anl always returns 40 upper-case hexadecimal digits as
    the hash of the signature, whatever the image holds at its place, and
    upper-case hexadecimal digits as the key text: two for every byte of the
    image between end_man_match + 0x60 and + 0x70, so 32 when all are
    there. *)
Theorem rsa_anl_shape (reading : Py.bytes) (end_man_match : Z)
    (Hok : bytes_ok reading) :
  let (rsa_hash, rsa_pkey) := RsaAnl.rsa_anl reading end_man_match in
  length rsa_hash = 40%nat /\ RsaAnl.upper_hex rsa_hash /\
  RsaAnl.upper_hex rsa_pkey /\
  (0 <= end_man_match + 0x60 -> end_man_match + 0x70 <= Py.len reading ->
   length rsa_pkey = 32%nat).
Proof.
  unfold RsaAnl.rsa_anl, RsaAnl.sha_1. cbv zeta.
  set (sig := Py.slice reading (end_man_match + 0x164) (end_man_match + 0x264)).
  destruct (sha1_digest sig) as [Hd Hl].
  destruct (upper_hexdigest_shape _ Hd) as [L1 U1].
  set (key := Py.slice reading (end_man_match + 0x60) (end_man_match + 0x70)).
  assert (Hk : bytes_ok key) by (apply bytes_ok_slice; assumption).
  destruct (upper_hexdigest_shape _ Hk) as [L2 U2].
  split; [rewrite L1, Hl; reflexivity|]. split; [exact U1|]. split; [exact U2|].
  intros H1 H2. rewrite L2.
  pose proof (slice_length_nonneg reading (end_man_match + 0x60) (end_man_match + 0x70)
                H1 ltac:(lia) H2) as E.
  fold key in E. unfold Py.len in E. lia.
Qed.

Lemma rsa_anl_shape_witness :
  let (rsa_hash, rsa_pkey) := RsaAnl.rsa_anl (repeat 0x5A 0x80) 0 in
  length rsa_hash = 40%nat /\ RsaAnl.upper_hex rsa_hash /\
  RsaAnl.upper_hex rsa_pkey /\
  (0 <= 0 + 0x60 -> 0 + 0x70 <= Py.len (repeat 0x5A 0x80) -> length rsa_pkey = 32%nat).
Proof.
  apply (rsa_anl_shape (repeat 0x5A 0x80) 0).
  apply bytes_okb_ok. vm_compute. reflexivity.
Defined.

Section ExtPreserved.

Import Ext.

(** A relation between the lists before and after that every single update
    of the loop keeps, but [add_ext]. *)
Variable P : accum -> accum -> Prop.
Hypothesis P_refl : forall a, P a a.
Hypothesis P_trans : forall a b c, P a b -> P b c -> P a c.
Hypothesis P_add_err : forall m a, P a (add_err m a).
Hypothesis P_add_hash : forall h a, P a (add_hash h a).
Hypothesis P_add_mod : forall r a, P a (add_mod r a).
Hypothesis P_set_vcn : forall v a, P a (set_vcn v a).
Hypothesis P_set_in_id : forall v a, P a (set_in_id v a).
Hypothesis P_set_sku : forall v a, P a (set_sku v a).
Hypothesis P_add_table : forall a, P a (add_table a).

Lemma keeps_bind {A : Type} (a : accum) (m : res A) (k : A -> res accum) :
  (forall x, m = Ok x -> ExtLists.keeps P a (k x)) -> ExtLists.keeps P a (bind m k).
Proof. intros H. destruct m; cbn; auto. Qed.

Lemma iter_pos_inv {S R : Type} (f : S -> iter_res S R) (I : S -> Prop) (Q : R -> Prop) :
  (forall s s', I s -> f s = More s' -> I s') ->
  (forall s r, I s -> f s = Stop r -> Q r) ->
  forall (p : positive) (s : S), I s ->
    match iter_pos p f s with More s' => I s' | Stop r => Q r end.
Proof.
  intros Hm Hs. induction p as [p IH|p IH|]; intros s Is; cbn [iter_pos].
  - destruct (f s) as [s1|r1] eqn:E1; [|apply (Hs _ _ Is E1)].
    pose proof (IH s1 (Hm _ _ Is E1)) as H1.
    destruct (iter_pos p f s1) as [s2|r2]; [|exact H1]. apply IH. exact H1.
  - pose proof (IH s Is) as H1.
    destruct (iter_pos p f s) as [s1|r1]; [|exact H1]. apply IH. exact H1.
  - destruct (f s) as [s1|r1] eqn:E1; [apply (Hm _ _ Is E1)|apply (Hs _ _ Is E1)].
Qed.

Lemma keeps_mod_loop_run (body : Z -> accum -> res accum) (mod_length limit off : Z)
    (a0 a : accum) :
  (forall o a1, ExtLists.keeps P a1 (body o a1)) -> P a0 a ->
  ExtLists.keeps P a0 (mod_loop_run body mod_length limit off a).
Proof.
  intros Hb Ha. unfold mod_loop_run.
  pose proof (iter_pos_inv (mod_turn body mod_length limit)
                (fun s => P a0 (snd s)) (ExtLists.keeps P a0)) as H.
  specialize (H ltac:(
    intros [o a1] [o' a2] I1; unfold mod_turn; destruct (o <? limit); [|discriminate];
    pose proof (Hb o a1) as K; destruct (body o a1); intros E; inversion E; subst;
    cbn [snd] in *; eapply P_trans; [exact I1|exact K])).
  specialize (H ltac:(
    intros [o a1] r I1; unfold mod_turn; destruct (o <? limit);
    [pose proof (Hb o a1) as K; destruct (body o a1); intros E; inversion E; subst;
     exact I
    |intros E; inversion E; subst; exact I1])).
  specialize (H (Z.to_pos (limit - off + 1)) (off, a) Ha).
  destruct (iter_pos _ _ _); [exact I|exact H].
Qed.

Lemma keeps_print_block (c : context) (tag off size : Z) (a : accum) :
  ExtLists.keeps P a (print_block c tag off size a).
Proof.
  unfold print_block. destruct (me11_mod_extr c); [|apply P_refl].
  destruct (ext_sizeof tag) as [len|]; [|apply P_refl].
  apply keeps_bind. intros hdr _. apply keeps_bind. intros _ _.
  destruct (mod_sizeof tag) as [m|]; [|apply P_add_table].
  apply keeps_mod_loop_run; [|apply P_add_table].
  intros o a1. apply keeps_bind. intros mh _. apply keeps_bind. intros _ _.
  apply P_add_table.
Qed.

Lemma keeps_met_hashes (c : context) (hdr_len off size : Z) (a0 a : accum) :
  P a0 a -> ExtLists.keeps P a0 (met_hashes c hdr_len off size a).
Proof.
  intros Ha. unfold met_hashes. apply keeps_mod_loop_run; [|exact Ha].
  intros o a1. apply keeps_bind. intros mh _. apply keeps_bind. intros name _.
  apply P_add_hash.
Qed.

Lemma keeps_dispatch (c : context) (tag off size : Z) (a : accum) :
  ExtLists.keeps P a (dispatch c tag off size a).
Proof.
  unfold dispatch.
  destruct (tag =? 3).
  { apply keeps_bind. intros hdr _. apply keeps_met_hashes.
    eapply P_trans; [apply P_set_vcn|apply P_set_in_id]. }
  destruct (tag =? 10).
  { apply keeps_bind. intros hdr _. apply keeps_bind. intros name _. apply P_add_mod. }
  destruct (tag =? 12).
  { apply keeps_bind. intros hdr _. apply P_set_sku. }
  destruct (tag =? 15).
  { apply keeps_bind. intros hdr _. apply keeps_met_hashes. apply P_set_vcn. }
  destruct (tag =? 16).
  { apply keeps_bind. intros hdr _. apply keeps_bind. intros name _. apply P_add_mod. }
  destruct (tag =? 19).
  { apply keeps_bind. intros hdr _. cbn [ExtLists.keeps].
    repeat match goal with
           | |- context [if ?b then _ else _] => destruct b
           end;
      repeat first [apply P_refl | eapply P_trans; [|apply P_add_mod]]. }
  apply P_refl.
Qed.

(** What one turn does to the lists. *)
Lemma turn_keeps (c : context) (s : loop_state) (t : turn) :
  ext_turn c s = Ok t ->
  match t with
  | Again s' => P (acc s) (acc s')
  | Done ForcedBreak _ a' =>
      exists cname, a' = add_err (ForcedBreakMsg (cpd_name c) cname) (acc s)
  | Done EndReached _ a' =>
      exists a1 r n, P (acc s) a1 /\ a' = add_ext r n a1 /\
        ExtLists.entry_row c r
  end.
Proof.
  unfold ext_turn. destruct (loop_break s + 1 >? 100).
  - destruct (decode (cpd_entry_name c)) as [cname| | |]; cbn [bind]; try discriminate.
    intros H. injection H as <-. exists cname. reflexivity.
  - match goal with
    | |- bind ?m _ = _ -> _ => assert (K0 : match m with Ok ta => P (acc s) (snd ta)
                                                   | _ => True end)
    end.
    { destruct (existsb _ _); [apply P_refl|].
      destruct (decode (cpd_entry_name c)); cbn [bind]; try exact I. apply P_add_err. }
    match goal with
    | |- bind ?m _ = _ -> _ => destruct m as [ta| | |]; cbn [bind]; try discriminate
    end.
    pose proof (keeps_print_block c (fst ta) (cpd_ext_offset s)
                  (Py.int_from_bytes_little
                     (Py.slice (reading c) (cpd_ext_offset s + 0x4) (cpd_ext_offset s + 0x8)))
                  (snd ta)) as K1.
    destruct (print_block _ _ _ _ _) as [a1| | |]; cbn [bind]; try discriminate.
    pose proof (keeps_dispatch c (fst ta) (cpd_ext_offset s)
                  (Py.int_from_bytes_little
                     (Py.slice (reading c) (cpd_ext_offset s + 0x4) (cpd_ext_offset s + 0x8)))
                  a1) as K2.
    destruct (dispatch _ _ _ _ _) as [a2| | |]; cbn [bind]; try discriminate.
    cbn [ExtLists.keeps] in K1, K2.
    assert (K : P (acc s) a2) by (eapply P_trans; [eapply P_trans|]; eassumption).
    destruct (_ >? _).
    + destruct (decode (cpd_entry_name c)) as [name| | |] eqn:En; cbn [bind];
        try discriminate.
      assert (name = cpd_entry_name c) as ->.
      { unfold decode in En. destruct (utf8_valid (cpd_entry_name c)); congruence. }
      intros H. injection H as <-.
      eexists a2, _, _. split; [exact K|]. split; [reflexivity|].
      unfold ExtLists.entry_row.
      cbn [row Attr.mod_name Attr.mod_start Attr.mod_size_comp Attr.mod_size_uncomp
           Attr.mod_hash Attr.mod_empty].
      repeat split; try reflexivity.
      * destruct (_ || _); [left|right]; reflexivity.
      * intros H.
        destruct (Walk.bytes_eqb _ _) eqn:E1; [left; apply bytes_eqb_true; exact E1|].
        destruct (cpd_entry_offset c >? file_end c) eqn:E2;
          [right; apply gtb_true; exact E2|].
        cbn in H. discriminate.
      * intros [H|H].
        -- rewrite (proj2 (bytes_eqb_true _ _) H). reflexivity.
        -- rewrite (proj2 (gtb_true _ _) H), orb_true_r. reflexivity.
    + intros H. injection H as <-. exact K.
Qed.

Lemma loop_keeps (c : context) : forall (fuel : nat) (s : loop_state) e n a',
  ext_loop fuel c s = Ok (e, n, a') ->
  match e with
  | ForcedBreak =>
      exists a1 cname, P (acc s) a1 /\ a' = add_err (ForcedBreakMsg (cpd_name c) cname) a1
  | EndReached =>
      exists a1 r nm, P (acc s) a1 /\ a' = add_ext r nm a1 /\
        ExtLists.entry_row c r
  end.
Proof.
  induction fuel as [|fuel IH]; intros s e n a' H; [discriminate|].
  cbn [ext_loop] in H.
  destruct (ext_turn c s) as [t| | |] eqn:E; cbn [bind] in H; try discriminate.
  apply turn_keeps in E. destruct t as [s'|e' n' a''].
  - specialize (IH _ _ _ _ H). destruct e.
    + destruct IH as (a1 & r & nm & K & R). exists a1, r, nm.
      split; [eapply P_trans; eassumption|exact R].
    + destruct IH as (a1 & cname & K & R). exists a1, cname.
      split; [eapply P_trans; eassumption|exact R].
  - injection H as -> -> ->. destruct e.
    + exact E.
    + destruct E as (cname & ->). exists (acc s), cname. split; [apply P_refl|reflexivity].
Qed.

End ExtPreserved.

Section ExtListsFacts.

Import Ext.

Lemma same_entries_loop (c : context) (fuel : nat) (s : loop_state) e n a' :
  ext_loop fuel c s = Ok (e, n, a') ->
  match e with
  | ForcedBreak =>
      exists a1 cname, ExtLists.same_entries (acc s) a1 /\
        a' = add_err (ForcedBreakMsg (cpd_name c) cname) a1
  | EndReached =>
      exists a1 r nm, ExtLists.same_entries (acc s) a1 /\ a' = add_ext r nm a1 /\
        ExtLists.entry_row c r
  end.
Proof.
  apply (loop_keeps ExtLists.same_entries); unfold ExtLists.same_entries;
    try (intros; split; reflexivity).
  intros a b d [H1 H2] [H3 H4]. split; congruence.
Qed.

Lemma grown_refl (a : accum) : ExtLists.grown a a.
Proof. unfold ExtLists.grown. repeat split; exists []; rewrite app_nil_r; reflexivity. Qed.

Lemma grown_trans (a b d : accum) :
  ExtLists.grown a b -> ExtLists.grown b d -> ExtLists.grown a d.
Proof.
  unfold ExtLists.grown.
  intros ([l1 H1] & [l2 H2] & [l3 H3] & [l4 H4] & [l5 H5])
         ([m1 K1] & [m2 K2] & [m3 K3] & [m4 K4] & [m5 K5]).
  repeat split; eexists;
    [rewrite K1, H1|rewrite K2, H2|rewrite K3, H3|rewrite K4, H4|rewrite K5, H5];
    rewrite <- app_assoc; reflexivity.
Qed.

Ltac grown_step :=
  unfold ExtLists.grown; cbn; repeat split;
  first [exists []; rewrite app_nil_r; reflexivity | eexists; reflexivity].

Lemma grown_loop (c : context) (fuel : nat) (s : loop_state) e n a' :
  ext_loop fuel c s = Ok (e, n, a') -> ExtLists.grown (acc s) a'.
Proof.
  intros H.
  pose proof (loop_keeps ExtLists.grown grown_refl grown_trans) as L.
  specialize (L ltac:(intros; grown_step) ltac:(intros; grown_step)
                ltac:(intros; grown_step) ltac:(intros; grown_step)
                ltac:(intros; grown_step) ltac:(intros; grown_step)
                ltac:(intros; grown_step) c fuel s e n a' H).
  destruct e.
  - destruct L as (a1 & r & nm & K & -> & _).
    eapply grown_trans; [exact K|]. grown_step.
  - destruct L as (a1 & cname & K & ->).
    eapply grown_trans; [exact K|]. grown_step.
Qed.

End ExtListsFacts.

(** X26: a manifest or metadata entry whose extensions are walked to
    the end of the entry gets exactly one row in cpd_ext_attr, with its
    name, place and size and the flag of an empty entry; an entry cut by the
    forced break gets none, so it is missing from the list the extraction
    works from.  No other row of that list changes. *)
Theorem ext_scan_entry_row (c : Ext.context) (cpd_ext_offset : Z) (a : Ext.accum) :
  match Ext.ext_scan c cpd_ext_offset a with
  | Ext.Ok (Ext.EndReached, _, a') =>
      exists r nm,
        Ext.cpd_ext_attr a' = Ext.cpd_ext_attr a ++ [r] /\
        Ext.cpd_ext_names a' = Ext.cpd_ext_names a ++ [nm] /\
        ExtLists.entry_row c r
  | Ext.Ok (Ext.ForcedBreak, _, a') =>
      Ext.cpd_ext_attr a' = Ext.cpd_ext_attr a /\
      Ext.cpd_ext_names a' = Ext.cpd_ext_names a
  | _ => True
  end.
Proof.
  unfold Ext.ext_scan.
  destruct (Ext.ext_loop 101 c _) as [[[e n] a']| | |] eqn:E; try exact I.
  apply same_entries_loop in E. cbn [Ext.acc] in E. destruct e.
  - destruct E as (a1 & r & nm & [K1 K2] & -> & R). exists r, nm.
    cbn [Ext.add_ext Ext.cpd_ext_attr Ext.cpd_ext_names]. rewrite K1, K2.
    split; [reflexivity|]. split; [reflexivity|exact R].
  - destruct E as (a1 & cname & [K1 K2] & ->).
    cbn [Ext.add_err Ext.cpd_ext_attr Ext.cpd_ext_names]. split; assumption.
Qed.

(** X27: the extension loop only appends: the errors, the metadata
    hashes, the module rows, the entry rows and the entry names it is given
    are all still there, in their order and unchanged, at the start of the
    lists it returns. *)
Theorem ext_scan_lists_grow (c : Ext.context) (cpd_ext_offset : Z) (a : Ext.accum) :
  match Ext.ext_scan c cpd_ext_offset a with
  | Ext.Ok (_, _, a') => ExtLists.grown a a'
  | _ => True
  end.
Proof.
  unfold Ext.ext_scan.
  destruct (Ext.ext_loop 101 c _) as [[[e n] a']| | |] eqn:E; try exact I.
  apply grown_loop in E. exact E.
Qed.

Section KrodAnlFacts.

Lemma in_removelast {A : Type} (l : list A) (x : A) : In x (removelast l) -> In x l.
Proof.
  induction l as [|a [|b t] IH]; cbn [removelast]; intros H; [contradiction|contradiction|].
  destruct H as [<-|H]; [left; reflexivity|right; apply IH; exact H].
Qed.

Lemma krod_span (reading : Py.bytes) (i : Z) :
  In i (Batch.finditer Krod.krod_pat reading) ->
  Py.slice reading i (i + 4) = [0x4B; 0x52; 0x4F; 0x44].
Proof.
  intros H. unfold Krod.krod_pat in H. rewrite <- (app_nil_r (map _ _)) in H.
  apply finditer_bytes in H. destruct H as [_ H]. exact H.
Qed.

End KrodAnlFacts.

(** X28: krod_anl cuts the SKU text at the last KROD tag of the image
    and returns the spans of the tags before it, in order, each the four
    bytes KROD; for an Update image, or without a tag, it returns "NaN" and
    no span. *)
Theorem krod_anl_spans (reading : Py.bytes) (fw_type : String.string) :
  let (sku_check, me11_sku_ranges) := Krod.krod_anl reading fw_type in
  let spans := map (fun i => (i, i + 4)) (Batch.finditer Krod.krod_pat reading) in
  Forall (fun s => snd s = fst s + 4 /\
                   Py.slice reading (fst s) (snd s) = [0x4B; 0x52; 0x4F; 0x44])
         me11_sku_ranges /\
  (fw_type = "Update" \/ spans = [] ->
   sku_check = Builtin.text "NaN" /\ me11_sku_ranges = []) /\
  (fw_type <> "Update" -> spans <> [] ->
   exists last_span,
     spans = me11_sku_ranges ++ [last_span] /\
     Py.slice reading (fst last_span) (fst last_span + 4) = [0x4B; 0x52; 0x4F; 0x44] /\
     sku_check = Krod.krod_fit_sku reading (fst last_span)).
Proof.
  unfold Krod.krod_anl. cbv zeta.
  set (spans := map (fun i => (i, i + 4)) (Batch.finditer Krod.krod_pat reading)).
  assert (Hall : Forall (fun s => snd s = fst s + 4 /\
                   Py.slice reading (fst s) (snd s) = [0x4B; 0x52; 0x4F; 0x44]) spans).
  { apply Forall_forall. intros s Hs. unfold spans in Hs. apply in_map_iff in Hs.
    destruct Hs as (i & <- & Hi). cbn [fst snd]. split; [reflexivity|].
    apply krod_span. exact Hi. }
  destruct (String.eqb_spec fw_type "Update") as [->|N]; cbn [negb].
  - split; [constructor|]. split; [intros _; split; reflexivity|]. intros H. congruence.
  - destruct spans as [|s0 rest] eqn:Es.
    + split; [constructor|]. split; [intros _; split; reflexivity|]. intros _ H. congruence.
    + rewrite <- Es in *.
      assert (Hne : spans <> []) by (rewrite Es; discriminate).
      pose proof (app_removelast_last (0, 0) Hne) as Hl.
      split; [|split].
      * apply Forall_forall. intros s Hs. rewrite Forall_forall in Hall.
        apply Hall. apply in_removelast. exact Hs.
      * intros [H|H]; congruence.
      * intros _ _. exists (last spans (0, 0)). split; [exact Hl|]. split; [|reflexivity].
        rewrite Forall_forall in Hall.
        destruct (Hall (last spans (0, 0))) as [H1 H2].
        { rewrite Hl at 2. apply in_or_app. right. left. reflexivity. }
        rewrite <- H1. exact H2.
Qed.

Section ModStoreFacts.

Lemma ff_times_length (n : Z) : Py.len (ModAnl.ff_times n) = Z.max 0 n.
Proof. unfold ModAnl.ff_times, Py.len. rewrite repeat_length. lia. Qed.

End ModStoreFacts.

(** X29: the two adjustments of an LZMA module.  The header fix takes
    out exactly the three zero bytes at 0xE-0x10 of a module that starts
    with 36 00 40 00 00, and nothing else.  The padding after decompression
    never shortens the data: the result starts with the decompressed bytes,
    goes on with bytes 0xFF, and its length is the larger of the real and
    the declared size. *)
Theorem lzma_module_adjustments (mod_data : Py.bytes) (mod_size_uncomp : Z) :
  (ModAnl.strip_header_zeroes mod_data = mod_data \/
   (firstn 5 mod_data = ModStore.lzma_props /\
    mod_data = firstn 14 (ModAnl.strip_header_zeroes mod_data) ++ [0; 0; 0]
               ++ skipn 14 (ModAnl.strip_header_zeroes mod_data) /\
    Py.len (ModAnl.strip_header_zeroes mod_data) = Py.len mod_data - 3)) /\
  Py.len (ModStore.eof_padding mod_data mod_size_uncomp)
  = Z.max (Py.len mod_data) mod_size_uncomp /\
  firstn (length mod_data) (ModStore.eof_padding mod_data mod_size_uncomp) = mod_data /\
  Forall (fun b => b = 0xFF)
         (skipn (length mod_data) (ModStore.eof_padding mod_data mod_size_uncomp)).
Proof.
  split; [|split; [|split]].
  - unfold ModAnl.strip_header_zeroes.
    destruct (ModAnl.bytes_eqb (firstn 5 mod_data) [0x36; 0x00; 0x40; 0x00; 0x00]) eqn:E1;
      [|left; reflexivity].
    destruct (ModAnl.bytes_eqb (Py.slice mod_data 0xE 0x11) [0x00; 0x00; 0x00]) eqn:E2;
      [|left; reflexivity].
    cbn [andb]. right.
    unfold ModAnl.bytes_eqb in E1, E2.
    destruct (list_eq_dec Z.eq_dec (firstn 5 mod_data) _) as [H1|]; [|discriminate].
    destruct (list_eq_dec Z.eq_dec (Py.slice mod_data 0xE 0x11) _) as [H2|]; [|discriminate].
    clear E1 E2. rewrite slice_nonneg in H2 by lia.
    change (Z.to_nat (0x11 - 0xE)) with 3%nat in H2. change (Z.to_nat 0xE) with 14%nat in H2.
    assert (L : (17 <= length mod_data)%nat).
    { apply (f_equal (@length _)) in H2. rewrite length_firstn, length_skipn in H2.
      cbn [length] in H2. lia. }
    assert (Et : Py.slice_to mod_data 0xE = firstn 14 mod_data).
    { unfold Py.slice_to, Py.norm_index, Py.len. cbn [Z.ltb Z.compare].
      f_equal. lia. }
    assert (Ef : Py.slice_from mod_data 0x11 = skipn 17 mod_data).
    { unfold Py.slice_from, Py.norm_index, Py.len. cbn [Z.ltb Z.compare].
      f_equal. lia. }
    rewrite Et, Ef.
    assert (L14 : length (firstn 14 mod_data) = 14%nat) by (rewrite length_firstn; lia).
    split; [exact H1|]. split.
    + rewrite firstn_app, L14. change (14 - 14)%nat with 0%nat.
      rewrite firstn_firstn. change (Nat.min 14 14) with 14%nat.
      rewrite firstn_O, app_nil_r.
      rewrite skipn_app, L14. change (14 - 14)%nat with 0%nat. rewrite skipn_O.
      rewrite (skipn_all2 (firstn 14 mod_data)) by lia.
      change ([] ++ skipn 17 mod_data) with (skipn 17 mod_data).
      rewrite <- H2.
      replace (skipn 17 mod_data) with (skipn 3 (skipn 14 mod_data))
        by (rewrite skipn_skipn; reflexivity).
      rewrite (firstn_skipn 3 (skipn 14 mod_data)), firstn_skipn. reflexivity.
    + unfold Py.len. rewrite length_app, L14, length_skipn. lia.
  - unfold ModStore.eof_padding. cbv zeta.
    destruct (Py.len mod_data =? mod_size_uncomp) eqn:E; cbn [negb].
    + apply Z.eqb_eq in E. lia.
    + apply Z.eqb_neq in E. pose proof (ff_times_length (mod_size_uncomp - Py.len mod_data)).
      unfold Py.len in *. rewrite length_app. lia.
  - unfold ModStore.eof_padding. cbv zeta.
    destruct (negb _); [|apply firstn_all].
    rewrite firstn_app, Nat.sub_diag, firstn_all. cbn [firstn]. apply app_nil_r.
  - unfold ModStore.eof_padding. cbv zeta.
    destruct (negb _).
    + rewrite skipn_app, Nat.sub_diag, skipn_all. cbn [skipn app].
      apply Forall_forall. intros b Hb. unfold ModAnl.ff_times in Hb.
      apply repeat_spec in Hb. exact Hb.
    + rewrite skipn_all. constructor.
Qed.

Section SpiFdFacts.

Import Batch.

Lemma search_from_sound (alts : list (list pat_item)) (data : Py.bytes) :
  forall (i j : Z), search_from alts data i = Some j ->
    exists k : nat, j = i + Z.of_nat k /\
      existsb (fun pat => match_here pat (skipn k data)) alts = true.
Proof.
  induction data as [|b data' IH]; intros i j H; cbn [search_from] in H.
  - destruct (existsb _ alts) eqn:E; [|discriminate].
    injection H as <-. exists 0%nat. split; [lia|exact E].
  - destruct (existsb (fun pat => match_here pat (b :: data')) alts) eqn:E.
    + injection H as <-. exists 0%nat. split; [lia|exact E].
    + destruct (IH _ _ H) as (k & -> & Hk). exists (S k). split; [lia|exact Hk].
Qed.

Lemma search_bytes (pre : list Z) (l : list Z) (tail : list pat_item) (data : Py.bytes)
    (j : Z) :
  search [map Byte pre ++ map Byte l ++ tail] data = Some j ->
  0 <= j /\ Py.slice data (j + Py.len pre) (j + Py.len pre + Py.len l) = l.
Proof.
  intros H. unfold search in H.
  destruct (search_from_sound _ _ _ _ H) as (k & -> & Hk).
  cbn [existsb] in Hk. rewrite orb_false_r in Hk.
  split; [lia|]. rewrite slice_nonneg by (unfold Py.len; lia).
  replace (Z.to_nat (0 + Z.of_nat k + Py.len pre + Py.len l - (0 + Z.of_nat k + Py.len pre)))
    with (length l) by (unfold Py.len; lia).
  replace (Z.to_nat (0 + Z.of_nat k + Py.len pre)) with (length pre + k)%nat
    by (unfold Py.len; lia).
  rewrite <- skipn_skipn.
  revert Hk. generalize (skipn k data). clear. intros d H.
  revert d H. induction pre as [|x t IH]; intros d H.
  - cbn [map app length skipn] in *. revert d H.
    induction l as [|y u IHl]; intros d H; [reflexivity|].
    destruct d as [|b d']; [discriminate|].
    cbn [map app match_here item_matches] in H. apply andb_true_iff in H as [H1 H2].
    apply Z.eqb_eq in H1. subst. cbn [length firstn]. f_equal. apply IHl. exact H2.
  - destruct d as [|b d']; [discriminate|].
    cbn [map app match_here item_matches] in H. apply andb_true_iff in H as [_ H2].
    cbn [length skipn]. apply IH. exact H2.
Qed.

End SpiFdFacts.

(** X30: when spi_fd_init reports a flash descriptor, the end it
    returns lies 0x14 bytes after the start it returns, in both layouts; the
    signature 5A A5 F0 0F sits at start + 0x10 in the first layout (where the
    start may be as low as -0xC) and at the start in the second; without
    either pattern it reports no descriptor and the offsets 0. *)
Theorem spi_fd_init_offsets (reading : Py.bytes) :
  match SpiFd.spi_fd_init reading with
  | (true, start_fd, end_fd) =>
      end_fd = start_fd + 0x14 /\
      ((- 0xC <= start_fd /\
        Py.slice reading (start_fd + 0x10) (start_fd + 0x14) = SpiFd.signature) \/
       (0 <= start_fd /\ Py.slice reading start_fd (start_fd + 0x4) = SpiFd.signature))
  | (false, start_fd, end_fd) =>
      start_fd = 0 /\ end_fd = 0 /\
      Batch.search [SpiFd.pch_pat] reading = None /\
      Batch.search [SpiFd.ich_pat] reading = None
  end.
Proof.
  unfold SpiFd.spi_fd_init.
  destruct (Batch.search [SpiFd.pch_pat] reading) as [i|] eqn:E1.
  - cbv zeta. change (Py.len SpiFd.pch_pat) with 8. split; [lia|]. left.
    change SpiFd.pch_pat
      with (map Batch.Byte [0xFF; 0xFF; 0xFF; 0xFF] ++ map Batch.Byte SpiFd.signature ++ [])
      in E1.
    apply search_bytes in E1. destruct E1 as [H0 H1].
    change (Py.len [0xFF; 0xFF; 0xFF; 0xFF]) with 4 in H1.
    change (Py.len SpiFd.signature) with 4 in H1.
    split; [lia|].
    replace (i - 0xC + 0x10) with (i + 4) by lia.
    replace (i - 0xC + 0x14) with (i + 4 + 4) by lia. exact H1.
  - destruct (Batch.search [SpiFd.ich_pat] reading) as [i|] eqn:E2.
    + cbv zeta. change (Py.len SpiFd.ich_pat) with 192. split; [lia|]. right.
      change SpiFd.ich_pat
        with (map Batch.Byte [] ++ map Batch.Byte SpiFd.signature
              ++ (repeat Batch.AnyByte 172 ++ repeat (Batch.Byte 0xFF) 16))
        in E2.
      apply search_bytes in E2. destruct E2 as [H0 H1].
      change (Py.len []) with 0 in H1. change (Py.len SpiFd.signature) with 4 in H1.
      split; [lia|].
      replace (i - 0x0) with (i + 0) by lia.
      replace (i + 0 + 0x4) with (i + 0 + 4) by lia. exact H1.
    + repeat split; reflexivity.
Qed.


